(** * Nexarch: plan request client, application state controller and
      3D scene construction

    A shallow embedding of the TypeScript sources

      - [src/services/gemini.service.ts]      (module [Gemini])
      - [src/app.component.ts]                (modules [App] and [AppNumeric],
                                               the two revisions of the file)
      - [src/three-d-view/three-d-view.component.ts]
                                              (modules [ThreeDView] and
                                               [ThreeDViewNeon], the two
                                               revisions of the component)

    JavaScript numbers that carry lengths, percentages and floor counts of
    neighbours are rationals ([Q]): a finite double is the rational it
    denotes.  Where [analyzePlot] rounds a computed length with
    [toFixed(1)], the arithmetic before it is rounded to the nearest double
    as IEEE 754 prescribes ([Js.double]), since the decimal shown depends
    on it; elsewhere the arithmetic is exact.  Numbers used as a loop
    bound, as an array index or compared with an integer literal
    ([totalFloors], [selectedFloor], [level]) are integers ([Z]). *)

From Stdlib Require Import ZArith QArith Qround Qminmax Qabs SpecFloat List
  String Ascii Bool Lia Lqa.
Import ListNotations.

Set Warnings "-register-all".

Local Open Scope Z_scope.

(* ================================================================== *)
(** ** JavaScript operations on typed values *)
(* ================================================================== *)

Module Js.

(** [a[i]] for an integer index; [None] is [undefined]. *)
Definition index {A : Type} (a : list A) (i : Z) : option A :=
  if i <? 0 then None else nth_error a (Z.to_nat i).

(** [!!a] for an array [a]: an array is an object, hence truthy. *)
Definition array_ToBoolean {A : Type} (a : list A) : bool := true.

(** [a || b] where [a] is an object or [undefined]: an object is truthy. *)
Definition or_else {A : Type} (a b : option A) : option A :=
  match a with
  | Some v => Some v
  | None => b
  end.

(** [points.slice(0, -1)] *)
Definition slice_0_minus1 {A : Type} (points : list A) : list A :=
  firstn (List.length points - 1) points.

(** [Math.min(...xs)] and [Math.max(...xs)] of a non-empty list.  On the
    empty list they are [Infinity] and [-Infinity], which [Q] does not
    have: the callers below guarantee at least three elements. *)
Definition Math_min (xs : list Q) : Q :=
  match xs with
  | [] => 0
  | a :: rest => fold_left Qmin rest a
  end.

Definition Math_max (xs : list Q) : Q :=
  match xs with
  | [] => 0
  | a :: rest => fold_left Qmax rest a
  end.

(** *** Double-precision arithmetic

    A finite double is an integer multiple of [2 ^ -1074] whose
    significand has at most 53 bits.  With magnitudes counted in units of
    [2 ^ -1074], the doubles next to [a] are the multiples of [2 ^ p]
    where [p] is 52 less than the position of the leading bit of [a] (and
    0 below [2 ^ 52], the subnormal range). *)

(** The integer nearest to [q], the even one on a tie. *)
Definition half_even (q : Q) : Z :=
  let f := Qfloor q in
  match (q - inject_Z f ?= 1 # 2)%Q with
  | Lt => f
  | Gt => f + 1
  | Eq => if Z.even f then f else f + 1
  end.

(** The double nearest to the magnitude [a], both in units of
    [2 ^ -1074]. *)
Definition nearest (a : Q) : Z :=
  let p := Z.max 0 (Z.log2 (Qfloor a) - 52) in
  half_even (a / inject_Z (2 ^ p)) * 2 ^ p.

(** The value of an arithmetic operation whose exact result is [v]: the
    double nearest to [v], the one with the even significand on a tie.
    A result that rounds to [2 ^ 1024] or beyond is [Infinity] in
    JavaScript, which [Q] does not have: [double] continues the grid
    there, and such lengths are outside the numbers modelled. *)
Definition double (v : Q) : Q :=
  let r := (inject_Z (nearest (Qabs v * inject_Z (2 ^ 1074)))
            / inject_Z (2 ^ 1074))%Q in
  if Qle_bool 0 v then r else (- r)%Q.

(** [d], counted in units of [2 ^ -1074], is the magnitude of a double: a
    significand below [2 ^ 53] times a power of two. *)
Definition representable (d : Z) : Prop :=
  exists m q : Z, 0 <= m < 2 ^ 53 /\ 0 <= q /\ d = m * 2 ^ q.

(** The number a finite binary64 datum of the Standard Library's
    [SpecFloat] denotes. *)
Definition value (f : spec_float) : Q :=
  match f with
  | S754_finite s m e =>
      let v := (if 0 <=? e then inject_Z (Z.pos m * 2 ^ e)
                else inject_Z (Z.pos m) / inject_Z (2 ^ (- e)))%Q in
      if s then (- v)%Q else v
  | _ => 0%Q
  end.

(** [parseFloat(v.toFixed(1))] for a double [v]: the nearest multiple of
    1/10, the larger one on a tie, computed on the magnitude of the exact
    value of [v].  The decimal stands for the double that [parseFloat]
    reads from it, which prints as this decimal again. *)
Definition toFixed1 (v : Q) : Q :=
  if Qle_bool 0 v
  then (inject_Z (Qfloor (v * 10 + (1 # 2))) / 10)%Q
  else (- (inject_Z (Qfloor ((- v) * 10 + (1 # 2))) / 10))%Q.

End Js.

(* ================================================================== *)
(** ** src/services/gemini.service.ts *)
(* ================================================================== *)

Module Gemini.

(** *** The exported interfaces *)

Inductive RoomType : Set :=
| living | kitchen | bedroom | bathroom | staircase | balcony | void | hallway.

Definition RoomType_eqb (a b : RoomType) : bool :=
  match a, b with
  | living, living | kitchen, kitchen | bedroom, bedroom
  | bathroom, bathroom | staircase, staircase | balcony, balcony
  | void, void | hallway, hallway => true
  | _, _ => false
  end.

Record Layout : Set := { x : Q; y : Q; width : Q; height : Q }.

Record Room : Set :=
  { name : string; type : RoomType; area : Q; layout : Layout }.

Record FloorPlan : Set := { level : Z; rooms : list Room }.

Record BuildingSummary : Set :=
  { summary : string; totalFloors : Z; unitsPerFloor : Z }.

Record AnalysisResult : Set :=
  { buildingSummary : BuildingSummary; floorPlans : list FloorPlan }.

(** *** Run-time values

    [JSON.parse(...) as AnalysisResult] is an unchecked cast: what
    [analyzeLand] validates is an arbitrary value produced by [JSON.parse].
    [JsUndefined] is what a property read yields for an absent property. *)

Inductive JsValue : Type :=
| JsUndefined
| JsNull
| JsBool (b : bool)
| JsNumber (q : Q)
| JsString (s : string)
| JsArray (items : list JsValue)
| JsObject (props : list (string * JsValue)).

(** [!v] is [negb (ToBoolean v)]. *)
Definition ToBoolean (v : JsValue) : bool :=
  match v with
  | JsUndefined | JsNull => false
  | JsBool b => b
  | JsNumber q => negb (Qeq_bool q 0)
  | JsString s => negb (String.eqb s EmptyString)
  | JsArray _ | JsObject _ => true
  end.

Fixpoint own_property (key : string) (props : list (string * JsValue)) : JsValue :=
  match props with
  | [] => JsUndefined
  | (k, v) :: rest => if String.eqb k key then v else own_property key rest
  end.

(** [v.key] for the keys the service reads ([buildingSummary], [floorPlans],
    [length]).  [None] is the [TypeError] of reading a property of
    [undefined] or [null]. *)
Definition Get (v : JsValue) (key : string) : option JsValue :=
  match v with
  | JsUndefined | JsNull => None
  | JsBool _ | JsNumber _ => Some JsUndefined
  | JsString s =>
      Some (if String.eqb key "length"
            then JsNumber (inject_Z (Z.of_nat (String.length s)))
            else JsUndefined)
  | JsArray items =>
      Some (if String.eqb key "length"
            then JsNumber (inject_Z (Z.of_nat (List.length items)))
            else JsUndefined)
  | JsObject props => Some (own_property key props)
  end.

(** [v === 0] *)
Definition strict_equals_zero (v : JsValue) : bool :=
  match v with
  | JsNumber q => Qeq_bool q 0
  | _ => false
  end.

(** *** The prompt: a template literal is a sequence of literal text and
    interpolated numbers. *)

Inductive Fragment : Set :=
| Text (s : string)
| Interp (n : Q).

Definition Prompt : Set := list Fragment.

Definition prompt (width depth neighborWestFloors neighborEastFloors : Q) : Prompt :=
  [ Text "
      **Role:** You are an expert Iranian architect AI.
      **Task:** Design a multi-unit residential building for a plot of land in Iran, considering zoning laws, neighbor context, and practicality.
      
      **Land Dimensions:**
      - Width (along street): ";
    Interp width;
    Text " meters
      - Depth: ";
    Interp depth;
    Text " meters

      **Neighborhood Context:**
      - West Neighbor: ";
    Interp neighborWestFloors;
    Text " floors. This affects lighting and privacy on the west side.
      - East Neighbor: ";
    Interp neighborEastFloors;
    Text " floors. This affects lighting and privacy on the east side.
      - Assume the north side faces the main street and is the primary source of light and access.
      - Assume the south side is the backyard/courtyard.

      **Instructions:**
      1.  **Determine Optimal Building:** Based on standard Iranian regulations (e.g., 60% + 2m rule for buildable depth, maximizing vertical space), determine the optimal number of floors and units per floor.
      2.  **Design a Typical Floor Plan:** Create a logical and efficient layout for a typical floor. If ground floor (level 0) needs a different layout (e.g., for parking or lobby), design that as well.
          - The layout should be represented as a list of rooms.
          - Each room must have a name, type, area (in m²), and a layout object.
          - The layout object ('x', 'y', 'width', 'height') must define the room's bounding box as percentages of the total land dimensions, making it easy to render. For example, a room covering the whole width would have 'x':0, 'width':100. A room starting halfway down the depth would have 'y':50.
          - Include essential spaces: Living room, Kitchen, Bedroom(s), Bathroom(s), and a Staircase for vertical access.
          - If there are unbuilt areas within the building footprint (like a central void for light), label them as 'void'.
      3.  **Provide a Summary:** Write a brief summary explaining your design choices (e.g., why you chose a certain number of floors or units).
      4.  **Output:** Return the entire response in a single, valid JSON object matching the provided schema. No markdown.
    " ].

Definition ends_with (suffix s : string) : bool :=
  let n := String.length suffix in
  let m := String.length s in
  (n <=? m)%nat && String.eqb (substring (m - n) n s) suffix.

(** The number interpolated directly after the text that ends with [label]. *)
Fixpoint interpolated_after (label : string) (p : Prompt) : option Q :=
  match p with
  | [] => None
  | Text t :: rest =>
      match rest with
      | Interp n :: _ =>
          if ends_with label t then Some n else interpolated_after label rest
      | _ => interpolated_after label rest
      end
  | Interp _ :: rest => interpolated_after label rest
  end.

(** *** The model call *)

(** Argument of [this.ai.models.generateContent] (the constant
    [responseSchema] is left out). *)
Record Request : Set :=
  { model : string;
    contents : Prompt;
    responseMimeType : string;
    temperature : Q }.

(** A resolved call carries [response.text], a string or [undefined]. *)
Record Response : Set := { text : option string }.

Record Error : Set := { message : string }.

(** What can be thrown inside the [try] block. *)
Inductive Thrown : Set :=
| CallRejected                 (* the awaited promise rejected *)
| TypeError
| SyntaxError                  (* JSON.parse *)
| Thrown_Error (e : Error).

(** The argument [analyzeLand] gives to [generateContent]. *)
Definition request (p : Prompt) : Request :=
  {| model := "gemini-2.5-flash";
     contents := p;
     responseMimeType := "application/json";
     temperature := 0.3 |}.

Section AnalyzeLand.

(** The SDK call (None: the promise rejects), [String.prototype.trim] and
    [JSON.parse] (None: [SyntaxError]) are the environment. *)
Variable generateContent : Request -> option Response.
Variable trim : string -> string.
Variable JSON_parse : string -> option JsValue.

(** Lines 155-159: the basic validation and the [return]. *)
Definition validate (result : JsValue) : Thrown + JsValue :=
  let invalid :=
    inl (Thrown_Error
           {| message := "Invalid data format from API: Missing essential fields." |}) in
  match Get result "buildingSummary" with
  | None => inl TypeError
  | Some bs =>
      if negb (ToBoolean bs) then invalid
      else
        match Get result "floorPlans" with
        | None => inl TypeError
        | Some fp =>
            if negb (ToBoolean fp) then invalid
            else
              match Get fp "length" with
              | None => inl TypeError
              | Some len =>
                  if strict_equals_zero len then invalid else inr result
              end
        end
  end.

(** Lines 141-159: the body of the [try] block. *)
Definition try_block (p : Prompt) : Thrown + JsValue :=
  match generateContent (request p) with
  | None => inl CallRejected
  | Some response =>
      match text response with
      | None => inl TypeError
      | Some t =>
          let jsonString := trim t in
          match JSON_parse jsonString with
          | None => inl SyntaxError
          | Some result => validate result
          end
      end
  end.

(** [analyzeLand]: [inl] is a rejected promise, [inr] a fulfilled one.
    The [catch] clause logs what it caught to the console and throws a
    fresh error; the console is not visible to the caller. *)
Definition analyzeLand (width depth neighborWestFloors neighborEastFloors : Q)
  : Error + JsValue :=
  match try_block (prompt width depth neighborWestFloors neighborEastFloors) with
  | inr result => inr result
  | inl _error =>
      inl {| message := "Failed to get a valid response from the AI model." |}
  end.

End AnalyzeLand.

(** The error every failure of [analyzeLand] rejects with. *)
Definition generic_error : Error :=
  {| message := "Failed to get a valid response from the AI model." |}.

(** A value lacks the property [key]: reading it gives nothing truthy
    ([undefined] when absent; [null], [0], the empty string or [false] when
    present without content). *)
Definition lacks (v : JsValue) (key : string) : Prop :=
  forall p, Get v key = Some p -> ToBoolean p = false.

End Gemini.

(* ================================================================== *)
(** ** src/app.component.ts (current revision, numeric or drawn input) *)
(* ================================================================== *)

Module App.

Import Js Gemini.

Inductive Step : Set := input | loading | result.
Inductive InputType : Set := numeric | draw.
Inductive ViewMode : Set := view_2d | view_3d | view_3d_plus | building_3d.

(** An element of [polygonPoints]: normalized 0-1 coordinates. *)
Record Point : Set := { px : Q; py : Q }.

(** The signals of the component and the timer handle. *)
Record AppState : Type :=
  { step : Step;
    inputType : InputType;
    viewMode : ViewMode;
    landWidth : Q;
    landDepth : Q;
    neighborEastFloors : Q;
    neighborWestFloors : Q;
    polygonPoints : list Point;
    analysisResult : option AnalysisResult;
    errorMessage : option string;
    selectedFloor : Z;
    currentLoadingMessage : string;
    loadingInterval : bool (* an interval is registered and not cleared *) }.

Definition initial : AppState :=
  {| step := input; inputType := numeric; viewMode := building_3d;
     landWidth := 10; landDepth := 20;
     neighborEastFloors := 2; neighborWestFloors := 2;
     polygonPoints := [];
     analysisResult := None; errorMessage := None; selectedFloor := 0;
     currentLoadingMessage := "Analyzing zoning laws...";
     loadingInterval := false |}.

(** [signal.set] *)
Definition set_step v s :=
  {| step := v; inputType := inputType s; viewMode := viewMode s;
     landWidth := landWidth s; landDepth := landDepth s;
     neighborEastFloors := neighborEastFloors s;
     neighborWestFloors := neighborWestFloors s;
     polygonPoints := polygonPoints s; analysisResult := analysisResult s;
     errorMessage := errorMessage s; selectedFloor := selectedFloor s;
     currentLoadingMessage := currentLoadingMessage s;
     loadingInterval := loadingInterval s |}.
Definition set_viewMode v s :=
  {| step := step s; inputType := inputType s; viewMode := v;
     landWidth := landWidth s; landDepth := landDepth s;
     neighborEastFloors := neighborEastFloors s;
     neighborWestFloors := neighborWestFloors s;
     polygonPoints := polygonPoints s; analysisResult := analysisResult s;
     errorMessage := errorMessage s; selectedFloor := selectedFloor s;
     currentLoadingMessage := currentLoadingMessage s;
     loadingInterval := loadingInterval s |}.
Definition set_landWidth v s :=
  {| step := step s; inputType := inputType s; viewMode := viewMode s;
     landWidth := v; landDepth := landDepth s;
     neighborEastFloors := neighborEastFloors s;
     neighborWestFloors := neighborWestFloors s;
     polygonPoints := polygonPoints s; analysisResult := analysisResult s;
     errorMessage := errorMessage s; selectedFloor := selectedFloor s;
     currentLoadingMessage := currentLoadingMessage s;
     loadingInterval := loadingInterval s |}.
Definition set_landDepth v s :=
  {| step := step s; inputType := inputType s; viewMode := viewMode s;
     landWidth := landWidth s; landDepth := v;
     neighborEastFloors := neighborEastFloors s;
     neighborWestFloors := neighborWestFloors s;
     polygonPoints := polygonPoints s; analysisResult := analysisResult s;
     errorMessage := errorMessage s; selectedFloor := selectedFloor s;
     currentLoadingMessage := currentLoadingMessage s;
     loadingInterval := loadingInterval s |}.
Definition set_polygonPoints v s :=
  {| step := step s; inputType := inputType s; viewMode := viewMode s;
     landWidth := landWidth s; landDepth := landDepth s;
     neighborEastFloors := neighborEastFloors s;
     neighborWestFloors := neighborWestFloors s;
     polygonPoints := v; analysisResult := analysisResult s;
     errorMessage := errorMessage s; selectedFloor := selectedFloor s;
     currentLoadingMessage := currentLoadingMessage s;
     loadingInterval := loadingInterval s |}.
Definition set_analysisResult v s :=
  {| step := step s; inputType := inputType s; viewMode := viewMode s;
     landWidth := landWidth s; landDepth := landDepth s;
     neighborEastFloors := neighborEastFloors s;
     neighborWestFloors := neighborWestFloors s;
     polygonPoints := polygonPoints s; analysisResult := v;
     errorMessage := errorMessage s; selectedFloor := selectedFloor s;
     currentLoadingMessage := currentLoadingMessage s;
     loadingInterval := loadingInterval s |}.
Definition set_errorMessage v s :=
  {| step := step s; inputType := inputType s; viewMode := viewMode s;
     landWidth := landWidth s; landDepth := landDepth s;
     neighborEastFloors := neighborEastFloors s;
     neighborWestFloors := neighborWestFloors s;
     polygonPoints := polygonPoints s; analysisResult := analysisResult s;
     errorMessage := v; selectedFloor := selectedFloor s;
     currentLoadingMessage := currentLoadingMessage s;
     loadingInterval := loadingInterval s |}.
Definition set_selectedFloor v s :=
  {| step := step s; inputType := inputType s; viewMode := viewMode s;
     landWidth := landWidth s; landDepth := landDepth s;
     neighborEastFloors := neighborEastFloors s;
     neighborWestFloors := neighborWestFloors s;
     polygonPoints := polygonPoints s; analysisResult := analysisResult s;
     errorMessage := errorMessage s; selectedFloor := v;
     currentLoadingMessage := currentLoadingMessage s;
     loadingInterval := loadingInterval s |}.
Definition set_currentLoadingMessage v s :=
  {| step := step s; inputType := inputType s; viewMode := viewMode s;
     landWidth := landWidth s; landDepth := landDepth s;
     neighborEastFloors := neighborEastFloors s;
     neighborWestFloors := neighborWestFloors s;
     polygonPoints := polygonPoints s; analysisResult := analysisResult s;
     errorMessage := errorMessage s; selectedFloor := selectedFloor s;
     currentLoadingMessage := v;
     loadingInterval := loadingInterval s |}.
Definition set_loadingInterval v s :=
  {| step := step s; inputType := inputType s; viewMode := viewMode s;
     landWidth := landWidth s; landDepth := landDepth s;
     neighborEastFloors := neighborEastFloors s;
     neighborWestFloors := neighborWestFloors s;
     polygonPoints := polygonPoints s; analysisResult := analysisResult s;
     errorMessage := errorMessage s; selectedFloor := selectedFloor s;
     currentLoadingMessage := currentLoadingMessage s;
     loadingInterval := v |}.

(** *** Computed signals *)

(** [polygonPoints().length >= 3] *)
Definition isDrawingValid (s : AppState) : bool :=
  (3 <=? List.length (polygonPoints s))%nat.

(** The value of the computed signal [currentFloorPlan]. *)
Inductive Current : Set :=
| current_null
| current_undefined
| current_plan (p : FloorPlan).

Definition currentFloorPlan (s : AppState) : Current :=
  match analysisResult s with
  | None => current_null
  | Some res =>
      if negb (array_ToBoolean (floorPlans res)) then current_null
      else
        match or_else (index (floorPlans res) (selectedFloor s))
                      (index (floorPlans res) 0) with
        | Some p => current_plan p
        | None => current_undefined
        end
  end.

(** *** Drawing methods (their effect on the signals; [redrawCanvas] only
    paints) *)

Definition undoPoint (s : AppState) : AppState :=
  set_polygonPoints (slice_0_minus1 (polygonPoints s)) s.

Definition resetDrawing (s : AppState) : AppState :=
  set_polygonPoints [] s.

(** [onCanvasClick] with the normalized click position already computed
    from the canvas rectangle; the canvas element is present. *)
Definition onCanvasClick (x y : Q) (s : AppState) : AppState :=
  match step s, inputType s with
  | input, draw =>
      set_polygonPoints (polygonPoints s ++ [ {| px := x; py := y |} ]) s
  | _, _ => s
  end.

(** *** Analysis *)

Definition MAX_GRID_SIZE_METERS : Q := 50.

Definition loadingMessages : list string :=
  [ "Analyzing zoning laws..."; "Considering neighborhood context...";
    "Optimizing layout..."; "Generating plans..."; "Finalizing details..." ]%string.

(** The positional arguments of one call of [geminiService.analyzeLand]. *)
Definition Call : Set := (Q * Q * Q * Q)%type.

Definition startLoadingMessages (s : AppState) : AppState :=
  set_loadingInterval true
    (set_currentLoadingMessage (nth 0 loadingMessages EmptyString) s).

Definition stopLoadingMessages (s : AppState) : AppState :=
  set_loadingInterval false s.

Section AnalyzePlot.

(** The injected service: [inl] a rejected promise, [inr] a fulfilled
    one.  The awaited call is taken as one step. *)
Variable geminiService_analyzeLand : Q -> Q -> Q -> Q -> Error + AnalysisResult.

(** Lines 176-202: from the write-back of the dimensions to [finally]. *)
Definition analyzePlot_request (finalWidth finalDepth : Q) (s : AppState)
  : AppState * list Call :=
  let s := set_landWidth finalWidth s in
  let s := set_landDepth finalDepth s in
  let s := set_step loading s in
  let s := set_analysisResult None s in
  let s := set_errorMessage None s in
  let s := startLoadingMessages s in
  let a3 := neighborEastFloors s in
  let a4 := neighborWestFloors s in
  let s :=
    match geminiService_analyzeLand finalWidth finalDepth a3 a4 with
    | inr res =>
        let s := set_analysisResult (Some res) s in
        let s := set_selectedFloor 0 s in
        let s := set_step result s in
        set_viewMode building_3d s
    | inl _error =>
        let s := set_errorMessage
                   (Some "خطا در ارتباط با سرویس هوش مصنوعی."%string) s in
        set_step input s
    end in
  (stopLoadingMessages s, [ (finalWidth, finalDepth, a3, a4) ]).

(** [analyzePlot]: the state when the returned promise settles and the
    service calls made.  The coordinates of the points are doubles;
    [Math.min] and [Math.max] return one of them, and the difference and
    the product of lines 163-164 are rounded as the double-precision
    operations round them, before [toFixed(1)] shows one decimal. *)
Definition analyzePlot (s : AppState) : AppState * list Call :=
  let finalWidth := landWidth s in
  let finalDepth := landDepth s in
  match inputType s with
  | draw =>
      if negb (isDrawingValid s) then
        (set_errorMessage
           (Some "لطفاً حداقل ۳ نقطه برای ترسیم زمین مشخص کنید."%string) s, [])
      else
        let points := polygonPoints s in
        let xs := map px points in
        let ys := map py points in
        let minX := Math_min xs in
        let maxX := Math_max xs in
        let minY := Math_min ys in
        let maxY := Math_max ys in
        let finalWidth := double (double (maxX - minX) * MAX_GRID_SIZE_METERS) in
        let finalDepth := double (double (maxY - minY) * MAX_GRID_SIZE_METERS) in
        let finalWidth := Qmax 5 (toFixed1 finalWidth) in
        let finalDepth := Qmax 5 (toFixed1 finalDepth) in
        analyzePlot_request finalWidth finalDepth s
  | numeric =>
      if Qle_bool (landWidth s) 0 || Qle_bool (landDepth s) 0 then
        (set_errorMessage
           (Some "لطفاً ابعاد معتبر برای زمین وارد کنید."%string) s, [])
      else analyzePlot_request finalWidth finalDepth s
  end.

End AnalyzePlot.

Definition startOver (s : AppState) : AppState :=
  set_errorMessage None (set_analysisResult None (set_step input s)).

End App.

(* ================================================================== *)
(** ** src/app.component.ts (earlier revision, numeric input only) *)
(* ================================================================== *)

Module AppNumeric.

Import Js Gemini.

Inductive Step : Set := input | loading | result.
Inductive ViewMode : Set := view_2d | view_3d | view_3d_plus | building_3d.

Record AppState : Type :=
  { step : Step;
    viewMode : ViewMode;
    landWidth : Q;
    landDepth : Q;
    neighborEastFloors : Q;
    neighborWestFloors : Q;
    analysisResult : option AnalysisResult;
    errorMessage : option string;
    selectedFloor : Z;
    currentLoadingMessage : string;
    loadingInterval : bool }.

Definition initial : AppState :=
  {| step := input; viewMode := view_2d;
     landWidth := 10; landDepth := 20;
     neighborEastFloors := 2; neighborWestFloors := 2;
     analysisResult := None; errorMessage := None; selectedFloor := 0;
     currentLoadingMessage := "Analyzing zoning laws...";
     loadingInterval := false |}.

Definition set_step v s :=
  {| step := v; viewMode := viewMode s;
     landWidth := landWidth s; landDepth := landDepth s;
     neighborEastFloors := neighborEastFloors s;
     neighborWestFloors := neighborWestFloors s;
     analysisResult := analysisResult s;
     errorMessage := errorMessage s; selectedFloor := selectedFloor s;
     currentLoadingMessage := currentLoadingMessage s;
     loadingInterval := loadingInterval s |}.
Definition set_analysisResult v s :=
  {| step := step s; viewMode := viewMode s;
     landWidth := landWidth s; landDepth := landDepth s;
     neighborEastFloors := neighborEastFloors s;
     neighborWestFloors := neighborWestFloors s;
     analysisResult := v;
     errorMessage := errorMessage s; selectedFloor := selectedFloor s;
     currentLoadingMessage := currentLoadingMessage s;
     loadingInterval := loadingInterval s |}.
Definition set_errorMessage v s :=
  {| step := step s; viewMode := viewMode s;
     landWidth := landWidth s; landDepth := landDepth s;
     neighborEastFloors := neighborEastFloors s;
     neighborWestFloors := neighborWestFloors s;
     analysisResult := analysisResult s;
     errorMessage := v; selectedFloor := selectedFloor s;
     currentLoadingMessage := currentLoadingMessage s;
     loadingInterval := loadingInterval s |}.
Definition set_selectedFloor v s :=
  {| step := step s; viewMode := viewMode s;
     landWidth := landWidth s; landDepth := landDepth s;
     neighborEastFloors := neighborEastFloors s;
     neighborWestFloors := neighborWestFloors s;
     analysisResult := analysisResult s;
     errorMessage := errorMessage s; selectedFloor := v;
     currentLoadingMessage := currentLoadingMessage s;
     loadingInterval := loadingInterval s |}.
Definition set_currentLoadingMessage v s :=
  {| step := step s; viewMode := viewMode s;
     landWidth := landWidth s; landDepth := landDepth s;
     neighborEastFloors := neighborEastFloors s;
     neighborWestFloors := neighborWestFloors s;
     analysisResult := analysisResult s;
     errorMessage := errorMessage s; selectedFloor := selectedFloor s;
     currentLoadingMessage := v;
     loadingInterval := loadingInterval s |}.
Definition set_loadingInterval v s :=
  {| step := step s; viewMode := viewMode s;
     landWidth := landWidth s; landDepth := landDepth s;
     neighborEastFloors := neighborEastFloors s;
     neighborWestFloors := neighborWestFloors s;
     analysisResult := analysisResult s;
     errorMessage := errorMessage s; selectedFloor := selectedFloor s;
     currentLoadingMessage := currentLoadingMessage s;
     loadingInterval := v |}.

Definition currentFloorPlan (s : AppState) : App.Current :=
  match analysisResult s with
  | None => App.current_null
  | Some res =>
      if negb (array_ToBoolean (floorPlans res)) then App.current_null
      else
        (* Handle potential index out of bounds if switching between results *)
        match or_else (index (floorPlans res) (selectedFloor s))
                      (index (floorPlans res) 0) with
        | Some p => App.current_plan p
        | None => App.current_undefined
        end
  end.

Definition loadingMessages : list string :=
  [ "Analyzing zoning laws..."; "Considering neighborhood context...";
    "Optimizing layout for maximum units...";
    "Generating architectural floor plans..."; "Finalizing details..." ]%string.

Definition startLoadingMessages (s : AppState) : AppState :=
  set_loadingInterval true
    (set_currentLoadingMessage (nth 0 loadingMessages EmptyString) s).

Definition stopLoadingMessages (s : AppState) : AppState :=
  set_loadingInterval false s.

Section AnalyzePlot.

Variable geminiService_analyzeLand : Q -> Q -> Q -> Q -> Error + AnalysisResult.

Definition analyzePlot (s : AppState) : AppState * list App.Call :=
  if Qle_bool (landWidth s) 0 || Qle_bool (landDepth s) 0 then
    (set_errorMessage
       (Some "لطفاً ابعاد معتبر برای زمین وارد کنید."%string) s, [])
  else
    let s := set_step loading s in
    let s := set_analysisResult None s in
    let s := set_errorMessage None s in
    let s := startLoadingMessages s in
    let a1 := landWidth s in
    let a2 := landDepth s in
    let a3 := neighborEastFloors s in
    let a4 := neighborWestFloors s in
    let s :=
      match geminiService_analyzeLand a1 a2 a3 a4 with
      | inr res =>
          let s := set_analysisResult (Some res) s in
          let s := set_selectedFloor 0 s in (* Show ground floor first *)
          set_step result s
      | inl _error =>
          let s := set_errorMessage
                     (Some "خطا در ارتباط با سرویس هوش مصنوعی. لطفاً دوباره تلاش کنید و از صحت ورودی‌ها اطمینان حاصل کنید."%string) s in
          set_step input s
      end in
    (stopLoadingMessages s, [ (a1, a2, a3, a4) ]).

End AnalyzePlot.

End AppNumeric.

(* ================================================================== *)
(** ** The part of three.js the scene construction uses *)
(* ================================================================== *)

Module Three.

Record Vector3 : Set := { vx : Q; vy : Q; vz : Q }.

Inductive Geometry : Set :=
| BoxGeometry (w h d : Q)
| EdgesGeometry (g : Geometry).

Inductive MaterialClass : Set :=
| MeshStandardMaterial | MeshPhysicalMaterial | MeshBasicMaterial
| LineBasicMaterial.

(** The parameters that tell the materials of the component apart
    (roughness, metalness and the like are left out). *)
Record Material : Set :=
  { class : MaterialClass;
    color : Z;
    wireframe : bool;
    transparent : bool;
    opacity : Q }.

Inductive Object3D : Set :=
| Mesh (geometry : Geometry) (material : Material) (position : Vector3)
       (castShadow receiveShadow : bool)
| LineSegments (geometry : Geometry) (material : Material) (position : Vector3)
| Group (children : list Object3D) (position_y : Q).

End Three.

(* ================================================================== *)
(** ** src/three-d-view/three-d-view.component.ts *)
(* ================================================================== *)

Module ThreeDView.

Import Js Gemini Three.

Inductive ViewType : Set := single | building.

(** The input signals of the component. *)
Record Inputs : Set :=
  { plan : option FloorPlan;
    result : option AnalysisResult;
    viewType : ViewType;
    landWidth : Q;
    landDepth : Q;
    neighborWestFloors : Q;
    neighborEastFloors : Q }.

Definition FLOOR_HEIGHT : Q := 3.

Definition roomColors (t : RoomType) : Z :=
  match t with
  | living => 0x059669
  | kitchen => 0xD97706
  | bedroom => 0x2563EB
  | bathroom => 0x7C2D12
  | staircase => 0x6B7280
  | balcony => 0x0284C7
  | void => 0x111827
  | hallway => 0x4B5563
  end.

(** [new THREE.MeshStandardMaterial({ color })] *)
Definition standard (c : Z) : Material :=
  {| class := MeshStandardMaterial; color := c;
     wireframe := false; transparent := false; opacity := 1 |}.

(** [plan.rooms.forEach] of [renderFloor]: the objects are added to
    [roomGroup] in order.  [None] is the [TypeError] of reading [rooms] of
    [undefined]. *)
Definition renderFloor (plan : option FloorPlan) (elevation landW landD : Q)
    (isBuildingView : bool) (roomGroup : list Object3D) : option (list Object3D) :=
  match plan with
  | None => None
  | Some plan =>
      let roomHeight := (if isBuildingView then FLOOR_HEIGHT - 0.2 else 2.5)%Q in
      Some
        (fold_left
           (fun roomGroup room =>
              if RoomType_eqb (type room) void && isBuildingView then roomGroup
              else
                let roomWidth := ((width (layout room) / 100) * landW)%Q in
                let roomDepth := ((height (layout room) / 100) * landD)%Q in
                let geometry := BoxGeometry roomWidth roomHeight roomDepth in
                let color :=
                  if roomColors (type room) =? 0 then 0xffffff
                  else roomColors (type room) in
                let material :=
                  if RoomType_eqb (type room) void then
                    {| class := MeshStandardMaterial; color := 0x000000;
                       wireframe := true; transparent := true;
                       opacity := 0.2 |}
                  else standard color in
                let posX :=
                  ((x (layout room) / 100) * landW + roomWidth / 2 - landW / 2)%Q in
                let posZ :=
                  ((y (layout room) / 100) * landD + roomDepth / 2 - landD / 2)%Q in
                roomGroup ++
                [ Mesh geometry material
                    {| vx := posX; vy := (elevation + roomHeight / 2)%Q; vz := posZ |}
                    true true ])
           (rooms plan) roomGroup)
  end.

Definition slabThickness : Q := 0.2.
Definition slabMat : Material := standard 0xD1D5DB.

Definition renderSlab (elevation landW landD : Q) (plan : option FloorPlan)
    (roomGroup : list Object3D) : option (list Object3D) :=
  match plan with
  | None => None
  | Some plan =>
      Some
        (fold_left
           (fun roomGroup room =>
              if RoomType_eqb (type room) void then roomGroup
              else
                let w := ((width (layout room) / 100) * landW)%Q in
                let d := ((height (layout room) / 100) * landD)%Q in
                let geom := BoxGeometry w slabThickness d in
                let posX := ((x (layout room) / 100) * landW + w / 2 - landW / 2)%Q in
                let posZ := ((y (layout room) / 100) * landD + d / 2 - landD / 2)%Q in
                roomGroup ++
                [ Mesh geom slabMat
                    {| vx := posX; vy := (elevation - slabThickness / 2)%Q; vz := posZ |}
                    true true ])
           (rooms plan) roomGroup)
  end.

Definition renderNeighbors (i : Inputs) (landW landD : Q)
    (roomGroup : list Object3D) : list Object3D :=
  let neighborDepth := landD in
  let neighborWidth := 10%Q in
  let mat :=
    {| class := MeshStandardMaterial; color := 0x6B7280;
       wireframe := false; transparent := true; opacity := 0.3 |} in
  let roomGroup :=
    if negb (Qle_bool (neighborWestFloors i) 0) then
      let h := (neighborWestFloors i * FLOOR_HEIGHT)%Q in
      roomGroup ++
      [ Mesh (BoxGeometry neighborWidth h neighborDepth) mat
          {| vx := (- (landW / 2 + neighborWidth / 2 + 0.5))%Q;
             vy := (h / 2)%Q; vz := 0 |}
          true false ]
    else roomGroup in
  if negb (Qle_bool (neighborEastFloors i) 0) then
    let h := (neighborEastFloors i * FLOOR_HEIGHT)%Q in
    roomGroup ++
    [ Mesh (BoxGeometry neighborWidth h neighborDepth) mat
        {| vx := (landW / 2 + neighborWidth / 2 + 0.5)%Q;
           vy := (h / 2)%Q; vz := 0 |}
        true false ]
  else roomGroup.

(** The [for] loop of [createBuildingScene]: [count] iterations are left,
    the loop variable is [i]. *)
Fixpoint floors_loop (groundPlan typicalPlan : option FloorPlan)
    (landW landD : Q) (count : nat) (i : Z) (roomGroup : list Object3D)
  : option (list Object3D) :=
  match count with
  | O => Some roomGroup
  | S count' =>
      let elevation := (inject_Z i * FLOOR_HEIGHT)%Q in
      let planToRender := if i =? 0 then groundPlan else typicalPlan in
      match renderFloor planToRender elevation landW landD true roomGroup with
      | None => None
      | Some roomGroup =>
          match (if 0 <? i
                 then renderSlab elevation landW landD planToRender roomGroup
                 else Some roomGroup) with
          | None => None
          | Some roomGroup =>
              floors_loop groundPlan typicalPlan landW landD count' (i + 1) roomGroup
          end
      end
  end.

(** [floorPlans.length > 1 ? floorPlans.find(p => p.level > 0) || floorPlans[0]
                           : floorPlans[0]] *)
Definition typicalPlan_of (floorPlans : list FloorPlan) : option FloorPlan :=
  if (1 <? List.length floorPlans)%nat
  then or_else (find (fun p => 0 <? level p) floorPlans) (index floorPlans 0)
  else index floorPlans 0.

(** [floorPlans.find(p => p.level === 0) || floorPlans[0]] *)
Definition groundPlan_of (floorPlans : list FloorPlan) : option FloorPlan :=
  or_else (find (fun p => level p =? 0) floorPlans) (index floorPlans 0).

(** [createBuildingScene]: the children of [roomGroup] afterwards; [None]
    when a [TypeError] is thrown. *)
Definition createBuildingScene (i : Inputs) (landW landD : Q)
    (roomGroup : list Object3D) : option (list Object3D) :=
  match result i with
  | None => Some roomGroup
  | Some res =>
      let totalFloors := totalFloors (buildingSummary res) in
      let floorPlans := floorPlans res in
      let typicalPlan := typicalPlan_of floorPlans in
      let groundPlan := groundPlan_of floorPlans in
      match floors_loop groundPlan typicalPlan landW landD
              (Z.to_nat totalFloors) 0 roomGroup with
      | None => None
      | Some roomGroup =>
          let roofElevation := (inject_Z totalFloors * FLOOR_HEIGHT)%Q in
          match renderSlab roofElevation landW landD typicalPlan roomGroup with
          | None => None
          | Some roomGroup => Some (renderNeighbors i landW landD roomGroup)
          end
      end
  end.

End ThreeDView.

(* ================================================================== *)
(** ** The three-d-view component, revision with the glass palette
       (src/unnamed/part_000) *)
(* ================================================================== *)

Module ThreeDViewNeon.

Import Js Gemini Three.

Inductive ViewType : Set := single | building.

Record Inputs : Set :=
  { plan : option FloorPlan;
    result : option AnalysisResult;
    viewType : ViewType;
    landWidth : Q;
    landDepth : Q;
    neighborWestFloors : Q;
    neighborEastFloors : Q;
    customPolygon : option (list (Q * Q)) }.

Definition FLOOR_HEIGHT : Q := 3.2.

Definition roomColors (t : RoomType) : Z :=
  match t with
  | living => 0x60a5fa
  | kitchen => 0xf472b6
  | bedroom => 0xa78bfa
  | bathroom => 0x2dd4bf
  | staircase => 0x94a3b8
  | balcony => 0xfacc15
  | void => 0x000000
  | hallway => 0xe2e8f0
  end.

Definition renderFloor (plan : option FloorPlan) (elevation landW landD : Q)
    (isBuildingView : bool) (roomGroup : list Object3D) : option (list Object3D) :=
  match plan with
  | None => None
  | Some plan =>
      let roomHeight := (if isBuildingView then FLOOR_HEIGHT - 0.15 else 2.8)%Q in
      Some
        (fold_left
           (fun roomGroup room =>
              if RoomType_eqb (type room) void && isBuildingView then roomGroup
              else
                let roomWidth := ((width (layout room) / 100) * landW)%Q in
                let roomDepth := ((height (layout room) / 100) * landD)%Q in
                let geometry := BoxGeometry roomWidth roomHeight roomDepth in
                let colorHex :=
                  if roomColors (type room) =? 0 then 0xffffff
                  else roomColors (type room) in
                let material :=
                  if RoomType_eqb (type room) void then
                    {| class := MeshBasicMaterial; color := 0xffffff;
                       wireframe := true; transparent := true;
                       opacity := 0.05 |}
                  else
                    {| class := MeshPhysicalMaterial; color := colorHex;
                       wireframe := false; transparent := true;
                       opacity := 0.8 |} in
                let posX :=
                  ((x (layout room) / 100) * landW + roomWidth / 2 - landW / 2)%Q in
                let posZ :=
                  ((y (layout room) / 100) * landD + roomDepth / 2 - landD / 2)%Q in
                let position :=
                  {| vx := posX; vy := (elevation + roomHeight / 2)%Q; vz := posZ |} in
                let roomGroup :=
                  roomGroup ++ [ Mesh geometry material position true true ] in
                (* NEON EDGES *)
                if negb (RoomType_eqb (type room) void) then
                  roomGroup ++
                  [ LineSegments (EdgesGeometry geometry)
                      {| class := LineBasicMaterial; color := colorHex;
                         wireframe := false; transparent := true;
                         opacity := 1.0 |}
                      position ]
                else roomGroup)
           (rooms plan) roomGroup)
  end.

Definition slabThickness : Q := 0.1.

Definition slabMat : Material :=
  {| class := MeshStandardMaterial; color := 0x334155;
     wireframe := false; transparent := false; opacity := 1 |}.

(** The slab is one [THREE.Group] holding a mesh for each room that is not
    a void. *)
Definition renderSlab (elevation landW landD : Q) (plan : option FloorPlan)
    (roomGroup : list Object3D) : option (list Object3D) :=
  match plan with
  | None => None
  | Some plan =>
      let group :=
        fold_left
          (fun group room =>
             if RoomType_eqb (type room) void then group
             else
               let w := ((width (layout room) / 100) * landW)%Q in
               let d := ((height (layout room) / 100) * landD)%Q in
               let geom := BoxGeometry w slabThickness d in
               let posX := ((x (layout room) / 100) * landW + w / 2 - landW / 2)%Q in
               let posZ := ((y (layout room) / 100) * landD + d / 2 - landD / 2)%Q in
               group ++
               [ Mesh geom slabMat {| vx := posX; vy := 0; vz := posZ |}
                   false false ])
          (rooms plan) [] in
      Some (roomGroup ++ [ Group group (elevation - slabThickness / 2)%Q ])
  end.

Definition renderNeighbors (i : Inputs) (landW landD : Q)
    (roomGroup : list Object3D) : list Object3D :=
  let neighborDepth := landD in
  let neighborWidth := 15%Q in
  let mat :=
    {| class := MeshBasicMaterial; color := 0xffffff;
       wireframe := false; transparent := true; opacity := 0.05 |} in
  let edgeMat :=
    {| class := LineBasicMaterial; color := 0xffffff;
       wireframe := false; transparent := true; opacity := 0.1 |} in
  let createNeighbor (h xPos : Q) (roomGroup : list Object3D) :=
    let height := (h * FLOOR_HEIGHT)%Q in
    let geom := BoxGeometry neighborWidth height neighborDepth in
    let position := {| vx := xPos; vy := (height / 2)%Q; vz := 0 |} in
    roomGroup ++
    [ Mesh geom mat position false false;
      LineSegments (EdgesGeometry geom) edgeMat position ] in
  let roomGroup :=
    if negb (Qle_bool (neighborWestFloors i) 0) then
      createNeighbor (neighborWestFloors i)
        (- (landW / 2 + neighborWidth / 2 + 1))%Q roomGroup
    else roomGroup in
  if negb (Qle_bool (neighborEastFloors i) 0) then
    createNeighbor (neighborEastFloors i)
      (landW / 2 + neighborWidth / 2 + 1)%Q roomGroup
  else roomGroup.

Fixpoint floors_loop (groundPlan typicalPlan : option FloorPlan)
    (landW landD : Q) (count : nat) (i : Z) (roomGroup : list Object3D)
  : option (list Object3D) :=
  match count with
  | O => Some roomGroup
  | S count' =>
      let elevation := (inject_Z i * FLOOR_HEIGHT)%Q in
      let planToRender := if i =? 0 then groundPlan else typicalPlan in
      match renderFloor planToRender elevation landW landD true roomGroup with
      | None => None
      | Some roomGroup =>
          match (if 0 <? i
                 then renderSlab elevation landW landD planToRender roomGroup
                 else Some roomGroup) with
          | None => None
          | Some roomGroup =>
              floors_loop groundPlan typicalPlan landW landD count' (i + 1) roomGroup
          end
      end
  end.

Definition createBuildingScene (i : Inputs) (landW landD : Q)
    (roomGroup : list Object3D) : option (list Object3D) :=
  match result i with
  | None => Some roomGroup
  | Some res =>
      let totalFloors := totalFloors (buildingSummary res) in
      let floorPlans := floorPlans res in
      let typicalPlan := ThreeDView.typicalPlan_of floorPlans in
      let groundPlan := ThreeDView.groundPlan_of floorPlans in
      match floors_loop groundPlan typicalPlan landW landD
              (Z.to_nat totalFloors) 0 roomGroup with
      | None => None
      | Some roomGroup =>
          (* Roof *)
          match renderSlab (inject_Z totalFloors * FLOOR_HEIGHT)%Q landW landD
                  typicalPlan roomGroup with
          | None => None
          | Some roomGroup => Some (renderNeighbors i landW landD roomGroup)
          end
      end
  end.

End ThreeDViewNeon.

(* ================================================================== *)
(** ** Statements the properties below are phrased with *)
(* ================================================================== *)


(** Every coordinate of every point multiplied by [k]. *)
Definition scale (k : Q) (pts : list App.Point) : list App.Point :=
  map (fun p => {| App.px := k * App.px p; App.py := k * App.py p |}) pts.

(** The extent of the bounding box along one axis. *)
Definition extent (coords : list Q) : Q :=
  Js.Math_max coords - Js.Math_min coords.

(** A service whose every call rejects. *)
Definition rejecting_service (_ _ _ _ : Q) : Gemini.Error + Gemini.AnalysisResult :=
  inl Gemini.generic_error.

(** *** The stacked building, in the words of the specification *)

(** The ground plan: the first plan whose level is 0, or the first plan
    when no plan has level 0. *)
Definition is_groundPlan (fps : list Gemini.FloorPlan) (g : Gemini.FloorPlan) : Prop :=
  (exists before after,
      fps = before ++ g :: after /\ Gemini.level g = 0 /\
      forall p, In p before -> Gemini.level p <> 0)
  \/
  ((forall p, In p fps -> Gemini.level p <> 0) /\ nth_error fps 0 = Some g).

(** The typical plan: the first plan whose level is above 0, or the first
    plan when there is none. *)
Definition is_typicalPlan (fps : list Gemini.FloorPlan) (t : Gemini.FloorPlan) : Prop :=
  (exists before after,
      fps = before ++ t :: after /\ 0 < Gemini.level t /\
      forall p, In p before -> Gemini.level p <= 0)
  \/
  ((forall p, In p fps -> Gemini.level p <= 0) /\ nth_error fps 0 = Some t).

Definition non_void_rooms (p : Gemini.FloorPlan) : list Gemini.Room :=
  filter (fun room => negb (Gemini.RoomType_eqb (Gemini.type room) Gemini.void))
         (Gemini.rooms p).

(** The plan rendered at level [i]. *)
Definition plan_at (ground typical : Gemini.FloorPlan) (i : nat) : Gemini.FloorPlan :=
  match i with
  | O => ground
  | S _ => typical
  end.

Module Stacked.

Import Gemini Three ThreeDView.

Definition footprint_x (landW : Q) (room : Room) : Q :=
  ((x (layout room) / 100) * landW
   + ((width (layout room) / 100) * landW) / 2 - landW / 2)%Q.

Definition footprint_z (landD : Q) (room : Room) : Q :=
  ((y (layout room) / 100) * landD
   + ((height (layout room) / 100) * landD) / 2 - landD / 2)%Q.

(** The volume of one room of a floor whose base is at [elevation]. *)
Definition room_volume (elevation landW landD : Q) (room : Room) : Object3D :=
  Mesh (BoxGeometry ((width (layout room) / 100) * landW)%Q
                    (FLOOR_HEIGHT - 0.2)%Q
                    ((height (layout room) / 100) * landD)%Q)
       (standard (roomColors (type room)))
       {| vx := footprint_x landW room;
          vy := (elevation + (FLOOR_HEIGHT - 0.2) / 2)%Q;
          vz := footprint_z landD room |}
       true true.

(** The piece of a slab under one room; the top of the slab is at
    [elevation]. *)
Definition slab_piece (elevation landW landD : Q) (room : Room) : Object3D :=
  Mesh (BoxGeometry ((width (layout room) / 100) * landW)%Q
                    0.2%Q
                    ((height (layout room) / 100) * landD)%Q)
       slabMat
       {| vx := footprint_x landW room;
          vy := (elevation - 0.2 / 2)%Q;
          vz := footprint_z landD room |}
       true true.

(** A slab: one piece for each room that is not a void. *)
Definition slab (p : FloorPlan) (elevation landW landD : Q) : list Object3D :=
  map (slab_piece elevation landW landD) (non_void_rooms p).

Definition elevation_of (i : nat) : Q :=
  (inject_Z (Z.of_nat i) * FLOOR_HEIGHT)%Q.

(** Floor level [i]: the volumes of the rooms that are not voids and,
    above the ground floor, the slab that separates the level from the
    one below. *)
Definition floor_level (ground typical : FloorPlan) (landW landD : Q)
    (i : nat) : list Object3D :=
  map (room_volume (elevation_of i) landW landD)
      (non_void_rooms (plan_at ground typical i))
  ++ match i with
     | O => []
     | S _ => slab (plan_at ground typical i) (elevation_of i) landW landD
     end.

End Stacked.

Module StackedNeon.

Import Gemini Three ThreeDViewNeon.

(** The volume of one room and its outline. *)
Definition room_volume (elevation landW landD : Q) (room : Room) : list Object3D :=
  let geometry :=
    BoxGeometry ((width (layout room) / 100) * landW)%Q
                (FLOOR_HEIGHT - 0.15)%Q
                ((height (layout room) / 100) * landD)%Q in
  let position :=
    {| vx := Stacked.footprint_x landW room;
       vy := (elevation + (FLOOR_HEIGHT - 0.15) / 2)%Q;
       vz := Stacked.footprint_z landD room |} in
  [ Mesh geometry
      {| class := MeshPhysicalMaterial; color := roomColors (type room);
         wireframe := false; transparent := true; opacity := 0.8 |}
      position true true;
    LineSegments (EdgesGeometry geometry)
      {| class := LineBasicMaterial; color := roomColors (type room);
         wireframe := false; transparent := true; opacity := 1.0 |}
      position ].

Definition slab_piece (landW landD : Q) (room : Room) : Object3D :=
  Mesh (BoxGeometry ((width (layout room) / 100) * landW)%Q
                    0.1%Q
                    ((height (layout room) / 100) * landD)%Q)
       slabMat
       {| vx := Stacked.footprint_x landW room;
          vy := 0;
          vz := Stacked.footprint_z landD room |}
       false false.

(** A slab: one group, with one piece for each room that is not a void;
    the top of the slab is at [elevation]. *)
Definition slab (p : FloorPlan) (elevation landW landD : Q) : list Object3D :=
  [ Group (map (slab_piece landW landD) (non_void_rooms p))
          (elevation - 0.1 / 2)%Q ].

Definition elevation_of (i : nat) : Q :=
  (inject_Z (Z.of_nat i) * FLOOR_HEIGHT)%Q.

Definition floor_level (ground typical : FloorPlan) (landW landD : Q)
    (i : nat) : list Object3D :=
  flat_map (room_volume (elevation_of i) landW landD)
           (non_void_rooms (plan_at ground typical i))
  ++ match i with
     | O => []
     | S _ => slab (plan_at ground typical i) (elevation_of i) landW landD
     end.

End StackedNeon.

(* ================================================================== *)
(** ** Sample inputs *)
(* ================================================================== *)

Module Sample.

Import Gemini.

Definition room (n : string) (t : RoomType) (a x0 y0 w h : Q) : Room :=
  {| name := n; type := t; area := a;
     layout := {| x := x0; y := y0; width := w; height := h |} |}.

(** A three-floor response with two rooms on every floor. *)
Definition ground_floor : FloorPlan :=
  {| level := 0;
     rooms := [ room "lobby" hallway 100 0 0 100 50;
                room "stairs" staircase 100 0 50 100 50 ] |}.

Definition first_floor : FloorPlan :=
  {| level := 1;
     rooms := [ room "living" living 120 0 0 100 60;
                room "bedroom" bedroom 80 0 60 100 40 ] |}.

Definition second_floor : FloorPlan :=
  {| level := 2;
     rooms := [ room "living" living 100 0 0 100 50;
                room "kitchen" kitchen 100 0 50 100 50 ] |}.

Definition three_floors : AnalysisResult :=
  {| buildingSummary :=
       {| summary := "three floors"; totalFloors := 3; unitsPerFloor := 1 |};
     floorPlans := [ ground_floor; first_floor; second_floor ] |}.

(** A response whose levels have a gap: 0 and 2. *)
Definition gap_levels : AnalysisResult :=
  {| buildingSummary :=
       {| summary := "gap"; totalFloors := 3; unitsPerFloor := 1 |};
     floorPlans := [ ground_floor; second_floor ] |}.

(** width=10, depth=20, neighborEast=2, neighborWest=2, building view *)
Definition view : ThreeDView.Inputs :=
  {| ThreeDView.plan := None;
     ThreeDView.result := Some three_floors;
     ThreeDView.viewType := ThreeDView.building;
     ThreeDView.landWidth := 10; ThreeDView.landDepth := 20;
     ThreeDView.neighborWestFloors := 2;
     ThreeDView.neighborEastFloors := 2 |}.

Definition view_neon : ThreeDViewNeon.Inputs :=
  {| ThreeDViewNeon.plan := None;
     ThreeDViewNeon.result := Some three_floors;
     ThreeDViewNeon.viewType := ThreeDViewNeon.building;
     ThreeDViewNeon.landWidth := 10; ThreeDViewNeon.landDepth := 20;
     ThreeDViewNeon.neighborWestFloors := 2;
     ThreeDViewNeon.neighborEastFloors := 2;
     ThreeDViewNeon.customPolygon := None |}.

(** Application states. *)
Definition numeric_state (w d east west : Q)
    (held : option AnalysisResult) : App.AppState :=
  {| App.step := App.input; App.inputType := App.numeric;
     App.viewMode := App.building_3d;
     App.landWidth := w; App.landDepth := d;
     App.neighborEastFloors := east; App.neighborWestFloors := west;
     App.polygonPoints := [];
     App.analysisResult := held; App.errorMessage := None;
     App.selectedFloor := 0;
     App.currentLoadingMessage := "Analyzing zoning laws...";
     App.loadingInterval := false |}.

Definition drawing_state (pts : list App.Point) : App.AppState :=
  {| App.step := App.input; App.inputType := App.draw;
     App.viewMode := App.building_3d;
     App.landWidth := 10; App.landDepth := 20;
     App.neighborEastFloors := 2; App.neighborWestFloors := 2;
     App.polygonPoints := pts;
     App.analysisResult := None; App.errorMessage := None;
     App.selectedFloor := 0;
     App.currentLoadingMessage := "Analyzing zoning laws...";
     App.loadingInterval := false |}.

Definition result_state (held : AnalysisResult) (sel : Z) : App.AppState :=
  {| App.step := App.result; App.inputType := App.numeric;
     App.viewMode := App.building_3d;
     App.landWidth := 10; App.landDepth := 20;
     App.neighborEastFloors := 2; App.neighborWestFloors := 2;
     App.polygonPoints := [];
     App.analysisResult := Some held; App.errorMessage := None;
     App.selectedFloor := sel;
     App.currentLoadingMessage := "Analyzing zoning laws...";
     App.loadingInterval := false |}.

Definition earlier_state (w d east west : Q)
    (held : option AnalysisResult) (sel : Z) : AppNumeric.AppState :=
  {| AppNumeric.step := AppNumeric.input;
     AppNumeric.viewMode := AppNumeric.view_2d;
     AppNumeric.landWidth := w; AppNumeric.landDepth := d;
     AppNumeric.neighborEastFloors := east;
     AppNumeric.neighborWestFloors := west;
     AppNumeric.analysisResult := held; AppNumeric.errorMessage := None;
     AppNumeric.selectedFloor := sel;
     AppNumeric.currentLoadingMessage := "Analyzing zoning laws...";
     AppNumeric.loadingInterval := false |}.

(** A triangle whose bounding box is 3/4 by 3/4 of the canvas. *)
Definition triangle : list App.Point :=
  [ {| App.px := 0; App.py := 0 |};
    {| App.px := 3 # 4; App.py := 0 |};
    {| App.px := 0; App.py := 3 # 4 |} ].

(** Environments of [analyzeLand]: a network call that fails, and calls
    that resolve with a given text.  The texts have no surrounding white
    space; the parser accepts the two JSON texts used. *)
Definition network_down (_ : Request) : option Response := None.

Definition replies (t : string) (_ : Request) : option Response :=
  Some {| text := Some t |}.

Definition trim (t : string) : string := t.

Definition valid_reply : JsValue :=
  JsObject
    [ ("buildingSummary"%string,
       JsObject [ ("summary"%string, JsString "one floor");
                  ("totalFloors"%string, JsNumber 1);
                  ("unitsPerFloor"%string, JsNumber 1) ]);
      ("floorPlans"%string,
       JsArray [ JsObject [ ("level"%string, JsNumber 0);
                            ("rooms"%string, JsArray []) ] ]) ].

Definition quoted (t : string) : string :=
  String (ascii_of_nat 34) (t ++ String (ascii_of_nat 34) EmptyString).

(** The JSON text of [valid_reply]. *)
Definition valid_reply_text : string :=
  String.concat EmptyString
    [ "{"; quoted "buildingSummary"; ":{";
      quoted "summary"; ":"; quoted "one floor"; ",";
      quoted "totalFloors"; ":1,"; quoted "unitsPerFloor"; ":1},";
      quoted "floorPlans"; ":[{"; quoted "level"; ":0,";
      quoted "rooms"; ":[]}]}" ]%string.

Definition JSON_parse (t : string) : option JsValue :=
  if String.eqb t "{}" then Some (JsObject [])
  else if String.eqb t valid_reply_text then Some valid_reply
  else None.

End Sample.

(* ================================================================== *)
(** ** src/app.component.ts: the sketch surface and the loading timer *)
(* ================================================================== *)

Module AppCanvas.

Import Js Gemini App.

(** [canvas.getBoundingClientRect()] *)
Record DOMRect : Set := { left : Q; top : Q; rect_width : Q; rect_height : Q }.

Record MouseEvent : Set := { clientX : Q; clientY : Q }.

(** [onCanvasClick(event)] (lines 64-76).  [canvas] is the rectangle of
    the canvas element, [None] when the element is not there.  The result
    is [None] when a coordinate is not a finite number, which happens for
    a rectangle of width or height 0 and for nothing else. *)
Definition onCanvasClick (canvas : option DOMRect) (event : MouseEvent)
    (s : AppState) : option AppState :=
  match step s, inputType s with
  | input, draw =>
      match canvas with
      | None => Some s
      | Some rect =>
          if Qeq_bool (rect_width rect) 0 || Qeq_bool (rect_height rect) 0
          then None
          else
            let x := ((clientX event - left rect) / rect_width rect)%Q in
            let y := ((clientY event - top rect) / rect_height rect)%Q in
            Some (set_polygonPoints
                    (polygonPoints s ++ [ {| px := x; py := y |} ]) s)
      end
  | _, _ => Some s
  end.

(** The point a click stands for: its position within the rectangle of
    the canvas, as a fraction of the width and of the height. *)
Definition normalized_point (rect : DOMRect) (event : MouseEvent) : Point :=
  {| px := ((clientX event - left rect) / rect_width rect)%Q;
     py := ((clientY event - top rect) / rect_height rect)%Q |}.

(** Both coordinates lie between 0 and 1. *)
Definition normalized (p : Point) : Prop :=
  (0 <= px p <= 1)%Q /\ (0 <= py p <= 1)%Q.

(** The click is inside the rectangle of the canvas. *)
Definition inside (rect : DOMRect) (event : MouseEvent) : Prop :=
  (left rect <= clientX event <= left rect + rect_width rect)%Q /\
  (top rect <= clientY event <= top rect + rect_height rect)%Q.


(** *** [redrawCanvas]: the calls made on the 2D context, in order *)

Inductive CanvasOp : Set :=
| clearRect (x y w h : Z)
| set_strokeStyle (style : string)
| set_fillStyle (style : string)
| set_lineWidth (w : Z)
| beginPath
| moveTo (x y : Q)
| lineTo (x y : Q)
| closePath
| fill
| stroke
| arc_full_circle (x y radius : Q) (* arc(x, y, radius, 0, Math.PI * 2) *).

(** The canvas element: its [width] and [height] attributes, and whether
    [getContext('2d')] gives a context. *)
Record Canvas : Set := { width : Z; height : Z; has_2d_context : bool }.

Definition gridSize : Z := 40.

(** [for (let x = 0; x <= width; x += gridSize) { ... }]; [fuel] bounds
    the number of iterations. *)
Fixpoint grid_columns (fuel : nat) (x width height : Z) : list CanvasOp :=
  match fuel with
  | O => []
  | S fuel' =>
      if x <=? width then
        [ beginPath; moveTo (inject_Z x) 0; lineTo (inject_Z x) (inject_Z height);
          stroke ]
        ++ grid_columns fuel' (x + gridSize) width height
      else []
  end.

Fixpoint grid_rows (fuel : nat) (y width height : Z) : list CanvasOp :=
  match fuel with
  | O => []
  | S fuel' =>
      if y <=? height then
        [ beginPath; moveTo 0 (inject_Z y); lineTo (inject_Z width) (inject_Z y);
          stroke ]
        ++ grid_rows fuel' (y + gridSize) width height
      else []
  end.

(** [redrawCanvas] (lines 88-139).  The loops advance by 40 from 0, so
    [Z.to_nat width + 1] and [Z.to_nat height + 1] iterations are never
    exhausted. *)
Definition redrawCanvas (canvas : option Canvas) (s : AppState) : list CanvasOp :=
  match canvas with
  | None => []
  | Some canvas =>
      if negb (has_2d_context canvas) then []
      else
        let width := width canvas in
        let height := height canvas in
        let w := inject_Z width in
        let h := inject_Z height in
        let grid :=
          [ clearRect 0 0 width height;
            set_strokeStyle "#27272a"; set_lineWidth 1 ]
          ++ grid_columns (Z.to_nat width + 1) 0 width height
          ++ grid_rows (Z.to_nat height + 1) 0 width height in
        let points := polygonPoints s in
        match points with
        | [] => grid
        | p0 :: rest =>
            grid
            ++ [ beginPath; moveTo (px p0 * w)%Q (py p0 * h)%Q ]
            ++ map (fun p => lineTo (px p * w)%Q (py p * h)%Q) rest
            ++ (if (2 <? List.length points)%nat
                then [ closePath; set_fillStyle "rgba(255, 255, 255, 0.1)"; fill ]
                else [])
            ++ [ set_strokeStyle "#38bdf8"; set_lineWidth 2; stroke ]
            ++ [ set_fillStyle "#fff" ]
            ++ flat_map
                 (fun p => [ beginPath;
                             arc_full_circle (px p * w)%Q (py p * h)%Q 4;
                             fill ])
                 points
        end
  end.

(** How many of the calls satisfy [f]. *)
Definition count_ops (f : CanvasOp -> bool) (ops : list CanvasOp) : nat :=
  List.length (filter f ops).

Definition is_closePath (op : CanvasOp) : bool :=
  match op with closePath => true | _ => false end.

Definition is_fill (op : CanvasOp) : bool :=
  match op with fill => true | _ => false end.

Definition is_stroke (op : CanvasOp) : bool :=
  match op with stroke => true | _ => false end.

Definition is_arc (op : CanvasOp) : bool :=
  match op with arc_full_circle _ _ _ => true | _ => false end.

(** *** The loading messages *)

(** The callback given to [setInterval] in [startLoadingMessages] (lines
    215-218), on the captured variable [messageIndex] and the signals. *)
Definition interval_callback (messageIndex : nat) (s : AppState)
  : nat * AppState :=
  let messageIndex := ((messageIndex + 1) mod List.length loadingMessages)%nat in
  (messageIndex,
   set_currentLoadingMessage (nth messageIndex loadingMessages EmptyString) s).

(** [n] runs of the callback. *)
Fixpoint interval_runs (n : nat) (messageIndex : nat) (s : AppState)
  : nat * AppState :=
  match n with
  | O => (messageIndex, s)
  | S n' =>
      let '(messageIndex, s) := interval_callback messageIndex s in
      interval_runs n' messageIndex s
  end.

End AppCanvas.

(* ================================================================== *)
(** ** src/app.component.ts (earlier revision): restart *)
(* ================================================================== *)

Module AppNumericRestart.

Import AppNumeric.

(** [startOver] (lines 301-310) *)
Definition startOver (s : AppState) : AppState :=
  {| step := input;
     viewMode := view_2d;
     landWidth := 10;
     landDepth := 20;
     neighborEastFloors := 2;
     neighborWestFloors := 2;
     analysisResult := None;
     errorMessage := None;
     selectedFloor := selectedFloor s;
     currentLoadingMessage := currentLoadingMessage s;
     loadingInterval := loadingInterval s |}.

End AppNumericRestart.

(* ================================================================== *)
(** ** The three-d-view component: camera and base of the scene *)
(* ================================================================== *)

Module ViewCamera.

Import Gemini Three.

(** The camera: where it stands and the point it is turned to (the
    argument of [camera.lookAt], or [controls.target]). *)
Record Camera : Set := { position : Vector3; target : Vector3 }.

(** [result?.buildingSummary?.totalFloors || 1] *)
Definition totalFloors_or_1 (result : option AnalysisResult) : Z :=
  match result with
  | None => 1
  | Some res =>
      if totalFloors (buildingSummary res) =? 0 then 1
      else totalFloors (buildingSummary res)
  end.

(** [updateCameraPosition] of src/three-d-view/three-d-view.component.ts
    (lines 167-184); [None] is the camera that is not created yet. *)
Definition updateCameraPosition (i : ThreeDView.Inputs) (camera : option Camera)
  : option Camera :=
  match camera with
  | None => None
  | Some _ =>
      let landD := ThreeDView.landDepth i in
      let totalFloors := inject_Z (totalFloors_or_1 (ThreeDView.result i)) in
      let position :=
        match ThreeDView.viewType i with
        | ThreeDView.building =>
            let height := (totalFloors * ThreeDView.FLOOR_HEIGHT)%Q in
            {| vx := (ThreeDView.landWidth i * 1.5)%Q;
               vy := (height * 0.8)%Q;
               vz := (landD * 1.5)%Q |}
        | ThreeDView.single =>
            {| vx := 0; vy := (landD * 0.75)%Q; vz := landD |}
        end in
      Some {| position := position;
              target := {| vx := 0;
                           vy := ((totalFloors * ThreeDView.FLOOR_HEIGHT) / 3)%Q;
                           vz := 0 |} |}
  end.

(** [updateCameraPosition] of the revision with the glass palette
    (src/unnamed/part_000, lines 183-201). *)
Definition updateCameraPosition_neon (i : ThreeDViewNeon.Inputs)
    (camera : option Camera) : option Camera :=
  match camera with
  | None => None
  | Some _ =>
      let landD := ThreeDViewNeon.landDepth i in
      let totalFloors := inject_Z (totalFloors_or_1 (ThreeDViewNeon.result i)) in
      match ThreeDViewNeon.viewType i with
      | ThreeDViewNeon.building =>
          let height := (totalFloors * ThreeDViewNeon.FLOOR_HEIGHT)%Q in
          Some {| position := {| vx := (ThreeDViewNeon.landWidth i * 1.5)%Q;
                                 vy := (height + 20)%Q;
                                 vz := (landD * 2)%Q |};
                  target := {| vx := 0; vy := (height / 3)%Q; vz := 0 |} |}
      | ThreeDViewNeon.single =>
          Some {| position := {| vx := 0; vy := (landD * 1.5)%Q;
                                 vz := (landD * 1.5)%Q |};
                  target := {| vx := 0; vy := 0; vz := 0 |} |}
      end
  end.

(** The floor count the camera is set for: [totalFloors] of the result,
    and 1 when there is no result or [totalFloors] is 0. *)
Definition floors_in_view (result : option AnalysisResult) (n : Z) : Prop :=
  match result with
  | None => n = 1
  | Some res =>
      (totalFloors (buildingSummary res) = 0 /\ n = 1) \/
      (totalFloors (buildingSummary res) <> 0 /\
       n = totalFloors (buildingSummary res))
  end.

End ViewCamera.

Module NeonBase.

Import Js.

Inductive ShapeOp : Set :=
| shape_moveTo (x y : Q)
| shape_lineTo (x y : Q).

(** The point a call on the shape names. *)
Definition shape_x (op : ShapeOp) : Q :=
  match op with shape_moveTo x _ | shape_lineTo x _ => x end.

Definition shape_y (op : ShapeOp) : Q :=
  match op with shape_moveTo _ y | shape_lineTo _ y => y end.

Inductive BaseGeometry : Set :=
| ShapeGeometry (path : list ShapeOp)
| PlaneGeometry (w d : Q).

(** The base of the scene (src/unnamed/part_000, lines 215-253): the
    drawn polygon stretched over the plot, or the plot rectangle.  [None]
    when the bounding box of the polygon has width or height 0: the
    ratios, and with them the vertices, are then not finite numbers. *)
Definition baseGeo (i : ThreeDViewNeon.Inputs) (landW landD : Q)
  : option BaseGeometry :=
  match ThreeDViewNeon.customPolygon i with
  | None => Some (PlaneGeometry landW landD)
  | Some polygon =>
      if (3 <=? List.length polygon)%nat then
        let xs := map fst polygon in
        let ys := map snd polygon in
        let minX := Math_min xs in
        let maxX := Math_max xs in
        let minY := Math_min ys in
        let maxY := Math_max ys in
        if Qeq_bool (maxX - minX) 0 || Qeq_bool (maxY - minY) 0 then None
        else
          let widthRatio := (landW / (maxX - minX))%Q in
          let heightRatio := (landD / (maxY - minY))%Q in
          let vertex (p : Q * Q) : Q * Q :=
            (((fst p - minX) * widthRatio - landW / 2)%Q,
             (- ((snd p - minY) * heightRatio - landD / 2))%Q) in
          match polygon with
          | [] => Some (ShapeGeometry [])
          | p0 :: rest =>
              Some (ShapeGeometry
                      (shape_moveTo (fst (vertex p0)) (snd (vertex p0))
                       :: map (fun p => shape_lineTo (fst (vertex p))
                                                     (snd (vertex p)))
                              rest))
          end
      else Some (PlaneGeometry landW landD)
  end.

End NeonBase.

(* ================================================================== *)
(** ** Geometry of the boxes in a scene *)
(* ================================================================== *)

Module BoxGeometryOf.

Import Gemini Three.

(** The lower and upper face of a box mesh along the vertical axis. *)
Definition bottom (o : Object3D) : Q :=
  match o with
  | Mesh (BoxGeometry _ h _) _ p _ _ => (vy p - h / 2)%Q
  | _ => 0
  end.

Definition top (o : Object3D) : Q :=
  match o with
  | Mesh (BoxGeometry _ h _) _ p _ _ => (vy p + h / 2)%Q
  | _ => 0
  end.

(** The object is a box mesh. *)
Definition is_box (o : Object3D) : bool :=
  match o with
  | Mesh (BoxGeometry _ _ _) _ _ _ _ => true
  | _ => false
  end.

(** The footprint of the box lies within the plot, which is centred at
    the origin and measures [landW] by [landD]. *)
Definition inside_plot (landW landD : Q) (o : Object3D) : Prop :=
  match o with
  | Mesh (BoxGeometry w _ d) _ p _ _ =>
      (- (landW / 2) <= vx p - w / 2)%Q /\ (vx p + w / 2 <= landW / 2)%Q /\
      (- (landD / 2) <= vz p - d / 2)%Q /\ (vz p + d / 2 <= landD / 2)%Q
  | _ => True
  end.

(** The layout of the room lies within the 0-100 percent square. *)
Definition within_footprint (room : Room) : Prop :=
  (0 <= x (layout room))%Q /\ (0 <= width (layout room))%Q /\
  (x (layout room) + width (layout room) <= 100)%Q /\
  (0 <= y (layout room))%Q /\ (0 <= height (layout room))%Q /\
  (y (layout room) + height (layout room) <= 100)%Q.

(** The box [renderFloor] of src/three-d-view/three-d-view.component.ts
    adds for a room in the single-floor view. *)
Definition single_view_box (elevation landW landD : Q) (room : Room) : Object3D :=
  Mesh (BoxGeometry ((width (layout room) / 100) * landW)%Q 2.5%Q
                    ((height (layout room) / 100) * landD)%Q)
       (if RoomType_eqb (type room) void
        then {| class := MeshStandardMaterial; color := 0;
                wireframe := true; transparent := true; opacity := 0.2 |}
        else ThreeDView.standard (ThreeDView.roomColors (type room)))
       {| vx := Stacked.footprint_x landW room;
          vy := (elevation + 2.5 / 2)%Q;
          vz := Stacked.footprint_z landD room |}
       true true.

(** How a room is shown in the single-floor view of
    src/three-d-view/three-d-view.component.ts: a box 2.5 high standing on
    [elevation], a translucent wireframe for a void. *)
Definition shows_room (elevation landW landD : Q) (room : Room)
    (o : Object3D) : Prop :=
  exists material,
    o = Mesh (BoxGeometry ((width (layout room) / 100) * landW)%Q 2.5%Q
                          ((height (layout room) / 100) * landD)%Q)
             material
             {| vx := Stacked.footprint_x landW room;
                vy := (elevation + 2.5 / 2)%Q;
                vz := Stacked.footprint_z landD room |}
             true true /\
    wireframe material = RoomType_eqb (type room) void /\
    transparent material = RoomType_eqb (type room) void /\
    (type room <> void -> color material = ThreeDView.roomColors (type room)).

(** What [renderFloor] of the revision with the glass palette
    (src/unnamed/part_000) adds for a room in the single-floor view: a box
    2.8 high, for a void a faint wireframe, for any other room a glass
    volume and its outline. *)
Definition neon_single_view (elevation landW landD : Q) (room : Room)
  : list Object3D :=
  let geometry :=
    BoxGeometry ((width (layout room) / 100) * landW)%Q 2.8%Q
                ((height (layout room) / 100) * landD)%Q in
  let position :=
    {| vx := Stacked.footprint_x landW room;
       vy := (elevation + 2.8 / 2)%Q;
       vz := Stacked.footprint_z landD room |} in
  if RoomType_eqb (type room) void then
    [ Mesh geometry
        {| class := MeshBasicMaterial; color := 0xffffff;
           wireframe := true; transparent := true; opacity := 0.05 |}
        position true true ]
  else
    [ Mesh geometry
        {| class := MeshPhysicalMaterial;
           color := ThreeDViewNeon.roomColors (type room);
           wireframe := false; transparent := true; opacity := 0.8 |}
        position true true;
      LineSegments (EdgesGeometry geometry)
        {| class := LineBasicMaterial;
           color := ThreeDViewNeon.roomColors (type room);
           wireframe := false; transparent := true; opacity := 1.0 |}
        position ].

(** A box for a neighbouring building of [floors] floors of 3 metres: it
    stands on the ground, is as deep as the plot and centred on it in
    depth, and its face towards the plot is half a metre from the edge of
    the plot, on the side of negative x for the west neighbour and on the
    side of positive x for the east neighbour. *)
Definition neighbour_box (west : bool) (floors landW landD : Q)
    (o : Object3D) : Prop :=
  match o with
  | Mesh (BoxGeometry w h d) _ p _ _ =>
      (0 < w)%Q /\ d = landD /\ vz p = 0%Q /\
      (vy p - h / 2 == 0)%Q /\ (vy p + h / 2 == floors * 3)%Q /\
      if west then (vx p + w / 2 == - (landW / 2) - 0.5)%Q
      else (vx p - w / 2 == landW / 2 + 0.5)%Q
  | _ => False
  end.

End BoxGeometryOf.

(* ================================================================== *)
(** ** Further sample inputs *)
(* ================================================================== *)

Module SampleMore.

Import Gemini.

(** A service whose every call fulfils with the three-floor response. *)
Definition fulfilling_service (_ _ _ _ : Q) : Error + AnalysisResult :=
  inr Sample.three_floors.

(** A canvas of 400 by 400 pixels, shown at that size at (10, 20). *)
Definition rect : AppCanvas.DOMRect :=
  {| AppCanvas.left := 10; AppCanvas.top := 20;
     AppCanvas.rect_width := 400; AppCanvas.rect_height := 400 |}.

Definition canvas : AppCanvas.Canvas :=
  {| AppCanvas.width := 400; AppCanvas.height := 400;
     AppCanvas.has_2d_context := true |}.

Definition click (x y : Q) : AppCanvas.MouseEvent :=
  {| AppCanvas.clientX := x; AppCanvas.clientY := y |}.


(** A response that announces no floor. *)
Definition no_floors : AnalysisResult :=
  {| buildingSummary :=
       {| summary := "none"; totalFloors := 0; unitsPerFloor := 0 |};
     floorPlans := [ Sample.ground_floor; Sample.first_floor ] |}.

(** A reply whose [floorPlans] is not an array. *)
Definition odd_reply : list (string * JsValue) :=
  [ ("buildingSummary"%string, JsString "a summary");
    ("floorPlans"%string, JsBool true) ].

(** The JSON text of [odd_reply], and a parser that accepts it besides
    the texts [Sample.JSON_parse] accepts. *)
Definition odd_reply_text : string :=
  String.concat EmptyString
    [ "{"; Sample.quoted "buildingSummary"; ":"; Sample.quoted "a summary"; ",";
      Sample.quoted "floorPlans"; ":true}" ]%string.

Definition JSON_parse (t : string) : option JsValue :=
  if String.eqb t odd_reply_text then Some (JsObject odd_reply)
  else Sample.JSON_parse t.

(** The doubles nearest to 0.111 and to 0.127, and a drawing whose
    bounding box measures these. *)
Definition d0_111 : Q := 7998392938210001 # 72057594037927936.
Definition d0_127 : Q := 571957152676053 # 4503599627370496.

Definition sliver : list App.Point :=
  [ {| App.px := 0; App.py := 0 |};
    {| App.px := d0_111; App.py := 0 |};
    {| App.px := 0; App.py := d0_127 |} ].

(** The same numbers and 50 in the IEEE 754 binary64 format of the
    Standard Library: sign, significand and exponent. *)
Definition b0_111 : spec_float := S754_finite false 7998392938210001 (-56).
Definition b0_127 : spec_float := S754_finite false 4575657221408424 (-55).
Definition b50 : spec_float := S754_finite false 7036874417766400 (-47).

(** The glass-palette view with the triangle as the custom polygon. *)
Definition view_with_polygon : ThreeDViewNeon.Inputs :=
  {| ThreeDViewNeon.plan := None;
     ThreeDViewNeon.result := None;
     ThreeDViewNeon.viewType := ThreeDViewNeon.single;
     ThreeDViewNeon.landWidth := 10; ThreeDViewNeon.landDepth := 20;
     ThreeDViewNeon.neighborWestFloors := 0;
     ThreeDViewNeon.neighborEastFloors := 0;
     ThreeDViewNeon.customPolygon :=
       Some [ (0, 0); (3 # 4, 0); (0, 3 # 4) ]%Q |}.

(** The building view between a west neighbour of one floor and an east
    neighbour of four. *)
Definition view_between_neighbours : ThreeDView.Inputs :=
  {| ThreeDView.plan := None;
     ThreeDView.result := Some Sample.three_floors;
     ThreeDView.viewType := ThreeDView.building;
     ThreeDView.landWidth := 10; ThreeDView.landDepth := 20;
     ThreeDView.neighborWestFloors := 1;
     ThreeDView.neighborEastFloors := 4 |}.

Definition camera : ViewCamera.Camera :=
  {| ViewCamera.position := {| Three.vx := 0; Three.vy := 0; Three.vz := 0 |};
     ViewCamera.target := {| Three.vx := 0; Three.vy := 0; Three.vz := 0 |} |}.

End SampleMore.

(* ================================================================== *)
(** ** Properties of the plan request client *)
(* ================================================================== *)

Section GeminiProperties.

Import Gemini.

Variable generateContent : Request -> option Response.
Variable trim : string -> string.
Variable JSON_parse : string -> option JsValue.

Lemma analyzeLand_rejects_generic :
  forall w d nw ne e,
    Gemini.analyzeLand generateContent trim JSON_parse w d nw ne = inl e ->
    e = generic_error.
Proof.
  intros w d nw ne e. unfold Gemini.analyzeLand.
  destruct (try_block _ _ _ _); intros H; inversion H; reflexivity.
Qed.

Lemma validate_inr :
  forall v r, validate v = inr r ->
    r = v /\
    exists bs fp len,
      Get v "buildingSummary" = Some bs /\ ToBoolean bs = true /\
      Get v "floorPlans" = Some fp /\ ToBoolean fp = true /\
      Get fp "length" = Some len /\ strict_equals_zero len = false.
Proof.
  intros v r. unfold validate.
  destruct (Get v "buildingSummary") as [bs|] eqn:Hbs; [|discriminate].
  destruct (ToBoolean bs) eqn:Tbs; simpl; [|discriminate].
  destruct (Get v "floorPlans") as [fp|] eqn:Hfp; [|discriminate].
  destruct (ToBoolean fp) eqn:Tfp; simpl; [|discriminate].
  destruct (Get fp "length") as [len|] eqn:Hlen; [|discriminate].
  destruct (strict_equals_zero len) eqn:Z0; [discriminate|].
  intros H; inversion H; subst. split; [reflexivity|].
  exists bs, fp, len. repeat split; assumption.
Qed.

Lemma validate_lacking :
  forall v,
    lacks v "buildingSummary" \/ lacks v "floorPlans" \/
    Get v "floorPlans" = Some (JsArray []) ->
    exists t, validate v = inl t.
Proof.
  intros v H. destruct (validate v) as [t|r] eqn:E; [eauto|].
  apply validate_inr in E.
  destruct E as (_ & bs & fp & len & Hbs & Tbs & Hfp & Tfp & Hlen & Z0).
  destruct H as [H | [H | H]].
  - rewrite (H _ Hbs) in Tbs. discriminate.
  - rewrite (H _ Hfp) in Tfp. discriminate.
  - rewrite Hfp in H. inversion H; subst. simpl in Hlen.
    inversion Hlen; subst. discriminate.
Qed.

Lemma analyzeLand_inr :
  forall w d nw ne r,
    Gemini.analyzeLand generateContent trim JSON_parse w d nw ne = inr r ->
    exists response t,
      generateContent (request (prompt w d nw ne)) = Some response /\
      text response = Some t /\ JSON_parse (trim t) = Some r /\
      validate r = inr r.
Proof.
  intros w d nw ne r. unfold Gemini.analyzeLand, try_block.
  destruct (generateContent _) as [response|]; [|discriminate].
  destruct (text response) as [t|] eqn:Ht; [|discriminate].
  destruct (JSON_parse (trim t)) as [v|] eqn:Hp; [|discriminate].
  destruct (validate v) as [th|r'] eqn:Hv; [discriminate|].
  intros H; inversion H; subst.
  destruct (validate_inr _ _ Hv) as [-> _].
  exists response, t. auto.
Qed.

(** C1 (as amended).  A reply that parses as JSON but lacks
    [buildingSummary], lacks [floorPlans] or has an empty [floorPlans]
    array is not returned: [analyzeLand] rejects with an error.  Hence
    every value [analyzeLand] returns has a truthy [buildingSummary] and
    a truthy [floorPlans] whose [length] is not 0, which is a non-empty
    list whenever [floorPlans] is an array; that it is an array is not
    checked. *)
Theorem analyzeLand_returns_only_validated_results :
  forall w d nw ne,
    (forall response t v,
        generateContent (request (prompt w d nw ne)) = Some response ->
        text response = Some t ->
        JSON_parse (trim t) = Some v ->
        lacks v "buildingSummary" \/ lacks v "floorPlans" \/
        Get v "floorPlans" = Some (JsArray []) ->
        Gemini.analyzeLand generateContent trim JSON_parse w d nw ne
        = inl generic_error)
    /\
    (forall r,
        Gemini.analyzeLand generateContent trim JSON_parse w d nw ne = inr r ->
        (exists bs, Get r "buildingSummary" = Some bs /\ ToBoolean bs = true) /\
        (exists fp len,
            Get r "floorPlans" = Some fp /\ ToBoolean fp = true /\
            Get fp "length" = Some len /\ strict_equals_zero len = false) /\
        (forall items, Get r "floorPlans" = Some (JsArray items) -> items <> [])).
Proof.
  intros w d nw ne. split.
  - intros response t v Hg Ht Hp Hv.
    destruct (validate_lacking v Hv) as [th Hth].
    unfold Gemini.analyzeLand, try_block.
    rewrite Hg, Ht, Hp, Hth. reflexivity.
  - intros r Hr.
    destruct (analyzeLand_inr _ _ _ _ _ Hr) as (response & t & _ & _ & _ & Hv).
    destruct (validate_inr _ _ Hv)
      as (_ & bs & fp & len & Hbs & Tbs & Hfp & Tfp & Hlen & Z0).
    split; [eauto|]. split; [exists fp, len; auto|].
    intros items Hitems Hnil. subst items. rewrite Hfp in Hitems.
    inversion Hitems; subst. simpl in Hlen. inversion Hlen; subst.
    discriminate.
Qed.

(** C2 (as amended).  A rejected network call, a reply without text, a
    JSON parse failure and a missing required field all make
    [analyzeLand] reject with one and the same generic error, so the
    caller cannot tell a failed network call from an invalid reply. *)
Theorem analyzeLand_failures_share_one_error :
  forall w d nw ne,
    (generateContent (request (prompt w d nw ne)) = None ->
     Gemini.analyzeLand generateContent trim JSON_parse w d nw ne
     = inl generic_error)
    /\
    (forall response t,
        generateContent (request (prompt w d nw ne)) = Some response ->
        text response = Some t ->
        JSON_parse (trim t) = None ->
        Gemini.analyzeLand generateContent trim JSON_parse w d nw ne
        = inl generic_error)
    /\
    (forall response t v,
        generateContent (request (prompt w d nw ne)) = Some response ->
        text response = Some t ->
        JSON_parse (trim t) = Some v ->
        lacks v "buildingSummary" \/ lacks v "floorPlans" ->
        Gemini.analyzeLand generateContent trim JSON_parse w d nw ne
        = inl generic_error)
    /\
    (forall e,
        Gemini.analyzeLand generateContent trim JSON_parse w d nw ne = inl e ->
        e = generic_error).
Proof.
  intros w d nw ne. repeat split.
  - intros Hg. unfold Gemini.analyzeLand, try_block.
    rewrite Hg. reflexivity.
  - intros response t Hg Ht Hp.
    unfold Gemini.analyzeLand, try_block.
    rewrite Hg, Ht, Hp. reflexivity.
  - intros response t v Hg Ht Hp Hv.
    destruct (validate_lacking v) as [th Hth]; [tauto|].
    unfold Gemini.analyzeLand, try_block.
    rewrite Hg, Ht, Hp, Hth. reflexivity.
  - apply analyzeLand_rejects_generic.
Qed.

End GeminiProperties.

(* ================================================================== *)
(** ** Properties of the application state controller *)
(* ================================================================== *)

Section Selection.

Import Js Gemini.



Lemma index_of_nat :
  forall (A : Type) (l : list A) (n : nat),
    index l (Z.of_nat n) = nth_error l n.
Proof.
  intros A l n. unfold index.
  destruct (Z.of_nat n <? 0) eqn:E; [apply Z.ltb_lt in E; lia|].
  rewrite Nat2Z.id. reflexivity.
Qed.


End Selection.


(** C10.  [currentFloorPlan] selects by array position, not by the
    [level] field: with [selectedFloor = i] it is the element at position
    [i] of [floorPlans], whatever the levels of the plans are (both
    revisions of the component). *)
Theorem currentFloorPlan_selects_by_position :
  (forall s res (i : nat) p,
      App.analysisResult s = Some res ->
      App.selectedFloor s = Z.of_nat i ->
      nth_error (Gemini.floorPlans res) i = Some p ->
      App.currentFloorPlan s = App.current_plan p)
  /\
  (forall s res (i : nat) p,
      AppNumeric.analysisResult s = Some res ->
      AppNumeric.selectedFloor s = Z.of_nat i ->
      nth_error (Gemini.floorPlans res) i = Some p ->
      AppNumeric.currentFloorPlan s = App.current_plan p).
Proof.
  split; intros s res i p Hres Hsel Hnth.
  - unfold App.currentFloorPlan. rewrite Hres, Hsel, index_of_nat, Hnth.
    reflexivity.
  - unfold AppNumeric.currentFloorPlan. rewrite Hres, Hsel, index_of_nat, Hnth.
    reflexivity.
Qed.

(** C9.  [undoPoint] removes exactly the last point (four points become
    the first three, in order), [resetDrawing] leaves no point, and
    [isDrawingValid] holds exactly for three points or more, so it is
    false after [resetDrawing]. *)
Theorem undoPoint_resetDrawing_isDrawingValid :
  forall s : App.AppState,
    (forall pts p,
        App.polygonPoints
          (App.undoPoint (App.set_polygonPoints (pts ++ [p]) s)) = pts) /\
    (forall a b c d,
        App.polygonPoints
          (App.undoPoint (App.set_polygonPoints [a; b; c; d] s)) = [a; b; c]) /\
    App.polygonPoints (App.resetDrawing s) = [] /\
    (App.isDrawingValid s = true <->
     (3 <= List.length (App.polygonPoints s))%nat) /\
    App.isDrawingValid (App.resetDrawing s) = false.
Proof.
  intros s. repeat split.
  - intros pts p. unfold App.undoPoint, Js.slice_0_minus1. simpl.
    rewrite length_app. simpl.
    replace (List.length pts + 1 - 1)%nat with (List.length pts + 0)%nat by lia.
    rewrite firstn_app_2. simpl. apply app_nil_r.
  - unfold App.isDrawingValid. intros H. apply Nat.leb_le in H. exact H.
  - unfold App.isDrawingValid. intros H. apply Nat.leb_le. exact H.
Qed.

Section AnalyzePlotProperties.

Import Gemini.

Lemma app_request_shape :
  forall svc fw fd s,
    exists s',
      App.analyzePlot_request svc fw fd s =
        (s', [ (fw, fd, App.neighborEastFloors s, App.neighborWestFloors s) ]).
Proof. intros. unfold App.analyzePlot_request. simpl. eauto. Qed.

Lemma app_request_failure :
  forall svc fw fd s e,
    svc fw fd (App.neighborEastFloors s) (App.neighborWestFloors s) = inl e ->
    let s' := fst (App.analyzePlot_request svc fw fd s) in
    App.step s' = App.input /\ App.errorMessage s' <> None /\
    App.analysisResult s' = None.
Proof.
  intros svc fw fd s e He. unfold App.analyzePlot_request. simpl.
  rewrite He. simpl. repeat split. discriminate.
Qed.

(** Every run of [analyzePlot] either stops at the input check, with no
    call, or makes exactly one call with the east signal in third and
    the west signal in fourth position. *)
Lemma app_analyzePlot_calls :
  forall svc s,
    snd (App.analyzePlot svc s) = [] \/
    exists fw fd,
      App.analyzePlot svc s = App.analyzePlot_request svc fw fd s.
Proof.
  intros svc s. unfold App.analyzePlot.
  destruct (App.inputType s).
  - destruct (Qle_bool (App.landWidth s) 0 || Qle_bool (App.landDepth s) 0);
      [left; reflexivity | right; eauto].
  - destruct (negb (App.isDrawingValid s)); [left; reflexivity | right; eauto].
Qed.

End AnalyzePlotProperties.

(** C8.  On invalid input (numeric mode with a width or depth that is not
    positive, drawing mode with fewer than three points) [analyzePlot]
    sets a localized error message and returns: no model request is made,
    and no other signal is written, so the step stays what it was,
    ['input'], and is never ['loading']. *)
Theorem analyzePlot_invalid_input_makes_no_request :
  forall svc s,
    (App.inputType s = App.numeric /\
     (App.landWidth s <= 0 \/ App.landDepth s <= 0)%Q) \/
    (App.inputType s = App.draw /\
     (List.length (App.polygonPoints s) < 3)%nat) ->
    exists msg,
      App.analyzePlot svc s = (App.set_errorMessage (Some msg) s, []) /\
      App.errorMessage (fst (App.analyzePlot svc s)) = Some msg /\
      App.step (fst (App.analyzePlot svc s)) = App.step s /\
      (App.step s = App.input ->
       App.step (fst (App.analyzePlot svc s)) = App.input).
Proof.
  intros svc s H.
  assert (E : exists msg,
             App.analyzePlot svc s = (App.set_errorMessage (Some msg) s, [])).
  { unfold App.analyzePlot. destruct H as [[Hm Hdim] | [Hm Hpts]]; rewrite Hm.
    - assert (B : Qle_bool (App.landWidth s) 0 || Qle_bool (App.landDepth s) 0
                  = true).
      { apply orb_true_iff. destruct Hdim as [Hd|Hd]; [left|right];
          apply Qle_bool_iff; exact Hd. }
      rewrite B. eauto.
    - assert (B : App.isDrawingValid s = false).
      { unfold App.isDrawingValid. apply Nat.leb_gt. exact Hpts. }
      rewrite B. simpl. eauto. }
  destruct E as [msg E]. exists msg. rewrite E. simpl.
  repeat split. intros Hs; exact Hs.
Qed.

(** C5.  If the model call made by [analyzePlot] rejects, then when
    [analyzePlot] completes the step is ['input'], [errorMessage] is not
    null and [analysisResult] is null, whatever result was held before
    (both revisions of the component). *)
Theorem analyzePlot_failed_call_discards_result :
  (forall svc s s' w d a b e,
      App.analyzePlot svc s = (s', [ (w, d, a, b) ]) ->
      svc w d a b = inl e ->
      App.step s' = App.input /\ App.errorMessage s' <> None /\
      App.analysisResult s' = None)
  /\
  (forall svc s s' w d a b e,
      AppNumeric.analyzePlot svc s = (s', [ (w, d, a, b) ]) ->
      svc w d a b = inl e ->
      AppNumeric.step s' = AppNumeric.input /\
      AppNumeric.errorMessage s' <> None /\
      AppNumeric.analysisResult s' = None).
Proof.
  split; intros svc s s' w d a b e Hrun He.
  - destruct (app_analyzePlot_calls svc s) as [Hnil | (fw & fd & Hreq)].
    + rewrite Hrun in Hnil. discriminate.
    + rewrite Hreq in Hrun.
      destruct (app_request_shape svc fw fd s) as [s1 Hs1].
      rewrite Hs1 in Hrun. inversion Hrun; subst.
      pose proof (app_request_failure svc w d s e He) as Hf.
      rewrite Hs1 in Hf. exact Hf.
  - unfold AppNumeric.analyzePlot in Hrun.
    destruct (Qle_bool (AppNumeric.landWidth s) 0
              || Qle_bool (AppNumeric.landDepth s) 0); [discriminate|].
    simpl in Hrun. inversion Hrun; subst. rewrite He. simpl.
    repeat split. discriminate.
Qed.

(** C6.  Every model request [analyzePlot] makes passes the value of the
    [neighborEastFloors] signal where [analyzeLand] expects
    [neighborWestFloors], and the [neighborWestFloors] signal where it
    expects [neighborEastFloors]: the prompt's "West Neighbor" line
    carries the east count and its "East Neighbor" line the west count
    (both revisions of the component). *)
Theorem analyzePlot_passes_neighbors_crosswise :
  (forall svc s w d nw ne,
      In (w, d, nw, ne) (snd (App.analyzePlot svc s)) ->
      nw = App.neighborEastFloors s /\ ne = App.neighborWestFloors s /\
      Gemini.interpolated_after "- West Neighbor: " (Gemini.prompt w d nw ne)
        = Some (App.neighborEastFloors s) /\
      Gemini.interpolated_after "- East Neighbor: " (Gemini.prompt w d nw ne)
        = Some (App.neighborWestFloors s))
  /\
  (forall svc s w d nw ne,
      In (w, d, nw, ne) (snd (AppNumeric.analyzePlot svc s)) ->
      nw = AppNumeric.neighborEastFloors s /\
      ne = AppNumeric.neighborWestFloors s /\
      Gemini.interpolated_after "- West Neighbor: " (Gemini.prompt w d nw ne)
        = Some (AppNumeric.neighborEastFloors s) /\
      Gemini.interpolated_after "- East Neighbor: " (Gemini.prompt w d nw ne)
        = Some (AppNumeric.neighborWestFloors s)).
Proof.
  assert (P : forall w d nw ne,
             Gemini.interpolated_after "- West Neighbor: "
               (Gemini.prompt w d nw ne) = Some nw /\
             Gemini.interpolated_after "- East Neighbor: "
               (Gemini.prompt w d nw ne) = Some ne).
  { intros. split; vm_compute; reflexivity. }
  split; intros svc s w d nw ne Hin.
  - destruct (app_analyzePlot_calls svc s) as [Hnil | (fw & fd & Hreq)].
    + rewrite Hnil in Hin. contradiction.
    + rewrite Hreq in Hin.
      destruct (app_request_shape svc fw fd s) as [s1 Hs1].
      rewrite Hs1 in Hin. simpl in Hin. destruct Hin as [Hin|[]].
      inversion Hin; subst. repeat split; apply P.
  - unfold AppNumeric.analyzePlot in Hin.
    destruct (Qle_bool (AppNumeric.landWidth s) 0
              || Qle_bool (AppNumeric.landDepth s) 0); [contradiction|].
    simpl in Hin. destruct Hin as [Hin|[]]. inversion Hin; subst.
    repeat split; apply P.
Qed.

(* ================================================================== *)
(** ** The bounding box of a drawn polygon *)
(* ================================================================== *)

Section BoundingBox.

Import Js.
Local Open Scope Q_scope.

Variable k : Q.
Hypothesis k_pos : 0 < k.

Lemma Qmult_k_eq : Proper (Qeq ==> Qeq) (Qmult k).
Proof. intros a b E. rewrite E. reflexivity. Qed.

Lemma Qmult_k_le : Proper (Qle ==> Qle) (Qmult k).
Proof. intros a b L. apply Qmult_le_l; assumption. Qed.

Lemma fold_max_scaled :
  forall l a b, b == k * a ->
    fold_left Qmax (map (Qmult k) l) b == k * fold_left Qmax l a.
Proof.
  induction l as [|c l IH]; intros a b E; simpl.
  - exact E.
  - apply IH. rewrite E. apply Q.max_mono; [exact Qmult_k_eq | exact Qmult_k_le].
Qed.

Lemma fold_min_scaled :
  forall l a b, b == k * a ->
    fold_left Qmin (map (Qmult k) l) b == k * fold_left Qmin l a.
Proof.
  induction l as [|c l IH]; intros a b E; simpl.
  - exact E.
  - apply IH. rewrite E. apply Q.min_mono; [exact Qmult_k_eq | exact Qmult_k_le].
Qed.

Lemma Math_max_scaled :
  forall l, l <> [] -> Math_max (map (Qmult k) l) == k * Math_max l.
Proof.
  intros [|a l] H; [contradiction|]. simpl.
  apply fold_max_scaled. reflexivity.
Qed.

Lemma Math_min_scaled :
  forall l, l <> [] -> Math_min (map (Qmult k) l) == k * Math_min l.
Proof.
  intros [|a l] H; [contradiction|]. simpl.
  apply fold_min_scaled. reflexivity.
Qed.

Lemma extent_scaled :
  forall l, l <> [] -> extent (map (Qmult k) l) == k * extent l.
Proof.
  intros l H. unfold extent.
  rewrite Math_max_scaled, Math_min_scaled by assumption. ring.
Qed.

End BoundingBox.

(* ================================================================== *)
(** ** Double-precision rounding *)
(* ================================================================== *)

Section Doubles.

Import Js.
Local Open Scope Q_scope.

Ltac compared H :=
  match type of H with
  | _ = Eq => apply (proj2 (Qeq_alt _ _)) in H
  | _ = Lt => apply (proj2 (Qlt_alt _ _)) in H
  | _ = Gt => apply (proj2 (Qgt_alt _ _)) in H
  end.

Lemma half_even_comp :
  forall a b, a == b -> half_even a = half_even b.
Proof.
  intros a b E. unfold half_even.
  rewrite (Qfloor_comp a b E).
  assert (C : (a - inject_Z (Qfloor b) ?= 1 # 2) = (b - inject_Z (Qfloor b) ?= 1 # 2)).
  { apply Qcompare_comp; [rewrite E|]; reflexivity. }
  rewrite C. reflexivity.
Qed.

Lemma half_even_bounds :
  forall q, (Qfloor q <= half_even q <= Qfloor q + 1)%Z.
Proof.
  intros q. unfold half_even.
  destruct (q - inject_Z (Qfloor q) ?= 1 # 2); [destruct (Z.even _)| |]; lia.
Qed.

Lemma half_even_close :
  forall q, - (1 # 2) <= inject_Z (half_even q) - q <= 1 # 2.
Proof.
  intros q. unfold half_even.
  pose proof (Qfloor_le q) as Hle. pose proof (Qlt_floor q) as Hlt.
  rewrite inject_Z_plus in Hlt. change (inject_Z 1) with 1 in Hlt.
  destruct (q - inject_Z (Qfloor q) ?= 1 # 2) eqn:C.
  - compared C.
    destruct (Z.even (Qfloor q));
      [|rewrite inject_Z_plus; change (inject_Z 1) with 1];
      set (z := inject_Z (Qfloor q)) in *; clearbody z; lra.
  - compared C. set (z := inject_Z (Qfloor q)) in *; clearbody z. lra.
  - compared C. rewrite inject_Z_plus. change (inject_Z 1) with 1.
    set (z := inject_Z (Qfloor q)) in *; clearbody z. lra.
Qed.

Lemma half_even_inject :
  forall n : Z, half_even (inject_Z n) = n.
Proof.
  intros n. unfold half_even. rewrite Qfloor_Z.
  assert (C : (inject_Z n - inject_Z n ?= 1 # 2) = Lt).
  { apply (proj1 (Qlt_alt _ _)). generalize (inject_Z n). intros z. lra. }
  rewrite C. reflexivity.
Qed.

(** Rounding to the nearest integer is monotone. *)
Lemma half_even_monotone :
  forall a b, a <= b -> (half_even a <= half_even b)%Z.
Proof.
  intros a b Hab.
  pose proof (Qfloor_resp_le a b Hab) as Hf.
  destruct (Z.eq_dec (Qfloor a) (Qfloor b)) as [E | N].
  - unfold half_even. rewrite E.
    destruct (a - inject_Z (Qfloor b) ?= 1 # 2) eqn:Ca;
      destruct (b - inject_Z (Qfloor b) ?= 1 # 2) eqn:Cb;
      try (destruct (Z.even (Qfloor b))); try lia;
      compared Ca; compared Cb;
      exfalso; set (z := inject_Z (Qfloor b)) in *; clearbody z; lra.
  - pose proof (half_even_bounds a). pose proof (half_even_bounds b). lia.
Qed.

Lemma pow2_pos : forall p : Z, (0 <= p)%Z -> 0 < inject_Z (2 ^ p).
Proof.
  intros p H. change 0 with (inject_Z 0). rewrite <- Zlt_Qlt.
  apply Z.pow_pos_nonneg; lia.
Qed.

Lemma nearest_comp :
  forall a b, a == b -> nearest a = nearest b.
Proof.
  intros a b E. unfold nearest. rewrite (Qfloor_comp a b E).
  f_equal. apply half_even_comp. rewrite E. reflexivity.
Qed.

Lemma inject_pow2_add :
  forall n p : Z, (0 <= n)%Z -> (0 <= p)%Z ->
    inject_Z (2 ^ (n + p)) == inject_Z (2 ^ n) * inject_Z (2 ^ p).
Proof.
  intros n p Hn Hp. rewrite Z.pow_add_r by assumption.
  rewrite inject_Z_mult. reflexivity.
Qed.

(** The candidates on a finer grid stay below the next power of two, and
    those on a coarser grid start at it. *)
Lemma nearest_below :
  forall a p,
    p = Z.max 0 (Z.log2 (Qfloor a) - 52) ->
    (half_even (a / inject_Z (2 ^ p)) <= 2 ^ 53)%Z.
Proof.
  intros a p Hp.
  assert (P0 : (0 <= p)%Z) by lia.
  assert (N : (Qfloor a + 1 <= 2 ^ (53 + p))%Z).
  { destruct (Z_lt_le_dec 0 (Qfloor a)) as [Hpos | Hneg].
    - destruct (Z.log2_spec (Qfloor a) Hpos) as [_ Hlt].
      assert (2 ^ Z.succ (Z.log2 (Qfloor a)) <= 2 ^ (53 + p))%Z.
      { apply Z.pow_le_mono_r; lia. }
      lia.
    - assert (0 < 2 ^ (53 + p))%Z by (apply Z.pow_pos_nonneg; lia). lia. }
  rewrite <- (half_even_inject (2 ^ 53)).
  apply half_even_monotone.
  apply Qle_shift_div_r; [apply pow2_pos; assumption|].
  rewrite <- inject_pow2_add by lia.
  apply Qle_trans with (inject_Z (Qfloor a + 1)).
  - apply Qlt_le_weak. apply Qlt_floor.
  - rewrite <- Zle_Qle. exact N.
Qed.

Lemma nearest_above :
  forall a p,
    p = Z.max 0 (Z.log2 (Qfloor a) - 52) -> (0 < p)%Z ->
    (2 ^ 52 <= half_even (a / inject_Z (2 ^ p)))%Z.
Proof.
  intros a p Hp P0.
  assert (Hlog : (Z.log2 (Qfloor a) = 52 + p)%Z) by lia.
  assert (Hpos : (0 < Qfloor a)%Z).
  { destruct (Z_lt_le_dec 0 (Qfloor a)) as [H | H]; [exact H|].
    rewrite Z.log2_nonpos in Hlog by assumption. lia. }
  destruct (Z.log2_spec (Qfloor a) Hpos) as [Hle _].
  rewrite Hlog in Hle.
  rewrite <- (half_even_inject (2 ^ 52)) at 1.
  apply half_even_monotone.
  apply Qle_shift_div_l; [apply pow2_pos; lia|].
  rewrite <- inject_pow2_add by lia.
  apply Qle_trans with (inject_Z (Qfloor a)).
  - rewrite <- Zle_Qle. exact Hle.
  - apply Qfloor_le.
Qed.

(** Rounding to the nearest double is monotone. *)
Lemma nearest_monotone :
  forall a b, a <= b -> (nearest a <= nearest b)%Z.
Proof.
  intros a b Hab. unfold nearest.
  set (p := Z.max 0 (Z.log2 (Qfloor a) - 52)).
  set (r := Z.max 0 (Z.log2 (Qfloor b) - 52)).
  assert (Hpr : (p <= r)%Z).
  { pose proof (Z.log2_le_mono _ _ (Qfloor_resp_le a b Hab)). lia. }
  assert (P0 : (0 <= p)%Z) by lia.
  destruct (Z.eq_dec p r) as [E | N].
  - rewrite <- E. apply Z.mul_le_mono_nonneg_r; [apply Z.pow_nonneg; lia|].
    apply half_even_monotone.
    apply Qmult_le_compat_r; [exact Hab|].
    apply Qlt_le_weak, Qinv_lt_0_compat, pow2_pos. exact P0.
  - pose proof (nearest_below a p eq_refl) as Ha.
    pose proof (nearest_above b r eq_refl ltac:(lia)) as Hb.
    apply Z.le_trans with (2 ^ 53 * 2 ^ p)%Z.
    + apply Z.mul_le_mono_nonneg_r; [apply Z.pow_nonneg; lia | exact Ha].
    + apply Z.le_trans with (2 ^ 52 * 2 ^ r)%Z.
      * rewrite <- !Z.pow_add_r by lia. apply Z.pow_le_mono_r; lia.
      * apply Z.mul_le_mono_nonneg_r; [apply Z.pow_nonneg; lia | exact Hb].
Qed.

Lemma nearest_inject_small : nearest 0 = 0%Z.
Proof. reflexivity. Qed.

Lemma double_nonneg_eq :
  forall v, 0 <= v ->
    double v = inject_Z (nearest (v * inject_Z (2 ^ 1074))) / inject_Z (2 ^ 1074).
Proof.
  intros v Hv. unfold double.
  apply Qle_bool_iff in Hv. rewrite Hv. apply Qle_bool_iff in Hv.
  rewrite (nearest_comp (Qabs v * inject_Z (2 ^ 1074)) (v * inject_Z (2 ^ 1074))).
  - reflexivity.
  - rewrite (Qabs_pos v Hv). reflexivity.
Qed.


Lemma double_monotone :
  forall a b, 0 <= a -> a <= b -> double a <= double b.
Proof.
  intros a b Ha Hab.
  rewrite !double_nonneg_eq by lra.
  apply Qmult_le_compat_r.
  - rewrite <- Zle_Qle. apply nearest_monotone.
    apply Qmult_le_compat_r; [exact Hab|].
    apply Qlt_le_weak, pow2_pos. lia.
  - apply Qlt_le_weak, Qinv_lt_0_compat, pow2_pos. lia.
Qed.

Lemma double_nonneg :
  forall v, 0 <= v -> 0 <= double v.
Proof.
  intros v Hv. rewrite double_nonneg_eq by assumption.
  apply Qle_shift_div_l; [apply pow2_pos; lia|].
  rewrite Qmult_0_l. change 0 with (inject_Z 0). rewrite <- Zle_Qle.
  rewrite <- nearest_inject_small. apply nearest_monotone.
  apply Qmult_le_0_compat; [exact Hv|]. apply Qlt_le_weak, pow2_pos. lia.
Qed.



(** *** [double] is rounding to nearest, ties to even *)

Lemma half_even_tie :
  forall q, q - inject_Z (Qfloor q) == 1 # 2 -> Z.even (half_even q) = true.
Proof.
  intros q H. unfold half_even.
  apply (proj1 (Qeq_alt _ _)) in H. rewrite H.
  destruct (Z.even (Qfloor q)) eqn:E; [exact E|].
  replace (Qfloor q + 1)%Z with (Z.succ (Qfloor q)) by lia.
  rewrite Z.even_succ, <- Z.negb_even, E. reflexivity.
Qed.

Lemma half_even_nearest :
  forall q (j : Z),
    Qabs (inject_Z (half_even q) - q) <= Qabs (inject_Z j - q).
Proof.
  intros q j. destruct (half_even_close q) as [Hlo Hhi].
  apply Qabs_Qle_condition.
  pose proof (Qle_Qabs (inject_Z j - q)) as W1.
  pose proof (Qle_Qabs (- (inject_Z j - q))) as W2.
  rewrite Qabs_opp in W2.
  destruct (Z.eq_dec j (half_even q)) as [-> | N].
  - set (W := Qabs (inject_Z (half_even q) - q)) in *. clearbody W.
    set (m := inject_Z (half_even q)) in *. clearbody m. split; lra.
  - assert (C : inject_Z j + 1 <= inject_Z (half_even q)
                \/ inject_Z (half_even q) + 1 <= inject_Z j).
    { destruct (Z_lt_le_dec j (half_even q)) as [L | L]; [left | right];
        change 1 with (inject_Z 1); rewrite <- inject_Z_plus;
        rewrite <- Zle_Qle; lia. }
    set (W := Qabs (inject_Z j - q)) in *. clearbody W.
    set (m := inject_Z (half_even q)) in *. clearbody m.
    set (z := inject_Z j) in *. clearbody z.
    destruct C; split; lra.
Qed.

(** The nearest multiple of the grid. *)
Lemma grid_nearest :
  forall a p (j : Z), (0 <= p)%Z ->
    Qabs (inject_Z (half_even (a / inject_Z (2 ^ p)) * 2 ^ p) - a)
    <= Qabs (inject_Z (j * 2 ^ p) - a).
Proof.
  intros a p j Hp.
  pose proof (pow2_pos p Hp) as P0.
  assert (Ea : a == a / inject_Z (2 ^ p) * inject_Z (2 ^ p)).
  { field. intros E. rewrite E in P0. apply (Qlt_irrefl 0 P0). }
  rewrite !inject_Z_mult.
  set (q := a / inject_Z (2 ^ p)) in *.
  setoid_replace (inject_Z (half_even q) * inject_Z (2 ^ p) - a)
    with ((inject_Z (half_even q) - q) * inject_Z (2 ^ p))
    by (rewrite Ea at 1; ring).
  setoid_replace (inject_Z j * inject_Z (2 ^ p) - a)
    with ((inject_Z j - q) * inject_Z (2 ^ p))
    by (rewrite Ea at 1; ring).
  rewrite !Qabs_Qmult.
  apply Qmult_le_compat_r; [apply half_even_nearest | apply Qabs_nonneg].
Qed.

Lemma nearest_representable :
  forall a, 0 <= a -> representable (nearest a).
Proof.
  intros a Ha. unfold nearest.
  set (p := Z.max 0 (Z.log2 (Qfloor a) - 52)).
  assert (P0 : (0 <= p)%Z) by lia.
  pose proof (nearest_below a p eq_refl) as Hhi.
  assert (Hlo : (0 <= half_even (a / inject_Z (2 ^ p)))%Z).
  { rewrite <- (half_even_inject 0). apply half_even_monotone.
    apply Qle_shift_div_l; [apply pow2_pos; exact P0|].
    rewrite Qmult_0_l. exact Ha. }
  destruct (Z.eq_dec (half_even (a / inject_Z (2 ^ p))) (2 ^ 53)) as [E | N].
  - exists (2 ^ 52)%Z, (p + 1)%Z. rewrite E.
    split; [split; [apply Z.pow_nonneg; lia | apply Z.pow_lt_mono_r; lia]|].
    split; [lia|].
    rewrite Z.pow_add_r by lia.
    change (2 ^ 53)%Z with (2 ^ 52 * 2)%Z. change (2 ^ 1)%Z with 2%Z. ring.
  - exists (half_even (a / inject_Z (2 ^ p))), p.
    split; [lia|]. split; [exact P0 | reflexivity].
Qed.

Lemma nearest_optimal :
  forall a d, 0 <= a -> representable d ->
    Qabs (inject_Z (nearest a) - a) <= Qabs (inject_Z d - a).
Proof.
  intros a d Ha (m & q & Hm & Hq & ->). unfold nearest.
  set (p := Z.max 0 (Z.log2 (Qfloor a) - 52)).
  assert (P0 : (0 <= p)%Z) by lia.
  destruct (Z_le_gt_dec p q) as [Hpq | Hpq].
  - replace (m * 2 ^ q)%Z with (m * 2 ^ (q - p) * 2 ^ p)%Z.
    + apply grid_nearest. exact P0.
    + rewrite <- Z.mul_assoc, <- Z.pow_add_r by lia. f_equal. f_equal. lia.
  - (* a coarser grid than that of [d]: [d] lies below the binade of [a] *)
    assert (Hp : (0 < p)%Z) by lia.
    pose proof (nearest_above a p eq_refl Hp) as Habove.
    assert (Hlog : (Z.log2 (Qfloor a) = 52 + p)%Z) by lia.
    assert (Hpos : (0 < Qfloor a)%Z).
    { destruct (Z_lt_le_dec 0 (Qfloor a)) as [H | H]; [exact H|].
      rewrite Z.log2_nonpos in Hlog by assumption. lia. }
    destruct (Z.log2_spec (Qfloor a) Hpos) as [Hle _].
    rewrite Hlog in Hle.
    assert (Hlo : inject_Z (2 ^ 52 * 2 ^ p) <= a).
    { rewrite <- Z.pow_add_r by lia.
      apply Qle_trans with (inject_Z (Qfloor a));
        [rewrite <- Zle_Qle; exact Hle | apply Qfloor_le]. }
    assert (Hd : inject_Z (m * 2 ^ q) <= inject_Z (2 ^ 52 * 2 ^ p)).
    { rewrite <- Zle_Qle.
      apply Z.le_trans with (2 ^ 53 * 2 ^ q)%Z.
      - apply Z.mul_le_mono_nonneg_r; [apply Z.pow_nonneg; lia | lia].
      - rewrite <- !Z.pow_add_r by lia. apply Z.pow_le_mono_r; lia. }
    apply Qle_trans with (Qabs (inject_Z (2 ^ 52 * 2 ^ p) - a)).
    + apply grid_nearest. exact P0.
    + rewrite (Qabs_neg (inject_Z (2 ^ 52 * 2 ^ p) - a)) by lra.
      rewrite (Qabs_neg (inject_Z (m * 2 ^ q) - a)) by lra.
      lra.
Qed.

(** [double v] is a double, and no double is nearer to [v]. *)
Lemma double_is_nearest :
  forall v, 0 <= v ->
    (exists d, representable d /\ double v = inject_Z d / inject_Z (2 ^ 1074))
    /\ forall d, representable d ->
         Qabs (double v - v) <= Qabs (inject_Z d / inject_Z (2 ^ 1074) - v).
Proof.
  intros v Hv. rewrite double_nonneg_eq by assumption.
  pose proof (pow2_pos 1074 ltac:(lia)) as S0.
  assert (Ha : 0 <= v * inject_Z (2 ^ 1074)).
  { apply Qmult_le_0_compat; [exact Hv | apply Qlt_le_weak, S0]. }
  split.
  - exists (nearest (v * inject_Z (2 ^ 1074))).
    split; [apply nearest_representable; exact Ha | reflexivity].
  - intros d Hd.
    pose proof (nearest_optimal _ d Ha Hd) as H.
    set (n := inject_Z (nearest (v * inject_Z (2 ^ 1074)))) in *. clearbody n.
    set (S := inject_Z (2 ^ 1074)) in *. clearbody S.
    assert (E : forall x, x / S - v == (x - v * S) * / S).
    { intros x. field. intros E. rewrite E in S0. apply (Qlt_irrefl 0 S0). }
    rewrite !E, !Qabs_Qmult.
    apply Qmult_le_compat_r; [exact H | apply Qabs_nonneg].
Qed.

Lemma double_1 : double 1 == 1.
Proof. vm_compute. reflexivity. Qed.

Lemma double_50 : double 50 == 50.
Proof. vm_compute. reflexivity. Qed.

Lemma double_5 : double 5 == 5.
Proof. vm_compute. reflexivity. Qed.

End Doubles.


Lemma scale_px : forall k pts,
  map App.px (scale k pts) = map (Qmult k) (map App.px pts).
Proof. intros. unfold scale. rewrite !map_map. reflexivity. Qed.

Lemma scale_py : forall k pts,
  map App.py (scale k pts) = map (Qmult k) (map App.py pts).
Proof. intros. unfold scale. rewrite !map_map. reflexivity. Qed.

Lemma app_request_dimensions :
  forall svc fw fd s,
    App.landWidth (fst (App.analyzePlot_request svc fw fd s)) = fw /\
    App.landDepth (fst (App.analyzePlot_request svc fw fd s)) = fd.
Proof.
  intros. unfold App.analyzePlot_request. simpl.
  destruct (svc fw fd _ _); simpl; auto.
Qed.

(** The dimensions [analyzePlot] derives from a drawn polygon. *)
Lemma analyzePlot_drawn_dimensions :
  forall svc s pts,
    App.inputType s = App.draw ->
    (3 <= List.length pts)%nat ->
    let s' := fst (App.analyzePlot svc (App.set_polygonPoints pts s)) in
    App.landWidth s' =
      Qmax 5 (Js.toFixed1
                (Js.double (Js.double (extent (map App.px pts))
                            * App.MAX_GRID_SIZE_METERS)%Q)) /\
    App.landDepth s' =
      Qmax 5 (Js.toFixed1
                (Js.double (Js.double (extent (map App.py pts))
                            * App.MAX_GRID_SIZE_METERS)%Q)).
Proof.
  intros svc s pts Hm Hlen. unfold App.analyzePlot.
  change (App.inputType (App.set_polygonPoints pts s)) with (App.inputType s).
  rewrite Hm.
  assert (V : App.isDrawingValid (App.set_polygonPoints pts s) = true).
  { unfold App.isDrawingValid.
    change (App.polygonPoints (App.set_polygonPoints pts s)) with pts.
    apply Nat.leb_le. exact Hlen. }
  rewrite V. cbv beta iota zeta. simpl negb. cbv iota.
  apply app_request_dimensions.
Qed.


(* ================================================================== *)
(** ** Properties of the scene construction *)
(* ================================================================== *)

Section ForEach.

Context {A B : Type}.

(** A [forEach] whose body either skips the element or adds objects. *)
Lemma forEach_adds :
  forall (body : list B -> A -> list B) (skip : A -> bool) (f : A -> list B),
    (forall g a, body g a = if skip a then g else g ++ f a) ->
    forall l g,
      fold_left body l g
      = g ++ flat_map f (filter (fun a => negb (skip a)) l).
Proof.
  intros body skip f Hbody. induction l as [|a l IH]; intros g; simpl.
  - symmetry. apply app_nil_r.
  - rewrite IH, Hbody. destruct (skip a); simpl.
    + reflexivity.
    + rewrite <- app_assoc. reflexivity.
Qed.

Lemma flat_map_singleton :
  forall (f : A -> B) l, flat_map (fun a => [f a]) l = map f l.
Proof.
  intros f. induction l as [|a l IH]; simpl; [|rewrite IH]; reflexivity.
Qed.

(** [Array.prototype.find] returns the first element that satisfies the
    predicate. *)
Lemma find_first :
  forall (f : A -> bool) l a,
    find f l = Some a ->
    exists before after,
      l = before ++ a :: after /\ f a = true /\
      forall b, In b before -> f b = false.
Proof.
  intros f. induction l as [|c l IH]; intros a H; simpl in H; [discriminate|].
  destruct (f c) eqn:Fc.
  - inversion H; subst. exists [], l. repeat split; [assumption|].
    intros b [].
  - destruct (IH a H) as (before & after & -> & Fa & Hb).
    exists (c :: before), after. repeat split; [assumption|].
    intros b [<- | Hin]; [assumption | apply Hb; assumption].
Qed.

End ForEach.

Section PlanSelection.

Import Js Gemini.

Lemma groundPlan_of_spec :
  forall fps, fps <> [] ->
    exists g, ThreeDView.groundPlan_of fps = Some g /\ is_groundPlan fps g.
Proof.
  intros fps Hne. unfold ThreeDView.groundPlan_of.
  destruct (find (fun p => level p =? 0) fps) as [g|] eqn:F.
  - exists g. split; [reflexivity|]. left.
    destruct (find_first _ _ _ F) as (before & after & E & Hg & Hb).
    exists before, after. repeat split.
    + assumption.
    + apply Z.eqb_eq. assumption.
    + intros p Hp. apply Z.eqb_neq. apply Hb. assumption.
  - destruct fps as [|p0 rest]; [contradiction|].
    exists p0. split; [reflexivity|]. right. split; [|reflexivity].
    intros p Hp. apply Z.eqb_neq. exact (find_none _ _ F p Hp).
Qed.

Lemma typicalPlan_of_spec :
  forall fps, fps <> [] ->
    exists t, ThreeDView.typicalPlan_of fps = Some t /\ is_typicalPlan fps t.
Proof.
  intros fps Hne. unfold ThreeDView.typicalPlan_of.
  destruct fps as [|p0 rest]; [contradiction|].
  assert (Hfind :
            exists t,
              or_else (find (fun p => 0 <? level p) (p0 :: rest))
                      (index (p0 :: rest) 0) = Some t /\
              is_typicalPlan (p0 :: rest) t).
  { destruct (find (fun p => 0 <? level p) (p0 :: rest)) as [t|] eqn:F.
    - exists t. split; [reflexivity|]. left.
      destruct (find_first _ _ _ F) as (before & after & E & Ht & Hb).
      exists before, after. repeat split.
      + assumption.
      + apply Z.ltb_lt. assumption.
      + intros p Hp. apply Z.ltb_ge. apply Hb. assumption.
    - exists p0. split; [reflexivity|]. right. split; [|reflexivity].
      intros p Hp. apply Z.ltb_ge. exact (find_none _ _ F p Hp). }
  destruct (1 <? List.length (p0 :: rest))%nat eqn:L; [exact Hfind|].
  apply Nat.ltb_ge in L. destruct rest as [|p1 rest]; [|simpl in L; lia].
  exists p0. split; [reflexivity|].
  destruct (Z_lt_dec 0 (level p0)) as [Hpos|Hnp].
  - left. exists [], []. repeat split; [assumption | intros p []].
  - right. split; [|reflexivity]. intros p [<- | []]. lia.
Qed.

End PlanSelection.

Section StackedView.

Import Gemini Three ThreeDView.

Variables landW landD : Q.

Lemma renderFloor_building :
  forall p elevation roomGroup,
    renderFloor (Some p) elevation landW landD true roomGroup
    = Some (roomGroup
            ++ map (Stacked.room_volume elevation landW landD) (non_void_rooms p)).
Proof.
  intros p elevation roomGroup. unfold renderFloor, non_void_rooms.
  rewrite <- flat_map_singleton. f_equal.
  apply forEach_adds with (skip := fun room => RoomType_eqb (type room) void).
  intros g room. rewrite andb_true_r.
  unfold Stacked.room_volume, Stacked.footprint_x, Stacked.footprint_z.
  destruct (type room); reflexivity.
Qed.

Lemma renderSlab_pieces :
  forall p elevation roomGroup,
    renderSlab elevation landW landD (Some p) roomGroup
    = Some (roomGroup ++ Stacked.slab p elevation landW landD).
Proof.
  intros p elevation roomGroup. unfold renderSlab, Stacked.slab, non_void_rooms.
  rewrite <- flat_map_singleton. f_equal.
  apply forEach_adds with (skip := fun room => RoomType_eqb (type room) void).
  intros g room. destruct (RoomType_eqb (type room) void); reflexivity.
Qed.

Lemma renderNeighbors_adds :
  forall i roomGroup,
    renderNeighbors i landW landD roomGroup
    = roomGroup ++ renderNeighbors i landW landD [].
Proof.
  intros i roomGroup. unfold renderNeighbors.
  destruct (negb (Qle_bool (neighborWestFloors i) 0));
    destruct (negb (Qle_bool (neighborEastFloors i) 0)); simpl;
    rewrite <- ?app_assoc, ?app_nil_r; reflexivity.
Qed.

Lemma floors_loop_levels :
  forall ground typical count (i : nat) roomGroup,
    floors_loop (Some ground) (Some typical) landW landD count
                (Z.of_nat i) roomGroup
    = Some (roomGroup
            ++ List.concat
                 (map (Stacked.floor_level ground typical landW landD)
                      (seq i count))).
Proof.
  intros ground typical. induction count as [|count IH]; intros i roomGroup.
  - simpl. rewrite app_nil_r. reflexivity.
  - cbn [floors_loop seq map List.concat].
    replace (Z.of_nat i + 1) with (Z.of_nat (S i)) by lia.
    unfold Stacked.floor_level at 1. fold (Stacked.elevation_of i).
    destruct i as [|i'].
    + change (Z.of_nat 0 =? 0) with true. change (0 <? Z.of_nat 0) with false.
      cbn [plan_at]. rewrite renderFloor_building, IH.
      rewrite app_nil_r, <- app_assoc. reflexivity.
    + assert (E1 : (Z.of_nat (S i') =? 0) = false) by (apply Z.eqb_neq; lia).
      assert (E2 : (0 <? Z.of_nat (S i')) = true) by (apply Z.ltb_lt; lia).
      rewrite E1, E2. cbn [plan_at].
      rewrite renderFloor_building, renderSlab_pieces, IH.
      rewrite <- !app_assoc. reflexivity.
Qed.

Lemma createBuildingScene_building :
  forall i res ground typical roomGroup,
    result i = Some res ->
    groundPlan_of (floorPlans res) = Some ground ->
    typicalPlan_of (floorPlans res) = Some typical ->
    0 <= totalFloors (buildingSummary res) ->
    createBuildingScene i landW landD roomGroup
    = Some (roomGroup
            ++ List.concat
                 (map (Stacked.floor_level ground typical landW landD)
                      (seq 0 (Z.to_nat (totalFloors (buildingSummary res)))))
            ++ Stacked.slab typical
                 (Stacked.elevation_of
                    (Z.to_nat (totalFloors (buildingSummary res))))
                 landW landD
            ++ renderNeighbors i landW landD []).
Proof.
  intros i res ground typical roomGroup Hres Hg Ht HN.
  unfold createBuildingScene. rewrite Hres. cbv zeta. rewrite Hg, Ht.
  rewrite (floors_loop_levels ground typical _ 0%nat).
  rewrite renderSlab_pieces, renderNeighbors_adds.
  unfold Stacked.elevation_of.
  rewrite Z2Nat.id by assumption.
  rewrite <- !app_assoc. reflexivity.
Qed.

End StackedView.

Section StackedViewNeon.

Import Gemini Three ThreeDViewNeon.

Variables landW landD : Q.

Lemma neon_renderFloor_building :
  forall p elevation roomGroup,
    renderFloor (Some p) elevation landW landD true roomGroup
    = Some (roomGroup
            ++ flat_map (StackedNeon.room_volume elevation landW landD)
                        (non_void_rooms p)).
Proof.
  intros p elevation roomGroup. unfold renderFloor, non_void_rooms.
  f_equal.
  apply forEach_adds with (skip := fun room => RoomType_eqb (type room) void).
  intros g room. rewrite andb_true_r.
  unfold StackedNeon.room_volume, Stacked.footprint_x, Stacked.footprint_z.
  destruct (type room); cbv beta iota zeta delta [RoomType_eqb negb];
    rewrite <- ?app_assoc; reflexivity.
Qed.

Lemma neon_slab_group :
  forall (rooms : list Room) group,
    fold_left
      (fun group room =>
         if RoomType_eqb (type room) void then group
         else group ++ [ StackedNeon.slab_piece landW landD room ])
      rooms group
    = group
      ++ map (StackedNeon.slab_piece landW landD)
             (filter (fun room => negb (RoomType_eqb (type room) void)) rooms).
Proof.
  intros rooms group. rewrite <- flat_map_singleton.
  apply forEach_adds with (skip := fun room => RoomType_eqb (type room) void).
  intros g room. reflexivity.
Qed.

Lemma neon_renderSlab_group :
  forall p elevation roomGroup,
    renderSlab elevation landW landD (Some p) roomGroup
    = Some (roomGroup ++ StackedNeon.slab p elevation landW landD).
Proof.
  intros p elevation roomGroup. unfold renderSlab, StackedNeon.slab, non_void_rooms.
  rewrite <- (app_nil_l (map _ _)), <- neon_slab_group. reflexivity.
Qed.

Lemma neon_renderNeighbors_adds :
  forall i roomGroup,
    renderNeighbors i landW landD roomGroup
    = roomGroup ++ renderNeighbors i landW landD [].
Proof.
  intros i roomGroup. unfold renderNeighbors.
  destruct (negb (Qle_bool (neighborWestFloors i) 0));
    destruct (negb (Qle_bool (neighborEastFloors i) 0)); simpl;
    rewrite <- ?app_assoc, ?app_nil_r; reflexivity.
Qed.

Lemma neon_floors_loop_levels :
  forall ground typical count (i : nat) roomGroup,
    floors_loop (Some ground) (Some typical) landW landD count
                (Z.of_nat i) roomGroup
    = Some (roomGroup
            ++ List.concat
                 (map (StackedNeon.floor_level ground typical landW landD)
                      (seq i count))).
Proof.
  intros ground typical. induction count as [|count IH]; intros i roomGroup.
  - simpl. rewrite app_nil_r. reflexivity.
  - cbn [floors_loop seq map List.concat].
    replace (Z.of_nat i + 1) with (Z.of_nat (S i)) by lia.
    unfold StackedNeon.floor_level at 1. fold (StackedNeon.elevation_of i).
    destruct i as [|i'].
    + change (Z.of_nat 0 =? 0) with true. change (0 <? Z.of_nat 0) with false.
      cbn [plan_at]. rewrite neon_renderFloor_building, IH.
      rewrite app_nil_r, <- app_assoc. reflexivity.
    + assert (E1 : (Z.of_nat (S i') =? 0) = false) by (apply Z.eqb_neq; lia).
      assert (E2 : (0 <? Z.of_nat (S i')) = true) by (apply Z.ltb_lt; lia).
      rewrite E1, E2. cbn [plan_at].
      rewrite neon_renderFloor_building, neon_renderSlab_group, IH.
      rewrite <- !app_assoc. reflexivity.
Qed.

Lemma neon_createBuildingScene_building :
  forall i res ground typical roomGroup,
    result i = Some res ->
    ThreeDView.groundPlan_of (floorPlans res) = Some ground ->
    ThreeDView.typicalPlan_of (floorPlans res) = Some typical ->
    0 <= totalFloors (buildingSummary res) ->
    createBuildingScene i landW landD roomGroup
    = Some (roomGroup
            ++ List.concat
                 (map (StackedNeon.floor_level ground typical landW landD)
                      (seq 0 (Z.to_nat (totalFloors (buildingSummary res)))))
            ++ StackedNeon.slab typical
                 (StackedNeon.elevation_of
                    (Z.to_nat (totalFloors (buildingSummary res))))
                 landW landD
            ++ renderNeighbors i landW landD []).
Proof.
  intros i res ground typical roomGroup Hres Hg Ht HN.
  unfold createBuildingScene. rewrite Hres. cbv zeta. rewrite Hg, Ht.
  rewrite (neon_floors_loop_levels ground typical _ 0%nat).
  rewrite neon_renderSlab_group, neon_renderNeighbors_adds.
  unfold StackedNeon.elevation_of.
  rewrite Z2Nat.id by assumption.
  rewrite <- !app_assoc. reflexivity.
Qed.

End StackedViewNeon.

(** C4.  In building view, for a result with [totalFloors = N >= 1] (and
    the non-empty [floorPlans] of a valid result), [createBuildingScene]
    adds exactly [N] stacked floor levels, then one roof slab, then the
    neighbours.  Level 0 shows the plan whose level is 0 (or the first
    plan), every level 1..N-1 shows the first plan whose level is above 0
    (or the first plan); above the ground floor each level carries a thin
    slab with one piece for each room of the rendered plan that is not a
    void; the roof slab lies at the top (both revisions of the
    component). *)
Theorem createBuildingScene_stacks_floors_and_one_roof :
  forall res (N : nat),
    Gemini.totalFloors (Gemini.buildingSummary res) = Z.of_nat N ->
    (1 <= N)%nat ->
    Gemini.floorPlans res <> [] ->
    exists ground typical,
      is_groundPlan (Gemini.floorPlans res) ground /\
      is_typicalPlan (Gemini.floorPlans res) typical /\
      (forall i landW landD roomGroup,
          ThreeDView.result i = Some res ->
          ThreeDView.createBuildingScene i landW landD roomGroup
          = Some (roomGroup
                  ++ List.concat
                       (map (Stacked.floor_level ground typical landW landD)
                            (seq 0 N))
                  ++ Stacked.slab typical (Stacked.elevation_of N) landW landD
                  ++ ThreeDView.renderNeighbors i landW landD []))
      /\
      (forall i landW landD roomGroup,
          ThreeDViewNeon.result i = Some res ->
          ThreeDViewNeon.createBuildingScene i landW landD roomGroup
          = Some (roomGroup
                  ++ List.concat
                       (map (StackedNeon.floor_level ground typical landW landD)
                            (seq 0 N))
                  ++ StackedNeon.slab typical (StackedNeon.elevation_of N)
                       landW landD
                  ++ ThreeDViewNeon.renderNeighbors i landW landD [])).
Proof.
  intros res N HN Hpos Hne.
  destruct (groundPlan_of_spec _ Hne) as (ground & Hg & Sg).
  destruct (typicalPlan_of_spec _ Hne) as (typical & Ht & St).
  exists ground, typical.
  split; [exact Sg|]. split; [exact St|]. split.
  - intros i landW landD roomGroup Hres.
    rewrite <- (Nat2Z.id N), <- HN.
    apply createBuildingScene_building; [assumption .. | lia].
  - intros i landW landD roomGroup Hres.
    rewrite <- (Nat2Z.id N), <- HN.
    apply neon_createBuildingScene_building; [assumption .. | lia].
Qed.

(** Without any floor plan there is no plan to render: reading [rooms]
    of [undefined] throws, in the loop or at the roof at the latest. *)
Remark createBuildingScene_without_plans_throws :
  forall i res landW landD roomGroup,
    ThreeDView.result i = Some res ->
    Gemini.floorPlans res = [] ->
    ThreeDView.createBuildingScene i landW landD roomGroup = None.
Proof.
  intros i res landW landD roomGroup Hres Hnil.
  unfold ThreeDView.createBuildingScene. rewrite Hres, Hnil. cbv zeta.
  change (ThreeDView.typicalPlan_of []) with (@None Gemini.FloorPlan).
  change (ThreeDView.groundPlan_of []) with (@None Gemini.FloorPlan).
  destruct (Z.to_nat (Gemini.totalFloors (Gemini.buildingSummary res)))
    as [|count]; simpl.
  - reflexivity.
  - destruct (0 =? 0); reflexivity.
Qed.

(** The sample response of three floors with two rooms each, for
    width=10, depth=20 and two-floor neighbours: the height and the centre
    height of every box.  Three levels of two room volumes (height 2.8)
    on bases 0, 3 and 6, slabs (thickness 0.2) topping at 3 and 6, one
    roof slab topping at 9, and the two neighbours. *)
Example three_floor_scene :
  option_map
    (map (fun o =>
            match o with
            | Three.Mesh (Three.BoxGeometry _ h _) _ p _ _ =>
                (Qred h, Qred (Three.vy p))
            | _ => (0%Q, 0%Q)
            end))
    (ThreeDView.createBuildingScene Sample.view 10 20 [])
  = Some [ (14 # 5, 7 # 5); (14 # 5, 7 # 5);
           (14 # 5, 22 # 5); (14 # 5, 22 # 5); (1 # 5, 29 # 10); (1 # 5, 29 # 10);
           (14 # 5, 37 # 5); (14 # 5, 37 # 5); (1 # 5, 59 # 10); (1 # 5, 59 # 10);
           (1 # 5, 89 # 10); (1 # 5, 89 # 10);
           (6, 3); (6, 3) ]%Q.
Proof. vm_compute. reflexivity. Qed.

(* ================================================================== *)
(** ** The properties at the sample inputs *)
(* ================================================================== *)

Lemma analyzeLand_returns_only_validated_results_witness :
  Gemini.analyzeLand (Sample.replies "{}") Sample.trim Sample.JSON_parse
    10 20 2 2 = inl Gemini.generic_error
  /\
  ((exists bs,
       Gemini.Get Sample.valid_reply "buildingSummary" = Some bs /\
       Gemini.ToBoolean bs = true) /\
   (exists fp len,
       Gemini.Get Sample.valid_reply "floorPlans" = Some fp /\
       Gemini.ToBoolean fp = true /\
       Gemini.Get fp "length" = Some len /\
       Gemini.strict_equals_zero len = false) /\
   (forall items,
       Gemini.Get Sample.valid_reply "floorPlans" = Some (Gemini.JsArray items) ->
       items <> [])).
Proof.
  split.
  - apply (proj1 (analyzeLand_returns_only_validated_results
                    (Sample.replies "{}") Sample.trim Sample.JSON_parse
                    10 20 2 2)
                 {| Gemini.text := Some "{}"%string |} "{}"%string
                 (Gemini.JsObject [])).
    + reflexivity.
    + reflexivity.
    + reflexivity.
    + left. intros p H. simpl in H. inversion H. reflexivity.
  - apply (proj2 (analyzeLand_returns_only_validated_results
                    (Sample.replies Sample.valid_reply_text)
                    Sample.trim Sample.JSON_parse 10 20 2 2)
                 Sample.valid_reply).
    vm_compute. reflexivity.
Defined.

(** C2, against the claim as stated: the error of a failed network call
    is the error of an unparsable reply and of a reply without the
    required fields. *)
Lemma analyzeLand_network_failure_not_distinguishable :
  Gemini.analyzeLand Sample.network_down Sample.trim Sample.JSON_parse 10 20 2 2
  = Gemini.analyzeLand (Sample.replies "not json") Sample.trim Sample.JSON_parse
      10 20 2 2
  /\
  Gemini.analyzeLand Sample.network_down Sample.trim Sample.JSON_parse 10 20 2 2
  = Gemini.analyzeLand (Sample.replies "{}") Sample.trim Sample.JSON_parse
      10 20 2 2
  /\
  ~ (Gemini.analyzeLand Sample.network_down Sample.trim Sample.JSON_parse
       10 20 2 2
     <> Gemini.analyzeLand (Sample.replies "not json") Sample.trim
          Sample.JSON_parse 10 20 2 2).
Proof.
  split; [reflexivity|]. split; [reflexivity|].
  intros H. apply H. reflexivity.
Qed.

Lemma analyzeLand_failures_share_one_error_witness :
  Gemini.analyzeLand Sample.network_down Sample.trim Sample.JSON_parse 10 20 2 2
  = inl Gemini.generic_error
  /\
  Gemini.analyzeLand (Sample.replies "not json") Sample.trim Sample.JSON_parse
    10 20 2 2 = inl Gemini.generic_error
  /\
  Gemini.analyzeLand (Sample.replies "{}") Sample.trim Sample.JSON_parse
    10 20 2 2 = inl Gemini.generic_error.
Proof.
  split; [|split].
  - apply (proj1 (analyzeLand_failures_share_one_error
                    Sample.network_down Sample.trim Sample.JSON_parse
                    10 20 2 2)).
    reflexivity.
  - apply (proj1 (proj2 (analyzeLand_failures_share_one_error
                           (Sample.replies "not json") Sample.trim
                           Sample.JSON_parse 10 20 2 2))
                 {| Gemini.text := Some "not json"%string |} "not json"%string);
      reflexivity.
  - apply (proj1 (proj2 (proj2 (analyzeLand_failures_share_one_error
                                  (Sample.replies "{}") Sample.trim
                                  Sample.JSON_parse 10 20 2 2)))
                 {| Gemini.text := Some "{}"%string |} "{}"%string
                 (Gemini.JsObject [])).
    + reflexivity.
    + reflexivity.
    + reflexivity.
    + left. intros p H. simpl in H. inversion H. reflexivity.
Defined.

(** At the sample operands [Js.double] gives what the Standard Library's
    specification of IEEE 754 binary64 gives for the product and for the
    difference. *)
Example double_agrees_with_binary64 :
  (Js.value (SFmul 53 1024 SampleMore.b0_111 SampleMore.b50)
   == Js.double (Js.value SampleMore.b0_111 * 50))%Q /\
  (Js.value (SFmul 53 1024 SampleMore.b0_127 SampleMore.b50)
   == Js.double (Js.value SampleMore.b0_127 * 50))%Q /\
  (Js.value (SFsub 53 1024 SampleMore.b0_127 SampleMore.b0_111)
   == Js.double (Js.value SampleMore.b0_127 - Js.value SampleMore.b0_111))%Q /\
  (Js.value (SFmul 53 1024 SampleMore.b0_127 SampleMore.b0_111)
   == Js.double (Js.value SampleMore.b0_127 * Js.value SampleMore.b0_111))%Q /\
  (Js.value SampleMore.b0_111 == SampleMore.d0_111)%Q /\
  (Js.value SampleMore.b0_127 == SampleMore.d0_127)%Q.
Proof. repeat split; vm_compute; reflexivity. Qed.

(** A drawing of 0.111 by 0.127 of the canvas gives 5.5 by 6.3 metres:
    the products are the doubles just below 5.55 and 6.35, where the
    exact products of the coordinates would be shown as 5.6 and 6.4. *)
Example analyzePlot_rounds_the_double_product :
  (App.landWidth
     (fst (App.analyzePlot rejecting_service
             (Sample.drawing_state SampleMore.sliver))) == 5.5)%Q /\
  (App.landDepth
     (fst (App.analyzePlot rejecting_service
             (Sample.drawing_state SampleMore.sliver))) == 6.3)%Q /\
  (Js.toFixed1 (extent (map App.px SampleMore.sliver) * 50) == 5.6)%Q /\
  (Js.toFixed1 (extent (map App.py SampleMore.sliver) * 50) == 6.4)%Q.
Proof. repeat split; vm_compute; reflexivity. Qed.

(** C1, against the claim as stated: a reply with [floorPlans: true]
    parses as JSON and passes the basic validation, so [analyzeLand]
    returns it; its [floorPlans] is not a list, empty or not. *)
Lemma analyzeLand_returns_a_reply_without_floorPlans_list :
  Gemini.analyzeLand (Sample.replies SampleMore.odd_reply_text) Sample.trim
    SampleMore.JSON_parse 10 20 2 2
  = inr (Gemini.JsObject SampleMore.odd_reply)
  /\
  Gemini.Get (Gemini.JsObject SampleMore.odd_reply) "floorPlans"
  = Some (Gemini.JsBool true)
  /\
  ~ (exists items,
        Gemini.Get (Gemini.JsObject SampleMore.odd_reply) "floorPlans"
        = Some (Gemini.JsArray items)).
Proof.
  split; [vm_compute; reflexivity|]. split; [reflexivity|].
  intros (items & H). discriminate H.
Qed.



Lemma createBuildingScene_stacks_floors_and_one_roof_witness :
  exists ground typical,
    is_groundPlan (Gemini.floorPlans Sample.three_floors) ground /\
    is_typicalPlan (Gemini.floorPlans Sample.three_floors) typical /\
    (forall i landW landD roomGroup,
        ThreeDView.result i = Some Sample.three_floors ->
        ThreeDView.createBuildingScene i landW landD roomGroup
        = Some (roomGroup
                ++ List.concat
                     (map (Stacked.floor_level ground typical landW landD)
                          (seq 0 3))
                ++ Stacked.slab typical (Stacked.elevation_of 3) landW landD
                ++ ThreeDView.renderNeighbors i landW landD []))
    /\
    (forall i landW landD roomGroup,
        ThreeDViewNeon.result i = Some Sample.three_floors ->
        ThreeDViewNeon.createBuildingScene i landW landD roomGroup
        = Some (roomGroup
                ++ List.concat
                     (map (StackedNeon.floor_level ground typical landW landD)
                          (seq 0 3))
                ++ StackedNeon.slab typical (StackedNeon.elevation_of 3)
                     landW landD
                ++ ThreeDViewNeon.renderNeighbors i landW landD [])).
Proof.
  apply (createBuildingScene_stacks_floors_and_one_roof Sample.three_floors 3).
  - reflexivity.
  - lia.
  - simpl. discriminate.
Defined.

Lemma analyzePlot_failed_call_discards_result_witness :
  (App.step
     (fst (App.analyzePlot rejecting_service
             (Sample.numeric_state 10 20 2 2 (Some Sample.three_floors))))
   = App.input /\
   App.errorMessage
     (fst (App.analyzePlot rejecting_service
             (Sample.numeric_state 10 20 2 2 (Some Sample.three_floors))))
   <> None /\
   App.analysisResult
     (fst (App.analyzePlot rejecting_service
             (Sample.numeric_state 10 20 2 2 (Some Sample.three_floors))))
   = None)
  /\
  (AppNumeric.step
     (fst (AppNumeric.analyzePlot rejecting_service
             (Sample.earlier_state 10 20 2 2 (Some Sample.three_floors) 0)))
   = AppNumeric.input /\
   AppNumeric.errorMessage
     (fst (AppNumeric.analyzePlot rejecting_service
             (Sample.earlier_state 10 20 2 2 (Some Sample.three_floors) 0)))
   <> None /\
   AppNumeric.analysisResult
     (fst (AppNumeric.analyzePlot rejecting_service
             (Sample.earlier_state 10 20 2 2 (Some Sample.three_floors) 0)))
   = None).
Proof.
  split.
  - apply (proj1 analyzePlot_failed_call_discards_result rejecting_service
                 (Sample.numeric_state 10 20 2 2 (Some Sample.three_floors))
                 _ 10%Q 20%Q 2%Q 2%Q Gemini.generic_error);
      vm_compute; reflexivity.
  - apply (proj2 analyzePlot_failed_call_discards_result rejecting_service
                 (Sample.earlier_state 10 20 2 2 (Some Sample.three_floors) 0)
                 _ 10%Q 20%Q 2%Q 2%Q Gemini.generic_error);
      vm_compute; reflexivity.
Defined.

Lemma analyzePlot_passes_neighbors_crosswise_witness :
  (Gemini.interpolated_after "- West Neighbor: " (Gemini.prompt 10 20 4 1)
   = Some (App.neighborEastFloors (Sample.numeric_state 10 20 4 1 None)) /\
   Gemini.interpolated_after "- East Neighbor: " (Gemini.prompt 10 20 4 1)
   = Some (App.neighborWestFloors (Sample.numeric_state 10 20 4 1 None)))
  /\
  (Gemini.interpolated_after "- West Neighbor: " (Gemini.prompt 10 20 4 1)
   = Some (AppNumeric.neighborEastFloors (Sample.earlier_state 10 20 4 1 None 0)) /\
   Gemini.interpolated_after "- East Neighbor: " (Gemini.prompt 10 20 4 1)
   = Some (AppNumeric.neighborWestFloors (Sample.earlier_state 10 20 4 1 None 0))).
Proof.
  split.
  - apply (proj1 analyzePlot_passes_neighbors_crosswise rejecting_service
                 (Sample.numeric_state 10 20 4 1 None) 10%Q 20%Q 4%Q 1%Q).
    vm_compute. left. reflexivity.
  - apply (proj2 analyzePlot_passes_neighbors_crosswise rejecting_service
                 (Sample.earlier_state 10 20 4 1 None 0) 10%Q 20%Q 4%Q 1%Q).
    vm_compute. left. reflexivity.
Defined.


Lemma analyzePlot_invalid_input_makes_no_request_witness :
  (exists msg,
      App.analyzePlot rejecting_service (Sample.numeric_state 0 20 2 2 None)
      = (App.set_errorMessage (Some msg) (Sample.numeric_state 0 20 2 2 None), []) /\
      App.errorMessage
        (fst (App.analyzePlot rejecting_service
                (Sample.numeric_state 0 20 2 2 None))) = Some msg /\
      App.step
        (fst (App.analyzePlot rejecting_service
                (Sample.numeric_state 0 20 2 2 None)))
      = App.step (Sample.numeric_state 0 20 2 2 None) /\
      (App.step (Sample.numeric_state 0 20 2 2 None) = App.input ->
       App.step
         (fst (App.analyzePlot rejecting_service
                 (Sample.numeric_state 0 20 2 2 None))) = App.input))
  /\
  (exists msg,
      App.analyzePlot rejecting_service
        (Sample.drawing_state (firstn 2 Sample.triangle))
      = (App.set_errorMessage (Some msg)
           (Sample.drawing_state (firstn 2 Sample.triangle)), []) /\
      App.errorMessage
        (fst (App.analyzePlot rejecting_service
                (Sample.drawing_state (firstn 2 Sample.triangle)))) = Some msg /\
      App.step
        (fst (App.analyzePlot rejecting_service
                (Sample.drawing_state (firstn 2 Sample.triangle))))
      = App.step (Sample.drawing_state (firstn 2 Sample.triangle)) /\
      (App.step (Sample.drawing_state (firstn 2 Sample.triangle)) = App.input ->
       App.step
         (fst (App.analyzePlot rejecting_service
                 (Sample.drawing_state (firstn 2 Sample.triangle)))) = App.input)).
Proof.
  split.
  - apply (analyzePlot_invalid_input_makes_no_request rejecting_service
             (Sample.numeric_state 0 20 2 2 None)).
    left. split; [reflexivity|]. left. vm_compute. discriminate.
  - apply (analyzePlot_invalid_input_makes_no_request rejecting_service
             (Sample.drawing_state (firstn 2 Sample.triangle))).
    right. split; [reflexivity|]. simpl. lia.
Defined.

Lemma undoPoint_resetDrawing_isDrawingValid_witness :
  App.polygonPoints
    (App.undoPoint (App.set_polygonPoints Sample.triangle App.initial))
  = firstn 2 Sample.triangle
  /\
  (App.isDrawingValid (Sample.drawing_state Sample.triangle) = true <->
   (3 <= List.length (App.polygonPoints (Sample.drawing_state Sample.triangle)))%nat)
  /\
  App.isDrawingValid (App.resetDrawing (Sample.drawing_state Sample.triangle))
  = false.
Proof.
  split; [|split].
  - exact (proj1 (undoPoint_resetDrawing_isDrawingValid App.initial)
                 (firstn 2 Sample.triangle)
                 {| App.px := 0; App.py := 3 # 4 |}).
  - exact (proj1 (proj2 (proj2 (proj2 (undoPoint_resetDrawing_isDrawingValid
                                         (Sample.drawing_state Sample.triangle)))))).
  - exact (proj2 (proj2 (proj2 (proj2 (undoPoint_resetDrawing_isDrawingValid
                                         (Sample.drawing_state Sample.triangle)))))).
Defined.

Lemma currentFloorPlan_selects_by_position_witness :
  App.currentFloorPlan (Sample.result_state Sample.gap_levels 1)
  = App.current_plan Sample.second_floor
  /\
  AppNumeric.currentFloorPlan
    (Sample.earlier_state 10 20 2 2 (Some Sample.gap_levels) 1)
  = App.current_plan Sample.second_floor.
Proof.
  split.
  - apply (proj1 currentFloorPlan_selects_by_position
                 (Sample.result_state Sample.gap_levels 1) Sample.gap_levels
                 1%nat Sample.second_floor); reflexivity.
  - apply (proj2 currentFloorPlan_selects_by_position
                 (Sample.earlier_state 10 20 2 2 (Some Sample.gap_levels) 1)
                 Sample.gap_levels 1%nat Sample.second_floor); reflexivity.
Defined.

(* ================================================================== *)
(** ** Further properties of the plan request client *)
(* ================================================================== *)

Section GeminiFurther.

Import Gemini.

Variable generateContent : Request -> option Response.
Variable trim : string -> string.
Variable JSON_parse : string -> option JsValue.

Lemma validate_accepts :
  forall v bs fp len,
    Get v "buildingSummary" = Some bs -> ToBoolean bs = true ->
    Get v "floorPlans" = Some fp -> ToBoolean fp = true ->
    Get fp "length" = Some len -> strict_equals_zero len = false ->
    validate v = inr v.
Proof.
  intros v bs fp len Hbs Tbs Hfp Tfp Hlen Z0. unfold validate.
  rewrite Hbs, Tbs. simpl. rewrite Hfp, Tfp. simpl. rewrite Hlen, Z0.
  reflexivity.
Qed.

(** X1.  [analyzeLand] fulfils with [r] exactly when the call resolved
    with a text whose trimmed parse is [r], and [r] has a truthy
    [buildingSummary] and a truthy [floorPlans] whose [length] is not 0;
    the parsed value is handed over as it is. *)
Theorem analyzeLand_fulfils_exactly_on_validated_reply :
  forall w d nw ne r,
    Gemini.analyzeLand generateContent trim JSON_parse w d nw ne = inr r
    <->
    exists response t bs fp len,
      generateContent (request (prompt w d nw ne)) = Some response /\
      text response = Some t /\
      JSON_parse (trim t) = Some r /\
      Get r "buildingSummary" = Some bs /\ ToBoolean bs = true /\
      Get r "floorPlans" = Some fp /\ ToBoolean fp = true /\
      Get fp "length" = Some len /\ strict_equals_zero len = false.
Proof.
  intros w d nw ne r. split.
  - intros Hr.
    destruct (analyzeLand_inr _ _ _ _ _ _ _ _ Hr)
      as (response & t & Hg & Ht & Hp & Hv).
    destruct (validate_inr _ _ Hv)
      as (_ & bs & fp & len & Hbs & Tbs & Hfp & Tfp & Hlen & Z0).
    exists response, t, bs, fp, len. repeat split; assumption.
  - intros (response & t & bs & fp & len
            & Hg & Ht & Hp & Hbs & Tbs & Hfp & Tfp & Hlen & Z0).
    unfold Gemini.analyzeLand, try_block. rewrite Hg, Ht, Hp.
    rewrite (validate_accepts r bs fp len) by assumption. reflexivity.
Qed.

(** X2.  Whatever [analyzeLand] returns is a JSON object with own
    properties [buildingSummary] and [floorPlans]: a reply that parses to
    [null], a number, a string, a boolean or an array is rejected. *)
Theorem analyzeLand_returns_objects_only :
  forall w d nw ne r,
    Gemini.analyzeLand generateContent trim JSON_parse w d nw ne = inr r ->
    exists props,
      r = JsObject props /\
      ToBoolean (own_property "buildingSummary" props) = true /\
      ToBoolean (own_property "floorPlans" props) = true.
Proof.
  intros w d nw ne r Hr.
  destruct (analyzeLand_inr _ _ _ _ _ _ _ _ Hr) as (response & t & _ & _ & _ & Hv).
  destruct (validate_inr _ _ Hv)
    as (_ & bs & fp & len & Hbs & Tbs & Hfp & Tfp & _ & _).
  destruct r as [| | b | q | s | items | props]; simpl in Hbs;
    try discriminate;
    try (inversion Hbs; subst bs; simpl in Tbs; discriminate).
  exists props. split; [reflexivity|].
  simpl in Hfp. inversion Hbs; subst bs. inversion Hfp; subst fp.
  split; assumption.
Qed.

(** X3.  The validation does not require [floorPlans] to be an array, and
    looks at no element of it: an object with a truthy [buildingSummary]
    passes when its [floorPlans] is [true], a number other than 0, a
    non-empty string, an object whose [length] is not 0, or an array with
    at least one element of any kind. *)
Theorem validate_is_shallow :
  forall props fp,
    ToBoolean (own_property "buildingSummary" props) = true ->
    own_property "floorPlans" props = fp ->
    fp = JsBool true \/
    (exists q, fp = JsNumber q /\ Qeq_bool q 0 = false) \/
    (exists c s, fp = JsString (String c s)) \/
    (exists ps, fp = JsObject ps /\
                strict_equals_zero (own_property "length" ps) = false) \/
    (exists item items, fp = JsArray (item :: items)) ->
    validate (JsObject props) = inr (JsObject props).
Proof.
  intros props fp Tbs Hfp Hshape.
  assert (Hget : Get (JsObject props) "floorPlans" = Some fp)
    by (simpl; rewrite Hfp; reflexivity).
  destruct Hshape as [-> | [(q & -> & Hq) | [(c & s & ->) | [(ps & -> & Hl)
                     | (item & items & ->)]]]].
  - eapply validate_accepts; try eassumption; reflexivity.
  - eapply validate_accepts; try eassumption; try reflexivity.
    simpl. rewrite Hq. reflexivity.
  - eapply validate_accepts; try eassumption; reflexivity.
  - eapply validate_accepts; try eassumption; try reflexivity.
  - eapply validate_accepts; try eassumption; reflexivity.
Qed.

End GeminiFurther.

(* ================================================================== *)
(** ** Further properties of the sketch surface *)
(* ================================================================== *)

Section Sketch.

Import Js Gemini App.

Lemma set_polygonPoints_same :
  forall s : AppState, set_polygonPoints (polygonPoints s) s = s.
Proof. intros s. destruct s. reflexivity. Qed.




(** X5.  Clicking inside a canvas whose rectangle has a positive width and
    height keeps the polygon normalized: if every point had coordinates
    between 0 and 1 before, so has every point afterwards. *)
Theorem click_inside_keeps_points_normalized :
  forall rect event s s',
    (0 < AppCanvas.rect_width rect)%Q ->
    (0 < AppCanvas.rect_height rect)%Q ->
    AppCanvas.inside rect event ->
    (forall p, In p (polygonPoints s) -> AppCanvas.normalized p) ->
    AppCanvas.onCanvasClick (Some rect) event s = Some s' ->
    forall p, In p (polygonPoints s') -> AppCanvas.normalized p.
Proof.
  intros rect event s s' Hw Hh [[Hx1 Hx2] [Hy1 Hy2]] Hold Hclick p Hp.
  unfold AppCanvas.onCanvasClick in Hclick.
  assert (Hnew : AppCanvas.normalized (AppCanvas.normalized_point rect event)).
  { unfold AppCanvas.normalized, AppCanvas.normalized_point. simpl.
    repeat split.
    - apply Qle_shift_div_l; [assumption | lra].
    - apply Qle_shift_div_r; [assumption | lra].
    - apply Qle_shift_div_l; [assumption | lra].
    - apply Qle_shift_div_r; [assumption | lra]. }
  destruct (step s); destruct (inputType s);
    try (inversion Hclick; subst s'; apply Hold; assumption).
  destruct (Qeq_bool (AppCanvas.rect_width rect) 0
            || Qeq_bool (AppCanvas.rect_height rect) 0); [discriminate|].
  inversion Hclick; subst s'.
  change (In p (polygonPoints s ++ [ AppCanvas.normalized_point rect event ])) in Hp.
  apply in_app_or in Hp. destruct Hp as [Hp | [<- | []]];
    [apply Hold; assumption | exact Hnew].
Qed.



End Sketch.

(* ================================================================== *)
(** ** Further properties of the application state controller *)
(* ================================================================== *)

Section Controller.

Import Js Gemini.

Variable svc : Q -> Q -> Q -> Q -> Error + AnalysisResult.

Lemma app_request_calls :
  forall fw fd s,
    snd (App.analyzePlot_request svc fw fd s)
    = [ (fw, fd, App.neighborEastFloors s, App.neighborWestFloors s) ].
Proof. intros. reflexivity. Qed.

Lemma app_request_outcome :
  forall fw fd s,
    let s' := fst (App.analyzePlot_request svc fw fd s) in
    App.landWidth s' = fw /\ App.landDepth s' = fd /\
    App.loadingInterval s' = false /\
    App.inputType s' = App.inputType s /\
    App.polygonPoints s' = App.polygonPoints s /\
    match svc fw fd (App.neighborEastFloors s) (App.neighborWestFloors s) with
    | inr res =>
        App.step s' = App.result /\ App.analysisResult s' = Some res /\
        App.errorMessage s' = None /\ App.selectedFloor s' = 0 /\
        App.viewMode s' = App.building_3d
    | inl _ =>
        App.step s' = App.input /\ App.analysisResult s' = None /\
        App.errorMessage s' <> None /\
        App.selectedFloor s' = App.selectedFloor s /\
        App.viewMode s' = App.viewMode s
    end.
Proof.
  intros fw fd s. unfold App.analyzePlot_request. cbv zeta.
  change (App.neighborEastFloors
            (App.startLoadingMessages
               (App.set_errorMessage None
                  (App.set_analysisResult None
                     (App.set_step App.loading
                        (App.set_landDepth fd (App.set_landWidth fw s)))))))
    with (App.neighborEastFloors s).
  change (App.neighborWestFloors
            (App.startLoadingMessages
               (App.set_errorMessage None
                  (App.set_analysisResult None
                     (App.set_step App.loading
                        (App.set_landDepth fd (App.set_landWidth fw s)))))))
    with (App.neighborWestFloors s).
  destruct (svc fw fd (App.neighborEastFloors s) (App.neighborWestFloors s));
    simpl; repeat split; discriminate.
Qed.

(** X7.  [startOver] returns to the input step with no result and no
    error, so that no floor plan is shown; it keeps the kind of input, the
    drawn polygon, the dimensions and the neighbours, and with them the
    request the next [analyzePlot] makes. *)
Theorem startOver_keeps_the_input :
  forall s,
    App.step (App.startOver s) = App.input /\
    App.analysisResult (App.startOver s) = None /\
    App.errorMessage (App.startOver s) = None /\
    App.currentFloorPlan (App.startOver s) = App.current_null /\
    App.inputType (App.startOver s) = App.inputType s /\
    App.polygonPoints (App.startOver s) = App.polygonPoints s /\
    App.landWidth (App.startOver s) = App.landWidth s /\
    App.landDepth (App.startOver s) = App.landDepth s /\
    App.neighborEastFloors (App.startOver s) = App.neighborEastFloors s /\
    App.neighborWestFloors (App.startOver s) = App.neighborWestFloors s /\
    snd (App.analyzePlot svc (App.startOver s)) = snd (App.analyzePlot svc s).
Proof.
  intros s. repeat split.
  unfold App.analyzePlot.
  change (App.inputType (App.startOver s)) with (App.inputType s).
  change (App.isDrawingValid (App.startOver s)) with (App.isDrawingValid s).
  change (App.landWidth (App.startOver s)) with (App.landWidth s).
  change (App.landDepth (App.startOver s)) with (App.landDepth s).
  change (App.polygonPoints (App.startOver s)) with (App.polygonPoints s).
  destruct (App.inputType s).
  - destruct (Qle_bool (App.landWidth s) 0 || Qle_bool (App.landDepth s) 0);
      reflexivity.
  - destruct (negb (App.isDrawingValid s)); reflexivity.
Qed.

(** X8.  In the earlier revision [startOver] also puts the inputs back to
    their defaults (10 by 20 metres, two floors on either side, 2D view);
    doing it twice changes nothing more, and the next [analyzePlot]
    therefore always reaches the model, with exactly these values. *)
Theorem startOver_restores_the_defaults :
  forall s,
    AppNumeric.step (AppNumericRestart.startOver s) = AppNumeric.input /\
    AppNumeric.analysisResult (AppNumericRestart.startOver s) = None /\
    AppNumeric.errorMessage (AppNumericRestart.startOver s) = None /\
    AppNumeric.currentFloorPlan (AppNumericRestart.startOver s)
    = App.current_null /\
    AppNumeric.viewMode (AppNumericRestart.startOver s) = AppNumeric.view_2d /\
    AppNumericRestart.startOver (AppNumericRestart.startOver s)
    = AppNumericRestart.startOver s /\
    snd (AppNumeric.analyzePlot svc (AppNumericRestart.startOver s))
    = [ (10, 20, 2, 2)%Q ].
Proof. intros s. repeat split. Qed.

(** X9.  When the model call fulfils, [analyzePlot] ends in the result
    step holding exactly the value received, with no error, the timer
    cleared and floor 0 selected: the plan shown is the first plan of the
    result, whatever floor was selected before (both revisions; the
    current one also switches to the building view). *)
Theorem analyzePlot_success_shows_first_plan :
  (forall s s' w d a b res,
      App.analyzePlot svc s = (s', [ (w, d, a, b) ]) ->
      svc w d a b = inr res ->
      App.step s' = App.result /\
      App.analysisResult s' = Some res /\
      App.errorMessage s' = None /\
      App.selectedFloor s' = 0 /\
      App.viewMode s' = App.building_3d /\
      App.loadingInterval s' = false /\
      App.currentFloorPlan s'
      = match floorPlans res with
        | p :: _ => App.current_plan p
        | [] => App.current_undefined
        end)
  /\
  (forall s s' w d a b res,
      AppNumeric.analyzePlot svc s = (s', [ (w, d, a, b) ]) ->
      svc w d a b = inr res ->
      AppNumeric.step s' = AppNumeric.result /\
      AppNumeric.analysisResult s' = Some res /\
      AppNumeric.errorMessage s' = None /\
      AppNumeric.selectedFloor s' = 0 /\
      AppNumeric.viewMode s' = AppNumeric.viewMode s /\
      AppNumeric.loadingInterval s' = false /\
      AppNumeric.currentFloorPlan s'
      = match floorPlans res with
        | p :: _ => App.current_plan p
        | [] => App.current_undefined
        end).
Proof.
  split; intros s s' w d a b res Hrun Hres.
  - destruct (app_analyzePlot_calls svc s) as [Hnil | (fw & fd & Hreq)].
    + rewrite Hrun in Hnil. discriminate.
    + rewrite Hreq in Hrun.
      pose proof (app_request_calls fw fd s) as Hc.
      pose proof (app_request_outcome fw fd s) as Ho.
      rewrite Hrun in Hc, Ho. simpl in Hc, Ho. inversion Hc; subst.
      rewrite Hres in Ho.
      destruct Ho as (_ & _ & Ht & _ & _ & Hs & Ha & He & Hf & Hv).
      repeat split; try assumption.
      unfold App.currentFloorPlan. rewrite Ha, Hf.
      destruct (floorPlans res); reflexivity.
  - unfold AppNumeric.analyzePlot in Hrun.
    destruct (Qle_bool (AppNumeric.landWidth s) 0
              || Qle_bool (AppNumeric.landDepth s) 0); [discriminate|].
    simpl in Hrun. inversion Hrun; subst. rewrite Hres. simpl.
    repeat split. unfold AppNumeric.currentFloorPlan. simpl.
    destruct (floorPlans res); reflexivity.
Qed.

(** X10.  On valid input (numeric mode with positive width and depth,
    drawing mode with at least three points) [analyzePlot] makes exactly
    one request; it never makes more than one. *)
Theorem analyzePlot_valid_input_makes_one_request :
  forall s,
    (List.length (snd (App.analyzePlot svc s)) <= 1)%nat /\
    ((App.inputType s = App.numeric /\
      (0 < App.landWidth s)%Q /\ (0 < App.landDepth s)%Q) \/
     (App.inputType s = App.draw /\
      (3 <= List.length (App.polygonPoints s))%nat) ->
     exists w d,
       snd (App.analyzePlot svc s)
       = [ (w, d, App.neighborEastFloors s, App.neighborWestFloors s) ] /\
       (App.inputType s = App.numeric ->
        w = App.landWidth s /\ d = App.landDepth s)).
Proof.
  intros s. split.
  - destruct (app_analyzePlot_calls svc s) as [Hnil | (fw & fd & Hreq)].
    + rewrite Hnil. simpl. lia.
    + rewrite Hreq, app_request_calls. simpl. lia.
  - intros [(Hm & Hw & Hd) | (Hm & Hpts)]; unfold App.analyzePlot; rewrite Hm.
    + assert (Bw : Qle_bool (App.landWidth s) 0 = false).
      { destruct (Qle_bool (App.landWidth s) 0) eqn:E; [|reflexivity].
        apply Qle_bool_iff in E. lra. }
      assert (Bd : Qle_bool (App.landDepth s) 0 = false).
      { destruct (Qle_bool (App.landDepth s) 0) eqn:E; [|reflexivity].
        apply Qle_bool_iff in E. lra. }
      rewrite Bw, Bd. simpl orb. cbv iota.
      exists (App.landWidth s), (App.landDepth s).
      rewrite app_request_calls. split; [reflexivity | intros _; split; reflexivity].
    + assert (V : App.isDrawingValid s = true).
      { unfold App.isDrawingValid. apply Nat.leb_le. exact Hpts. }
      rewrite V. simpl negb. cbv iota zeta.
      eexists _, _. rewrite app_request_calls.
      split; [reflexivity | intros Hn; discriminate].
Qed.

(** X11.  Whenever [analyzePlot] has made a request, it ends with the
    dimensions it sent stored in [landWidth] and [landDepth], the timer
    cleared, and in one of two states: the result step with a result and
    no error, or the input step with an error and no result.  It never
    ends in the loading step. *)
Theorem analyzePlot_request_outcome :
  forall s s' w d a b,
    App.analyzePlot svc s = (s', [ (w, d, a, b) ]) ->
    App.landWidth s' = w /\ App.landDepth s' = d /\
    App.loadingInterval s' = false /\
    App.step s' <> App.loading /\
    ((App.step s' = App.result /\ App.analysisResult s' <> None /\
      App.errorMessage s' = None)
     \/
     (App.step s' = App.input /\ App.analysisResult s' = None /\
      App.errorMessage s' <> None)).
Proof.
  intros s s' w d a b Hrun.
  destruct (app_analyzePlot_calls svc s) as [Hnil | (fw & fd & Hreq)].
  - rewrite Hrun in Hnil. discriminate.
  - rewrite Hreq in Hrun.
    pose proof (app_request_calls fw fd s) as Hc.
    pose proof (app_request_outcome fw fd s) as Ho.
    rewrite Hrun in Hc, Ho. simpl in Hc, Ho. inversion Hc; subst.
    destruct Ho as (Hw & Hd & Ht & _ & _ & Ho).
    split; [assumption|]. split; [assumption|]. split; [assumption|].
    match type of Ho with
    | match ?call with _ => _ end => destruct call
    end.
    + destruct Ho as (Hs & Ha & He & _). split; [rewrite Hs; discriminate|].
      right. auto.
    + destruct Ho as (Hs & Ha & He & _). split; [rewrite Hs; discriminate|].
      left. rewrite Ha. repeat split; [assumption | discriminate | assumption].
Qed.

End Controller.

(* ================================================================== *)
(** ** Further properties of the drawn plot *)
(* ================================================================== *)

Section DrawnPlot.

Import Js.
Local Open Scope Q_scope.

Lemma fold_min_below :
  forall l a, fold_left Qmin l a <= a /\
              forall c, In c l -> fold_left Qmin l a <= c.
Proof.
  induction l as [|b l IH]; intros a; simpl.
  - split; [apply Qle_refl | intros c []].
  - destruct (IH (Qmin a b)) as [Ha Hin]. split.
    + eapply Qle_trans; [exact Ha | apply Q.le_min_l].
    + intros c [<- | Hc].
      * eapply Qle_trans; [exact Ha | apply Q.le_min_r].
      * apply Hin. exact Hc.
Qed.

Lemma fold_max_above :
  forall l a, a <= fold_left Qmax l a /\
              forall c, In c l -> c <= fold_left Qmax l a.
Proof.
  induction l as [|b l IH]; intros a; simpl.
  - split; [apply Qle_refl | intros c []].
  - destruct (IH (Qmax a b)) as [Ha Hin]. split.
    + eapply Qle_trans; [apply Q.le_max_l | exact Ha].
    + intros c [<- | Hc].
      * eapply Qle_trans; [apply Q.le_max_r | exact Ha].
      * apply Hin. exact Hc.
Qed.

Lemma Math_min_below :
  forall l c, In c l -> Math_min l <= c.
Proof.
  intros [|a l] c Hc; [contradiction|]. simpl.
  destruct (fold_min_below l a) as [Ha Hin].
  destruct Hc as [<- | Hc]; [exact Ha | apply Hin; exact Hc].
Qed.

Lemma Math_max_above :
  forall l c, In c l -> c <= Math_max l.
Proof.
  intros [|a l] c Hc; [contradiction|]. simpl.
  destruct (fold_max_above l a) as [Ha Hin].
  destruct Hc as [<- | Hc]; [exact Ha | apply Hin; exact Hc].
Qed.

Lemma fold_min_bound :
  forall lo l a, lo <= a -> (forall c, In c l -> lo <= c) ->
                 lo <= fold_left Qmin l a.
Proof.
  intros lo. induction l as [|b l IH]; intros a Ha Hl; simpl.
  - exact Ha.
  - apply IH.
    + apply Q.min_glb; [exact Ha | apply Hl; left; reflexivity].
    + intros c Hc. apply Hl. right. exact Hc.
Qed.

Lemma fold_max_bound :
  forall hi l a, a <= hi -> (forall c, In c l -> c <= hi) ->
                 fold_left Qmax l a <= hi.
Proof.
  intros hi. induction l as [|b l IH]; intros a Ha Hl; simpl.
  - exact Ha.
  - apply IH.
    + apply Q.max_lub; [exact Ha | apply Hl; left; reflexivity].
    + intros c Hc. apply Hl. right. exact Hc.
Qed.

Lemma extent_nonneg :
  forall l, l <> [] -> 0 <= extent l.
Proof.
  intros [|a l] H; [contradiction|]. unfold extent.
  assert (Math_min (a :: l) <= a) by (apply Math_min_below; left; reflexivity).
  assert (a <= Math_max (a :: l)) by (apply Math_max_above; left; reflexivity).
  lra.
Qed.

Lemma extent_of_unit_interval :
  forall l, l <> [] -> (forall c, In c l -> 0 <= c <= 1) -> extent l <= 1.
Proof.
  intros [|a l] H Hl; [contradiction|]. unfold extent. simpl.
  assert (0 <= fold_left Qmin l a).
  { apply fold_min_bound; [apply Hl; left; reflexivity|].
    intros c Hc. apply Hl. right. exact Hc. }
  assert (fold_left Qmax l a <= 1).
  { apply fold_max_bound; [apply Hl; left; reflexivity|].
    intros c Hc. apply Hl. right. exact Hc. }
  lra.
Qed.

Lemma toFixed1_nonneg_eq :
  forall v, 0 <= v ->
    toFixed1 v = inject_Z (Qfloor (v * 10 + (1 # 2))) / 10.
Proof.
  intros v Hv. unfold toFixed1.
  apply Qle_bool_iff in Hv. rewrite Hv. reflexivity.
Qed.

Lemma toFixed1_monotone :
  forall a b, 0 <= a -> a <= b -> toFixed1 a <= toFixed1 b.
Proof.
  intros a b Ha Hab.
  rewrite !toFixed1_nonneg_eq by lra.
  apply Qle_shift_div_l; [reflexivity|].
  unfold Qdiv. rewrite <- Qmult_assoc.
  setoid_replace (/ 10 * 10) with 1 by reflexivity. rewrite Qmult_1_r.
  rewrite <- Zle_Qle. apply Qfloor_resp_le. lra.
Qed.


Lemma toFixed1_50 : toFixed1 50 == 50.
Proof. reflexivity. Qed.

Lemma toFixed1_5 : toFixed1 5 == 5.
Proof. reflexivity. Qed.

(** The length in metres that double-precision arithmetic gives for an
    extent [e] of the bounding box: [double (double e * 50)]. *)
Lemma metres_nonneg :
  forall e, 0 <= e -> 0 <= double (double e * 50).
Proof.
  intros e He. apply double_nonneg.
  pose proof (double_nonneg e He). lra.
Qed.

Lemma metres_monotone :
  forall e e', 0 <= e -> e <= e' ->
    double (double e * 50) <= double (double e' * 50).
Proof.
  intros e e' He Hee.
  pose proof (double_nonneg e He).
  pose proof (double_monotone e e' He Hee).
  apply double_monotone; lra.
Qed.

Lemma metres_at_most_50 :
  forall e, 0 <= e -> e <= 1 -> double (double e * 50) <= 50.
Proof.
  intros e He H1.
  pose proof (double_nonneg e He) as D0.
  pose proof (double_monotone e 1 He H1) as D1. rewrite double_1 in D1.
  apply Qle_trans with (double 50);
    [apply double_monotone; lra | apply Qle_lteq; right; apply double_50].
Qed.


End DrawnPlot.

Lemma analyzePlot_dimensions_of_drawing :
  forall svc s,
    App.inputType s = App.draw ->
    (3 <= List.length (App.polygonPoints s))%nat ->
    App.landWidth (fst (App.analyzePlot svc s))
    = Qmax 5 (Js.toFixed1
                (Js.double
                   (Js.double (extent (map App.px (App.polygonPoints s))) * 50)%Q)) /\
    App.landDepth (fst (App.analyzePlot svc s))
    = Qmax 5 (Js.toFixed1
                (Js.double
                   (Js.double (extent (map App.py (App.polygonPoints s))) * 50)%Q)).
Proof.
  intros svc s Hm Hlen.
  pose proof (analyzePlot_drawn_dimensions svc s (App.polygonPoints s) Hm Hlen)
    as H.
  cbv zeta in H. rewrite set_polygonPoints_same in H. exact H.
Qed.

Lemma coords_nonempty :
  forall (f : App.Point -> Q) pts,
    (3 <= List.length pts)%nat -> map f pts <> [].
Proof. intros f [|p pts] H; simpl in *; [lia | discriminate]. Qed.

(** X12.  The width and depth derived from a drawn polygon are never
    below 5 metres, and for a polygon whose points are normalized (on the
    canvas) never above 50 metres. *)
Theorem drawn_dimensions_are_between_5_and_50 :
  forall svc s,
    App.inputType s = App.draw ->
    (3 <= List.length (App.polygonPoints s))%nat ->
    (5 <= App.landWidth (fst (App.analyzePlot svc s)))%Q /\
    (5 <= App.landDepth (fst (App.analyzePlot svc s)))%Q /\
    ((forall p, In p (App.polygonPoints s) -> AppCanvas.normalized p) ->
     (App.landWidth (fst (App.analyzePlot svc s)) <= 50)%Q /\
     (App.landDepth (fst (App.analyzePlot svc s)) <= 50)%Q).
Proof.
  intros svc s Hm Hlen.
  destruct (analyzePlot_dimensions_of_drawing svc s Hm Hlen) as [W D].
  rewrite W, D.
  split; [apply Q.le_max_l|]. split; [apply Q.le_max_l|].
  intros Hn.
  assert (Hx : (extent (map App.px (App.polygonPoints s)) <= 1)%Q).
  { apply extent_of_unit_interval; [apply coords_nonempty; assumption|].
    intros c Hc. apply in_map_iff in Hc. destruct Hc as (p & <- & Hp).
    apply (Hn p Hp). }
  assert (Hy : (extent (map App.py (App.polygonPoints s)) <= 1)%Q).
  { apply extent_of_unit_interval; [apply coords_nonempty; assumption|].
    intros c Hc. apply in_map_iff in Hc. destruct Hc as (p & <- & Hp).
    apply (Hn p Hp). }
  pose proof (extent_nonneg (map App.px (App.polygonPoints s))
                (coords_nonempty App.px _ Hlen)) as Hx0.
  pose proof (extent_nonneg (map App.py (App.polygonPoints s))
                (coords_nonempty App.py _ Hlen)) as Hy0.
  split; apply Q.max_lub; try lra.
  - apply Qle_trans with (Js.toFixed1 50);
      [apply toFixed1_monotone;
         [apply metres_nonneg | apply metres_at_most_50]; assumption
      | apply Qle_lteq; right; apply toFixed1_50].
  - apply Qle_trans with (Js.toFixed1 50);
      [apply toFixed1_monotone;
         [apply metres_nonneg | apply metres_at_most_50]; assumption
      | apply Qle_lteq; right; apply toFixed1_50].
Qed.

(** X13.  The conversion is monotone: a polygon with the wider bounding
    box never gets the smaller width (and likewise for the depth); in
    particular scaling all points by a factor of at least 1 never
    decreases the derived width or depth. *)
Theorem drawn_dimensions_are_monotone :
  forall svc s pts pts',
    App.inputType s = App.draw ->
    (3 <= List.length pts)%nat ->
    (3 <= List.length pts')%nat ->
    ((extent (map App.px pts) <= extent (map App.px pts'))%Q ->
     (App.landWidth (fst (App.analyzePlot svc (App.set_polygonPoints pts s)))
      <= App.landWidth (fst (App.analyzePlot svc (App.set_polygonPoints pts' s))))%Q)
    /\
    ((extent (map App.py pts) <= extent (map App.py pts'))%Q ->
     (App.landDepth (fst (App.analyzePlot svc (App.set_polygonPoints pts s)))
      <= App.landDepth (fst (App.analyzePlot svc (App.set_polygonPoints pts' s))))%Q)
    /\
    (forall k, (1 <= k)%Q -> pts' = scale k pts ->
       (App.landWidth (fst (App.analyzePlot svc (App.set_polygonPoints pts s)))
        <= App.landWidth (fst (App.analyzePlot svc (App.set_polygonPoints pts' s))))%Q
       /\
       (App.landDepth (fst (App.analyzePlot svc (App.set_polygonPoints pts s)))
        <= App.landDepth (fst (App.analyzePlot svc (App.set_polygonPoints pts' s))))%Q).
Proof.
  intros svc s pts pts' Hm Hlen Hlen'.
  destruct (analyzePlot_drawn_dimensions svc s pts Hm Hlen) as [W D].
  destruct (analyzePlot_drawn_dimensions svc s pts' Hm Hlen') as [W' D'].
  cbv zeta in W, D, W', D'. rewrite W, D, W', D'.
  unfold App.MAX_GRID_SIZE_METERS.
  pose proof (extent_nonneg (map App.px pts) (coords_nonempty App.px _ Hlen)) as Hx0.
  pose proof (extent_nonneg (map App.py pts) (coords_nonempty App.py _ Hlen)) as Hy0.
  assert (Mx : (extent (map App.px pts) <= extent (map App.px pts'))%Q ->
               (Qmax 5 (Js.toFixed1
                          (Js.double (Js.double (extent (map App.px pts)) * 50)))
                <= Qmax 5 (Js.toFixed1
                             (Js.double
                                (Js.double (extent (map App.px pts')) * 50))))%Q).
  { intros H. apply Q.max_le_compat_l. apply toFixed1_monotone;
      [apply metres_nonneg | apply metres_monotone]; assumption. }
  assert (My : (extent (map App.py pts) <= extent (map App.py pts'))%Q ->
               (Qmax 5 (Js.toFixed1
                          (Js.double (Js.double (extent (map App.py pts)) * 50)))
                <= Qmax 5 (Js.toFixed1
                             (Js.double
                                (Js.double (extent (map App.py pts')) * 50))))%Q).
  { intros H. apply Q.max_le_compat_l. apply toFixed1_monotone;
      [apply metres_nonneg | apply metres_monotone]; assumption. }
  split; [exact Mx|]. split; [exact My|].
  intros k Hk ->. split.
  - apply Mx. rewrite scale_px, extent_scaled;
      [nra | lra | apply coords_nonempty; assumption].
  - apply My. rewrite scale_py, extent_scaled;
      [nra | lra | apply coords_nonempty; assumption].
Qed.


(* ================================================================== *)
(** ** Further properties: what is painted, and the loading messages *)
(* ================================================================== *)

Section Painting.

Import Js Gemini App AppCanvas.

Lemma count_ops_app :
  forall f a b, count_ops f (a ++ b) = (count_ops f a + count_ops f b)%nat.
Proof. intros. unfold count_ops. rewrite filter_app, length_app. reflexivity. Qed.

(** The grid consists of paths that are stroked: one [stroke] for each
    line, and nothing that [f] selects when [f] selects none of the four
    calls a line is made of. *)
Lemma grid_columns_other :
  forall f, f beginPath = false -> f stroke = false ->
    (forall x y, f (moveTo x y) = false) ->
    (forall x y, f (lineTo x y) = false) ->
    forall fuel x w h, count_ops f (grid_columns fuel x w h) = 0%nat.
Proof.
  intros f Hb Hs Hm Hl. induction fuel as [|fuel IH]; intros x w h; simpl.
  - reflexivity.
  - destruct (x <=? w); [|reflexivity].
    unfold count_ops in *. simpl. rewrite Hb, Hm, Hl, Hs. apply IH.
Qed.

Lemma grid_rows_other :
  forall f, f beginPath = false -> f stroke = false ->
    (forall x y, f (moveTo x y) = false) ->
    (forall x y, f (lineTo x y) = false) ->
    forall fuel y w h, count_ops f (grid_rows fuel y w h) = 0%nat.
Proof.
  intros f Hb Hs Hm Hl. induction fuel as [|fuel IH]; intros y w h; simpl.
  - reflexivity.
  - destruct (y <=? h); [|reflexivity].
    unfold count_ops in *. simpl. rewrite Hb, Hm, Hl, Hs. apply IH.
Qed.

Lemma lines_from :
  forall x w, x <= w -> x + 40 <= w -> (w - (x + 40)) / 40 + 1 = (w - x) / 40.
Proof.
  intros x w H1 H2.
  replace (w - x) with ((w - (x + 40)) + 1 * 40) by lia.
  rewrite Z.div_add by lia. reflexivity.
Qed.

Lemma grid_columns_strokes :
  forall fuel x w h,
    (x <= w -> (Z.to_nat ((w - x) / 40) + 1 <= fuel)%nat) ->
    count_ops is_stroke (grid_columns fuel x w h)
    = Z.to_nat (if x <=? w then (w - x) / 40 + 1 else 0).
Proof.
  induction fuel as [|fuel IH]; intros x w h Hfuel; cbn [grid_columns].
  - destruct (x <=? w) eqn:E; [|reflexivity].
    apply Z.leb_le in E. specialize (Hfuel E). lia.
  - destruct (x <=? w) eqn:E; [|reflexivity].
    apply Z.leb_le in E. specialize (Hfuel E).
    unfold gridSize. rewrite count_ops_app.
    assert (Hq : 0 <= (w - x) / 40) by (apply Z.div_pos; lia).
    rewrite IH.
    + change (count_ops is_stroke _) with 1%nat.
      destruct (x + 40 <=? w) eqn:E'.
      * apply Z.leb_le in E'. rewrite lines_from by assumption. lia.
      * apply Z.leb_gt in E'. rewrite (Z.div_small (w - x) 40) by lia.
        reflexivity.
    + intros E'. rewrite <- (lines_from x w E E') in Hfuel.
      assert (0 <= (w - (x + 40)) / 40) by (apply Z.div_pos; lia). lia.
Qed.

Lemma grid_rows_strokes :
  forall fuel y w h,
    (y <= h -> (Z.to_nat ((h - y) / 40) + 1 <= fuel)%nat) ->
    count_ops is_stroke (grid_rows fuel y w h)
    = Z.to_nat (if y <=? h then (h - y) / 40 + 1 else 0).
Proof.
  induction fuel as [|fuel IH]; intros y w h Hfuel; cbn [grid_rows].
  - destruct (y <=? h) eqn:E; [|reflexivity].
    apply Z.leb_le in E. specialize (Hfuel E). lia.
  - destruct (y <=? h) eqn:E; [|reflexivity].
    apply Z.leb_le in E. specialize (Hfuel E).
    unfold gridSize. rewrite count_ops_app.
    assert (Hq : 0 <= (h - y) / 40) by (apply Z.div_pos; lia).
    rewrite IH.
    + change (count_ops is_stroke _) with 1%nat.
      destruct (y + 40 <=? h) eqn:E'.
      * apply Z.leb_le in E'. rewrite lines_from by assumption. lia.
      * apply Z.leb_gt in E'. rewrite (Z.div_small (h - y) 40) by lia.
        reflexivity.
    + intros E'. rewrite <- (lines_from y h E E') in Hfuel.
      assert (0 <= (h - (y + 40)) / 40) by (apply Z.div_pos; lia). lia.
Qed.

Lemma enough_fuel :
  forall w, 0 <= w -> (Z.to_nat ((w - 0) / 40) + 1 <= Z.to_nat w + 1)%nat.
Proof.
  intros w Hw. rewrite Z.sub_0_r.
  assert (w / 40 <= w) by (apply Z.div_le_upper_bound; lia).
  assert (0 <= w / 40) by (apply Z.div_pos; lia). lia.
Qed.

Lemma count_map_other :
  forall f (g : Point -> CanvasOp) pts,
    (forall p, f (g p) = false) -> count_ops f (map g pts) = 0%nat.
Proof.
  intros f g pts H. unfold count_ops.
  induction pts as [|p pts IH]; simpl; [reflexivity|]. rewrite H. exact IH.
Qed.

Lemma count_flat_map :
  forall f (g : Point -> list CanvasOp) k pts,
    (forall p, count_ops f (g p) = k) ->
    count_ops f (flat_map g pts) = (List.length pts * k)%nat.
Proof.
  intros f g k pts H. induction pts as [|p pts IH]; simpl; [reflexivity|].
  rewrite count_ops_app, H, IH. reflexivity.
Qed.

(** The calls of [redrawCanvas] on a canvas with a context. *)
Lemma redrawCanvas_counts :
  forall f canvas s,
    has_2d_context canvas = true ->
    f beginPath = false ->
    (forall x y w h, f (clearRect x y w h) = false) ->
    (forall c, f (set_strokeStyle c) = false) ->
    (forall c, f (set_fillStyle c) = false) ->
    (forall w, f (set_lineWidth w) = false) ->
    (forall x y, f (moveTo x y) = false) ->
    (forall x y, f (lineTo x y) = false) ->
    forall marker,
      (forall x y r, (if f (arc_full_circle x y r) then 1 else 0)%nat = marker) ->
      count_ops f (redrawCanvas (Some canvas) s)
      = (count_ops f (grid_columns (Z.to_nat (width canvas) + 1) 0
                        (width canvas) (height canvas))
         + count_ops f (grid_rows (Z.to_nat (height canvas) + 1) 0
                          (width canvas) (height canvas))
         + match polygonPoints s with
           | [] => 0
           | _ :: _ =>
               (if isDrawingValid s
                then (if f closePath then 1 else 0) + (if f fill then 1 else 0)
                else 0)
               + (if f stroke then 1 else 0)
               + List.length (polygonPoints s)
                 * (marker + (if f fill then 1 else 0))
           end)%nat.
Proof.
  intros f canvas s Hctx Hb Hc Hss Hfs Hlw Hm Hl marker Hmarker.
  unfold redrawCanvas. rewrite Hctx. simpl negb. cbv iota zeta.
  assert (Hgrid :
            count_ops f
              ([clearRect 0 0 (width canvas) (height canvas);
                set_strokeStyle "#27272a"; set_lineWidth 1]
               ++ grid_columns (Z.to_nat (width canvas) + 1) 0
                    (width canvas) (height canvas)
               ++ grid_rows (Z.to_nat (height canvas) + 1) 0
                    (width canvas) (height canvas))
            = (count_ops f (grid_columns (Z.to_nat (width canvas) + 1) 0
                              (width canvas) (height canvas))
               + count_ops f (grid_rows (Z.to_nat (height canvas) + 1) 0
                                (width canvas) (height canvas)))%nat).
  { rewrite !count_ops_app. unfold count_ops at 1. simpl.
    rewrite Hc, Hss, Hlw. reflexivity. }
  unfold isDrawingValid.
  destruct (polygonPoints s) as [|p0 rest] eqn:Hpts.
  - rewrite Hgrid. lia.
  - rewrite count_ops_app, Hgrid, !count_ops_app.
    rewrite (count_map_other f) by (intros; apply Hl).
    rewrite (count_flat_map f _ (marker + (if f fill then 1 else 0))%nat).
    2:{ intros p. unfold count_ops. simpl. rewrite Hb.
        specialize (Hmarker (px p * inject_Z (width canvas))%Q
                            (py p * inject_Z (height canvas))%Q 4%Q).
        destruct (f (arc_full_circle _ _ _)); destruct (f fill);
          simpl; lia. }
    replace (count_ops f
               [beginPath;
                moveTo (px p0 * inject_Z (width canvas))%Q
                       (py p0 * inject_Z (height canvas))%Q]) with 0%nat
      by (unfold count_ops; simpl; rewrite Hb, Hm; reflexivity).
    replace (count_ops f [set_strokeStyle "#38bdf8"; set_lineWidth 2; stroke])
      with (if f stroke then 1 else 0)%nat
      by (unfold count_ops; simpl; rewrite Hss, Hlw; destruct (f stroke);
          reflexivity).
    replace (count_ops f [set_fillStyle "#fff"]) with 0%nat
      by (unfold count_ops; simpl; rewrite Hfs; reflexivity).
    replace (2 <? List.length (p0 :: rest))%nat
      with (3 <=? List.length (p0 :: rest))%nat by reflexivity.
    destruct (3 <=? List.length (p0 :: rest))%nat.
    + replace (count_ops f
                 [closePath; set_fillStyle "rgba(255, 255, 255, 0.1)"; fill])
        with ((if f closePath then 1 else 0) + (if f fill then 1 else 0))%nat
        by (unfold count_ops; simpl; rewrite Hfs;
            destruct (f closePath); destruct (f fill); reflexivity).
      lia.
    + change (count_ops f []) with 0%nat. lia.
Qed.

(** X15.  On a canvas with a context, [redrawCanvas] closes and fills the
    polygon exactly when the drawing is valid (three points or more),
    puts one filled marker on every point, and strokes the outline once
    when there is any point. *)
Theorem redrawCanvas_paints_the_polygon :
  forall canvas s,
    has_2d_context canvas = true ->
    0 <= width canvas -> 0 <= height canvas ->
    count_ops is_closePath (redrawCanvas (Some canvas) s)
    = (if isDrawingValid s then 1 else 0)%nat /\
    count_ops is_arc (redrawCanvas (Some canvas) s)
    = List.length (polygonPoints s) /\
    count_ops is_fill (redrawCanvas (Some canvas) s)
    = ((if isDrawingValid s then 1 else 0) + List.length (polygonPoints s))%nat /\
    count_ops is_stroke (redrawCanvas (Some canvas) s)
    = (Z.to_nat (width canvas / 40 + 1) + Z.to_nat (height canvas / 40 + 1)
       + match polygonPoints s with [] => 0 | _ :: _ => 1 end)%nat /\
    (forall p,
        In p (polygonPoints s) ->
        In (arc_full_circle (px p * inject_Z (width canvas))%Q
                            (py p * inject_Z (height canvas))%Q 4)
           (redrawCanvas (Some canvas) s)).
Proof.
  intros canvas s Hctx Hw Hh.
  assert (Hvalid : polygonPoints s = [] -> isDrawingValid s = false).
  { intros E. unfold isDrawingValid. rewrite E. reflexivity. }
  split; [|split; [|split; [|split]]].
  - rewrite (redrawCanvas_counts is_closePath canvas s Hctx) with (marker := 0%nat);
      try (intros; reflexivity).
    rewrite grid_columns_other, grid_rows_other by (intros; reflexivity).
    destruct (polygonPoints s) eqn:E; [rewrite Hvalid by reflexivity; reflexivity|].
    simpl. destruct (isDrawingValid s); lia.
  - rewrite (redrawCanvas_counts is_arc canvas s Hctx) with (marker := 1%nat);
      try (intros; reflexivity).
    rewrite grid_columns_other, grid_rows_other by (intros; reflexivity).
    destruct (polygonPoints s) eqn:E; [reflexivity|].
    simpl. destruct (isDrawingValid s); lia.
  - rewrite (redrawCanvas_counts is_fill canvas s Hctx) with (marker := 0%nat);
      try (intros; reflexivity).
    rewrite grid_columns_other, grid_rows_other by (intros; reflexivity).
    destruct (polygonPoints s) eqn:E; [rewrite Hvalid by reflexivity; reflexivity|].
    simpl. destruct (isDrawingValid s); lia.
  - rewrite (redrawCanvas_counts is_stroke canvas s Hctx) with (marker := 0%nat);
      try (intros; reflexivity).
    rewrite grid_columns_strokes by (intros _; apply enough_fuel; assumption).
    rewrite grid_rows_strokes by (intros _; apply enough_fuel; assumption).
    replace (0 <=? width canvas) with true by (symmetry; apply Z.leb_le; assumption).
    replace (0 <=? height canvas) with true by (symmetry; apply Z.leb_le; assumption).
    rewrite !Z.sub_0_r.
    destruct (polygonPoints s) eqn:E; [lia|].
    simpl. destruct (isDrawingValid s); lia.
  - intros p Hp. unfold redrawCanvas. rewrite Hctx. simpl negb. cbv iota zeta.
    destruct (polygonPoints s) as [|p0 rest] eqn:E; [contradiction|].
    rewrite !in_app_iff. do 6 right.
    apply in_flat_map. exists p. split; [assumption|]. right. left. reflexivity.
Qed.


End Painting.

Section LoadingMessages.

Import Js Gemini App AppCanvas.

Lemma set_currentLoadingMessage_twice :
  forall a b s,
    set_currentLoadingMessage a (set_currentLoadingMessage b s)
    = set_currentLoadingMessage a s.
Proof. intros. reflexivity. Qed.

Lemma interval_runs_state :
  forall n idx s,
    snd (interval_runs (S n) idx s)
    = set_currentLoadingMessage
        (nth ((idx + S n) mod 5) loadingMessages EmptyString) s.
Proof.
  induction n as [|n IH]; intros idx s.
  - cbn [interval_runs]. unfold interval_callback. cbv zeta.
    change (List.length loadingMessages) with 5%nat. reflexivity.
  - cbn [interval_runs] in *. unfold interval_callback in *. cbv zeta in *.
    change (List.length loadingMessages) with 5%nat in *.
    rewrite IH. rewrite set_currentLoadingMessage_twice.
    rewrite Nat.Div0.add_mod_idemp_l.
    replace (idx + 1 + S n)%nat with (idx + S (S n))%nat by lia. reflexivity.
Qed.

(** X17.  While the timer runs, the loading message rotates through the
    five messages in order: after [n] ticks it is message [n mod 5], so it
    is always one of the five and comes back every five ticks; no other
    signal is touched. *)
Theorem loading_message_rotates :
  forall n s,
    currentLoadingMessage (snd (interval_runs n 0 (startLoadingMessages s)))
    = nth (n mod 5) loadingMessages EmptyString /\
    In (currentLoadingMessage (snd (interval_runs n 0 (startLoadingMessages s))))
       loadingMessages /\
    snd (interval_runs (n + 5) 0 (startLoadingMessages s))
    = snd (interval_runs n 0 (startLoadingMessages s)) /\
    snd (interval_runs n 0 (startLoadingMessages s))
    = set_currentLoadingMessage
        (nth (n mod 5) loadingMessages EmptyString) (startLoadingMessages s).
Proof.
  intros n s.
  assert (State : snd (interval_runs n 0 (startLoadingMessages s))
                  = set_currentLoadingMessage
                      (nth (n mod 5) loadingMessages EmptyString)
                      (startLoadingMessages s)).
  { destruct n as [|n]; [reflexivity|]. rewrite interval_runs_state.
    reflexivity. }
  split; [rewrite State; reflexivity|]. split; [|split].
  - rewrite State.
    change (currentLoadingMessage (set_currentLoadingMessage ?m _)) with m.
    apply nth_In. change (List.length loadingMessages) with 5%nat.
    apply Nat.mod_upper_bound. discriminate.
  - rewrite State. replace (n + 5)%nat with (S (n + 4)) by lia.
    rewrite interval_runs_state.
    replace (0 + S (n + 4))%nat with (n + 1 * 5)%nat by lia.
    rewrite Nat.Div0.mod_add. reflexivity.
  - exact State.
Qed.

End LoadingMessages.

(* ================================================================== *)
(** ** Further properties of the scene construction *)
(* ================================================================== *)

Section SceneGeometry.

Import Gemini Three BoxGeometryOf.

Variables landW landD : Q.

Lemma filter_all :
  forall (A : Type) (l : list A), filter (fun _ => negb false) l = l.
Proof.
  intros A. induction l as [|a l IH]; [reflexivity|].
  change (a :: filter (fun _ : A => negb false) l = a :: l). f_equal. exact IH.
Qed.

Lemma Forall2_map_r :
  forall (A B : Type) (R : A -> B -> Prop) (f : A -> B) l,
    (forall a, R a (f a)) -> Forall2 R l (map f l).
Proof.
  intros A B R f l H. induction l as [|a l IH]; simpl; constructor; auto.
Qed.

Lemma renderFloor_single :
  forall p elevation roomGroup,
    ThreeDView.renderFloor (Some p) elevation landW landD false roomGroup
    = Some (roomGroup ++ map (single_view_box elevation landW landD) (rooms p)).
Proof.
  intros p elevation roomGroup. unfold ThreeDView.renderFloor. f_equal.
  rewrite (forEach_adds _ (fun _ : Room => false)
             (fun room => [single_view_box elevation landW landD room])).
  - rewrite filter_all, flat_map_singleton. reflexivity.
  - intros g room. rewrite andb_false_r. unfold single_view_box.
    unfold Stacked.footprint_x, Stacked.footprint_z.
    destruct (type room); reflexivity.
Qed.

(** X18.  In the single-floor view [renderFloor] adds exactly one box for
    every room, in the order of the rooms and voids included: 2.5 high,
    standing on the given elevation, on the footprint of the room; a void
    is a translucent wireframe, any other room has the colour of its
    type. *)
Theorem renderFloor_single_view_shows_every_room :
  forall p elevation roomGroup,
    exists objects,
      ThreeDView.renderFloor (Some p) elevation landW landD false roomGroup
      = Some (roomGroup ++ objects) /\
      Forall2 (shows_room elevation landW landD) (rooms p) objects.
Proof.
  intros p elevation roomGroup.
  exists (map (single_view_box elevation landW landD) (rooms p)).
  split; [apply renderFloor_single|].
  apply Forall2_map_r. intros room. unfold shows_room, single_view_box.
  eexists. split; [reflexivity|].
  destruct (type room); simpl; repeat split; try reflexivity;
    intros H; contradiction H; reflexivity.
Qed.

Lemma scaled_within :
  forall a b land : Q,
    (0 <= land)%Q -> (0 <= a)%Q -> (0 <= b)%Q -> (a + b <= 100)%Q ->
    (- (land / 2) <= (a / 100 * land + b / 100 * land / 2 - land / 2)
                     - b / 100 * land / 2)%Q /\
    ((a / 100 * land + b / 100 * land / 2 - land / 2) + b / 100 * land / 2
     <= land / 2)%Q.
Proof.
  intros a b land Hl Ha Hb Hab.
  assert (H1 : (0 <= a * land)%Q) by (apply Qmult_le_0_compat; assumption).
  assert (H2 : (0 <= (100 - a - b) * land)%Q)
    by (apply Qmult_le_0_compat; [lra | assumption]).
  split.
  - setoid_replace ((a / 100 * land + b / 100 * land / 2 - land / 2)
                    - b / 100 * land / 2)%Q
      with ((a * land) * (1 # 100) - land / 2)%Q by field.
    lra.
  - setoid_replace ((a / 100 * land + b / 100 * land / 2 - land / 2)
                    + b / 100 * land / 2)%Q
      with (land / 2 - ((100 - a - b) * land) * (1 # 100))%Q by field.
    lra.
Qed.

Hypothesis landW_nonneg : (0 <= landW)%Q.
Hypothesis landD_nonneg : (0 <= landD)%Q.

Lemma footprint_inside :
  forall room (h : Q) material (y : Q) cs rs,
    within_footprint room ->
    inside_plot landW landD
      (Mesh (BoxGeometry ((width (layout room) / 100) * landW)%Q h
                         ((height (layout room) / 100) * landD)%Q)
            material
            {| vx := Stacked.footprint_x landW room; vy := y;
               vz := Stacked.footprint_z landD room |} cs rs).
Proof.
  intros room h material y0 cs rs (Hx & Hw & Hxw & Hy & Hh & Hyh).
  unfold inside_plot, Stacked.footprint_x, Stacked.footprint_z. simpl.
  destruct (scaled_within (x (layout room)) (width (layout room)) landW)
    as [A1 A2]; try assumption.
  destruct (scaled_within (y (layout room)) (height (layout room)) landD)
    as [B1 B2]; try assumption.
  repeat split; assumption.
Qed.

Lemma neon_renderFloor_single :
  forall p elevation roomGroup,
    ThreeDViewNeon.renderFloor (Some p) elevation landW landD false roomGroup
    = Some (roomGroup
            ++ flat_map (neon_single_view elevation landW landD) (rooms p)).
Proof.
  intros p elevation roomGroup. unfold ThreeDViewNeon.renderFloor. f_equal.
  rewrite (forEach_adds _ (fun _ : Room => false)
             (neon_single_view elevation landW landD)).
  - rewrite filter_all. reflexivity.
  - intros g room. rewrite andb_false_r. unfold neon_single_view.
    unfold Stacked.footprint_x, Stacked.footprint_z.
    destruct (type room); cbv beta iota zeta delta [RoomType_eqb negb];
      rewrite <- ?app_assoc; reflexivity.
Qed.

(** X19.  When every room of a plan has its layout within the 0-100
    percent square, every box drawn for the plan has its footprint within
    the plot: the room volumes in either view, the pieces of a slab, and
    the same in the revision with the glass palette, again in either
    view. *)
Theorem rooms_are_drawn_inside_the_plot :
  forall p elevation,
    (forall room, In room (rooms p) -> within_footprint room) ->
    (forall isBuildingView objects,
        ThreeDView.renderFloor (Some p) elevation landW landD isBuildingView []
        = Some objects ->
        forall o, In o objects -> inside_plot landW landD o)
    /\
    (forall objects,
        ThreeDView.renderSlab elevation landW landD (Some p) [] = Some objects ->
        forall o, In o objects -> inside_plot landW landD o)
    /\
    (forall isBuildingView objects,
        ThreeDViewNeon.renderFloor (Some p) elevation landW landD
          isBuildingView []
        = Some objects ->
        forall o, In o objects -> inside_plot landW landD o)
    /\
    (forall objects,
        ThreeDViewNeon.renderSlab elevation landW landD (Some p) []
        = Some objects ->
        forall children y, In (Group children y) objects ->
        forall o, In o children -> inside_plot landW landD o).
Proof.
  intros p elevation Hrooms.
  assert (Hnv : forall room, In room (non_void_rooms p) -> within_footprint room).
  { intros room Hr. apply Hrooms. unfold non_void_rooms in Hr.
    apply filter_In in Hr. tauto. }
  split; [|split; [|split]].
  - intros [|] objects Hr o Ho.
    + rewrite renderFloor_building in Hr. inversion Hr; subst objects.
      simpl in Ho. apply in_map_iff in Ho. destruct Ho as (room & <- & Hroom).
      apply footprint_inside. apply Hnv. assumption.
    + rewrite renderFloor_single in Hr. inversion Hr; subst objects.
      simpl in Ho. apply in_map_iff in Ho. destruct Ho as (room & <- & Hroom).
      apply footprint_inside. apply Hrooms. assumption.
  - intros objects Hr o Ho.
    rewrite renderSlab_pieces in Hr. inversion Hr; subst objects.
    simpl in Ho. apply in_map_iff in Ho. destruct Ho as (room & <- & Hroom).
    apply footprint_inside. apply Hnv. assumption.
  - intros [|] objects Hr o Ho.
    + rewrite neon_renderFloor_building in Hr. inversion Hr; subst objects.
      simpl in Ho. apply in_flat_map in Ho. destruct Ho as (room & Hroom & Ho).
      destruct Ho as [<- | [<- | []]].
      * apply footprint_inside. apply Hnv. assumption.
      * exact I.
    + rewrite neon_renderFloor_single in Hr. inversion Hr; subst objects.
      simpl in Ho. apply in_flat_map in Ho. destruct Ho as (room & Hroom & Ho).
      unfold neon_single_view in Ho.
      destruct (RoomType_eqb (type room) void);
        [destruct Ho as [<- | []] | destruct Ho as [<- | [<- | []]]];
        try exact I; apply footprint_inside; apply Hrooms; assumption.
  - intros objects Hr children y0 Hg o Ho.
    rewrite neon_renderSlab_group in Hr. inversion Hr; subst objects.
    simpl in Hg. destruct Hg as [Hg | []]. inversion Hg; subst children y0.
    apply in_map_iff in Ho. destruct Ho as (room & <- & Hroom).
    apply footprint_inside. apply Hnv. assumption.
Qed.

End SceneGeometry.

Section SceneHeights.

Import Gemini Three BoxGeometryOf.

Variables landW landD : Q.

(** X20.  Floors and slabs share the height without overlap.  The room
    volumes of a floor on elevation [e] reach from [e] to [e + 2.8], and
    the slab of the floor above, on [e + 3], from [e + 2.8] to [e + 3]:
    flush with the rooms below and with the floor above.  In the
    revision with the glass palette the rooms reach from [e] to
    [e + 3.05] and the slab above from [e + 3.1] to [e + 3.2]. *)
Theorem floors_and_slabs_do_not_overlap :
  forall p p' e,
    (forall objects,
        ThreeDView.renderFloor (Some p) e landW landD true [] = Some objects ->
        forall o, In o objects ->
          (bottom o == e)%Q /\ (top o == e + 2.8)%Q)
    /\
    (forall objects,
        ThreeDView.renderSlab (e + ThreeDView.FLOOR_HEIGHT)%Q landW landD
          (Some p') [] = Some objects ->
        forall o, In o objects ->
          (bottom o == e + 2.8)%Q /\ (top o == e + 3)%Q)
    /\
    (forall objects,
        ThreeDViewNeon.renderFloor (Some p) e landW landD true [] = Some objects ->
        forall o, In o objects -> is_box o = true ->
          (bottom o == e)%Q /\ (top o == e + 3.05)%Q)
    /\
    (forall objects,
        ThreeDViewNeon.renderSlab (e + ThreeDViewNeon.FLOOR_HEIGHT)%Q landW landD
          (Some p') [] = Some objects ->
        forall children y, In (Group children y) objects ->
        forall o, In o children ->
          (y + bottom o == e + 3.1)%Q /\ (y + top o == e + 3.2)%Q).
Proof.
  intros p p' e. split; [|split; [|split]].
  - intros objects Hr o Ho.
    rewrite renderFloor_building in Hr. inversion Hr; subst objects.
    simpl in Ho. apply in_map_iff in Ho. destruct Ho as (room & <- & _).
    unfold bottom, top, Stacked.room_volume, ThreeDView.FLOOR_HEIGHT. simpl.
    split; field.
  - intros objects Hr o Ho.
    rewrite renderSlab_pieces in Hr. inversion Hr; subst objects.
    simpl in Ho. apply in_map_iff in Ho. destruct Ho as (room & <- & _).
    unfold bottom, top, Stacked.slab_piece, ThreeDView.FLOOR_HEIGHT. simpl.
    split; field.
  - intros objects Hr o Ho Hbox.
    rewrite neon_renderFloor_building in Hr. inversion Hr; subst objects.
    simpl in Ho. apply in_flat_map in Ho. destruct Ho as (room & _ & Ho).
    destruct Ho as [<- | [<- | []]]; [|discriminate].
    unfold bottom, top, ThreeDViewNeon.FLOOR_HEIGHT. simpl. split; field.
  - intros objects Hr children y0 Hg o Ho.
    rewrite neon_renderSlab_group in Hr. inversion Hr; subst objects.
    simpl in Hg. destruct Hg as [Hg | []]. inversion Hg; subst children y0.
    apply in_map_iff in Ho. destruct Ho as (room & <- & _).
    unfold bottom, top, StackedNeon.slab_piece, ThreeDViewNeon.FLOOR_HEIGHT.
    simpl. split; field.
Qed.

(** X21.  [renderNeighbors] adds, after what is already in the scene,
    first the box of the west neighbour and then the box of the east
    neighbour, each only when the floor count of that neighbour is
    positive.  Either box stands on the ground, is as high as the floors
    of its neighbour, as deep as the plot, and faces the plot across a
    gap of half a metre: the west neighbour on the side of negative x,
    the east neighbour on the side of positive x. *)
Theorem neighbours_stand_beside_the_plot :
  forall i roomGroup,
    exists west east,
      ThreeDView.renderNeighbors i landW landD roomGroup
      = roomGroup ++ west ++ east /\
      ((ThreeDView.neighborWestFloors i <= 0)%Q -> west = []) /\
      ((0 < ThreeDView.neighborWestFloors i)%Q ->
       exists o, west = [o] /\
         neighbour_box true (ThreeDView.neighborWestFloors i) landW landD o) /\
      ((ThreeDView.neighborEastFloors i <= 0)%Q -> east = []) /\
      ((0 < ThreeDView.neighborEastFloors i)%Q ->
       exists o, east = [o] /\
         neighbour_box false (ThreeDView.neighborEastFloors i) landW landD o).
Proof.
  intros i roomGroup. rewrite renderNeighbors_adds.
  unfold ThreeDView.renderNeighbors. cbv zeta.
  assert (Hle : forall q : Q, Qle_bool q 0 = true -> (0 < q)%Q -> False).
  { intros q H Hq. apply Qle_bool_iff in H. lra. }
  assert (Hgt : forall q : Q, Qle_bool q 0 = false -> (q <= 0)%Q -> False).
  { intros q H Hq. apply Qle_bool_iff in Hq. congruence. }
  assert (Hbox : forall (west : bool) (floors : Q),
             neighbour_box west floors landW landD
               (Mesh (BoxGeometry 10 (floors * ThreeDView.FLOOR_HEIGHT) landD)
                  {| class := MeshStandardMaterial; color := 0x6B7280;
                     wireframe := false; transparent := true; opacity := 0.3 |}
                  {| vx := if west then (- (landW / 2 + 10 / 2 + 0.5))%Q
                           else (landW / 2 + 10 / 2 + 0.5)%Q;
                     vy := (floors * ThreeDView.FLOOR_HEIGHT / 2)%Q;
                     vz := 0 |}
                  true false)).
  { intros west floors. unfold neighbour_box, ThreeDView.FLOOR_HEIGHT.
    cbn [vx vy vz].
    split; [reflexivity|]. split; [reflexivity|]. split; [reflexivity|].
    split; [field|]. split; [field|]. destruct west; field. }
  destruct (Qle_bool (ThreeDView.neighborWestFloors i) 0) eqn:Ew;
    destruct (Qle_bool (ThreeDView.neighborEastFloors i) 0) eqn:Ee;
    simpl negb; cbv iota.
  - exists [], []. split; [reflexivity|].
    repeat split; try reflexivity; intros H; exfalso; eauto.
  - eexists [], [_]. split; [reflexivity|].
    split; [reflexivity|]. split; [intros H; exfalso; eauto|].
    split; [intros H; exfalso; eauto|].
    intros _. eexists. split; [reflexivity|]. apply (Hbox false).
  - eexists [_], []. split; [reflexivity|].
    split; [intros H; exfalso; eauto|].
    split; [intros _; eexists; split; [reflexivity | apply (Hbox true)]|].
    split; [reflexivity|]. intros H; exfalso; eauto.
  - eexists [_], [_]. split; [reflexivity|].
    split; [intros H; exfalso; eauto|].
    split; [intros _; eexists; split; [reflexivity | apply (Hbox true)]|].
    split; [intros H; exfalso; eauto|].
    intros _. eexists. split; [reflexivity|]. apply (Hbox false).
Qed.

End SceneHeights.

Section BuildingEdgeCases.

Import Gemini Three.

Variables landW landD : Q.

(** X22.  With a floor count of zero or below, [createBuildingScene]
    draws no floor at all but still a roof slab, over the typical plan
    and with its top at [totalFloors * FLOOR_HEIGHT], that is at or below
    the ground, followed by the neighbours (both revisions). *)
Theorem createBuildingScene_without_floors_draws_a_roof :
  forall res,
    totalFloors (buildingSummary res) <= 0 ->
    floorPlans res <> [] ->
    exists typical,
      is_typicalPlan (floorPlans res) typical /\
      (forall i roomGroup,
          ThreeDView.result i = Some res ->
          ThreeDView.createBuildingScene i landW landD roomGroup
          = Some (roomGroup
                  ++ Stacked.slab typical
                       (inject_Z (totalFloors (buildingSummary res))
                        * ThreeDView.FLOOR_HEIGHT)%Q landW landD
                  ++ ThreeDView.renderNeighbors i landW landD []))
      /\
      (forall i roomGroup,
          ThreeDViewNeon.result i = Some res ->
          ThreeDViewNeon.createBuildingScene i landW landD roomGroup
          = Some (roomGroup
                  ++ StackedNeon.slab typical
                       (inject_Z (totalFloors (buildingSummary res))
                        * ThreeDViewNeon.FLOOR_HEIGHT)%Q landW landD
                  ++ ThreeDViewNeon.renderNeighbors i landW landD [])).
Proof.
  intros res HN Hne.
  destruct (typicalPlan_of_spec _ Hne) as (typical & Ht & St).
  exists typical. split; [exact St|].
  assert (Z0 : Z.to_nat (totalFloors (buildingSummary res)) = 0%nat) by lia.
  split; intros i roomGroup Hres.
  - unfold ThreeDView.createBuildingScene. rewrite Hres. cbv zeta.
    rewrite Z0, Ht. cbn [ThreeDView.floors_loop].
    rewrite renderSlab_pieces, renderNeighbors_adds.
    rewrite <- app_assoc. reflexivity.
  - unfold ThreeDViewNeon.createBuildingScene. rewrite Hres. cbv zeta.
    rewrite Z0, Ht. cbn [ThreeDViewNeon.floors_loop].
    rewrite neon_renderSlab_group, neon_renderNeighbors_adds.
    rewrite <- app_assoc. reflexivity.
Qed.

Lemma plans_of_ground_and_typical :
  forall g t rest,
    level g = 0 -> 0 < level t ->
    ThreeDView.groundPlan_of (g :: t :: rest) = Some g /\
    ThreeDView.typicalPlan_of (g :: t :: rest) = Some t.
Proof.
  intros g t rest Hg Ht.
  unfold ThreeDView.groundPlan_of, ThreeDView.typicalPlan_of. simpl.
  rewrite Hg. simpl.
  assert (E : (0 <? level t) = true) by (apply Z.ltb_lt; exact Ht).
  rewrite E. split; reflexivity.
Qed.

(** X23.  Of a response that lists a ground plan (level 0) first and a
    plan of a higher level second, only these two plans are drawn: any
    further plans make no difference to the scene, whatever the floor
    count. *)
Theorem createBuildingScene_draws_two_plans_only :
  forall summary g t rest rest' plan viewType w d nw ne roomGroup,
    level g = 0 -> 0 < level t ->
    ThreeDView.createBuildingScene
      {| ThreeDView.plan := plan;
         ThreeDView.result :=
           Some {| buildingSummary := summary; floorPlans := g :: t :: rest |};
         ThreeDView.viewType := viewType;
         ThreeDView.landWidth := w; ThreeDView.landDepth := d;
         ThreeDView.neighborWestFloors := nw;
         ThreeDView.neighborEastFloors := ne |}
      landW landD roomGroup
    = ThreeDView.createBuildingScene
        {| ThreeDView.plan := plan;
           ThreeDView.result :=
             Some {| buildingSummary := summary; floorPlans := g :: t :: rest' |};
           ThreeDView.viewType := viewType;
           ThreeDView.landWidth := w; ThreeDView.landDepth := d;
           ThreeDView.neighborWestFloors := nw;
           ThreeDView.neighborEastFloors := ne |}
        landW landD roomGroup.
Proof.
  intros summary g t rest rest' plan viewType w d nw ne roomGroup Hg Ht.
  unfold ThreeDView.createBuildingScene.
  cbn [ThreeDView.result buildingSummary floorPlans]. cbv zeta.
  destruct (plans_of_ground_and_typical g t rest Hg Ht) as [G T].
  destruct (plans_of_ground_and_typical g t rest' Hg Ht) as [G' T'].
  rewrite G, T, G', T'.
  destruct (ThreeDView.floors_loop _ _ _ _ _ _ _) as [rg|]; [|reflexivity].
  destruct (ThreeDView.renderSlab _ _ _ _ _) as [rg'|]; reflexivity.
Qed.

End BuildingEdgeCases.

Section Camera.

Import Gemini Three ViewCamera.

Lemma floors_in_view_counted :
  forall result n,
    floors_in_view result n <-> totalFloors_or_1 result = n.
Proof.
  intros result n. unfold floors_in_view, totalFloors_or_1.
  destruct result as [res|]; [|split; intros H; symmetry; exact H].
  destruct (totalFloors (buildingSummary res) =? 0) eqn:E.
  - apply Z.eqb_eq in E. split.
    + intros [[_ ->] | [H _]]; [reflexivity | contradiction].
    + intros <-. left. split; [exact E | reflexivity].
  - apply Z.eqb_neq in E. split.
    + intros [[H _] | [_ ->]]; [contradiction | reflexivity].
    + intros <-. right. split; [exact E | reflexivity].
Qed.

(** X24.  [updateCameraPosition] does nothing without a camera, and with
    one the new pose does not depend on the former pose.  With [n] the
    floor count of the result, or 1 when there is no result or the count
    is 0, the camera is turned to the axis of the plot at a third of the
    height of [n] floors.  In building view it stands beyond the corner
    of the plot, at 1.5 times the width and depth (twice the depth in the
    revision with the glass palette), and for a positive [n] higher than
    the point it is turned to; in the single-floor view it stands over
    the axis, and the revision with the glass palette turns it to the
    origin. *)
Theorem camera_aims_at_the_building :
  (forall i n,
      floors_in_view (ThreeDView.result i) n ->
      updateCameraPosition i None = None /\
      (forall camera camera',
          updateCameraPosition i (Some camera)
          = updateCameraPosition i (Some camera')) /\
      forall camera,
      exists c,
        updateCameraPosition i (Some camera) = Some c /\
        vx (target c) = 0%Q /\ vz (target c) = 0%Q /\
        (vy (target c) == inject_Z n * 3 / 3)%Q /\
        (ThreeDView.viewType i = ThreeDView.single ->
         vx (position c) = 0%Q /\
         (vy (position c) == ThreeDView.landDepth i * 0.75)%Q /\
         vz (position c) = ThreeDView.landDepth i) /\
        (ThreeDView.viewType i = ThreeDView.building ->
         (vx (position c) == ThreeDView.landWidth i * 1.5)%Q /\
         (vy (position c) == inject_Z n * 3 * 0.8)%Q /\
         (vz (position c) == ThreeDView.landDepth i * 1.5)%Q /\
         (0 < n -> (vy (target c) < vy (position c))%Q)))
  /\
  (forall i n,
      floors_in_view (ThreeDViewNeon.result i) n ->
      updateCameraPosition_neon i None = None /\
      (forall camera camera',
          updateCameraPosition_neon i (Some camera)
          = updateCameraPosition_neon i (Some camera')) /\
      forall camera,
      exists c,
        updateCameraPosition_neon i (Some camera) = Some c /\
        vx (target c) = 0%Q /\ vz (target c) = 0%Q /\
        (ThreeDViewNeon.viewType i = ThreeDViewNeon.single ->
         vy (target c) = 0%Q /\
         vx (position c) = 0%Q /\
         (vy (position c) == ThreeDViewNeon.landDepth i * 1.5)%Q /\
         (vz (position c) == ThreeDViewNeon.landDepth i * 1.5)%Q) /\
        (ThreeDViewNeon.viewType i = ThreeDViewNeon.building ->
         (vy (target c) == inject_Z n * 3.2 / 3)%Q /\
         (vx (position c) == ThreeDViewNeon.landWidth i * 1.5)%Q /\
         (vy (position c) == inject_Z n * 3.2 + 20)%Q /\
         (vz (position c) == ThreeDViewNeon.landDepth i * 2)%Q /\
         (0 < n -> (vy (target c) < vy (position c))%Q))).
Proof.
  split.
  - intros i n Hn. apply floors_in_view_counted in Hn.
    split; [reflexivity|]. split; [reflexivity|].
    intros camera. unfold updateCameraPosition. rewrite Hn. cbv zeta.
    eexists. split; [reflexivity|]. cbn [target position vx vy vz].
    split; [reflexivity|]. split; [reflexivity|].
    unfold ThreeDView.FLOOR_HEIGHT. split; [reflexivity|].
    split; intros Hv; rewrite Hv; cbn [vx vy vz].
    + repeat split; reflexivity.
    + split; [reflexivity|]. split; [reflexivity|]. split; [reflexivity|].
      intros Hpos.
      assert (Hq : (0 < inject_Z n)%Q).
      { change 0%Q with (inject_Z 0). rewrite <- Zlt_Qlt. exact Hpos. }
      set (q := inject_Z n) in *. clearbody q.
      setoid_replace (q * 3 / 3)%Q with q by field. lra.
  - intros i n Hn. apply floors_in_view_counted in Hn.
    split; [reflexivity|]. split; [reflexivity|].
    intros camera. unfold updateCameraPosition_neon. rewrite Hn. cbv zeta.
    unfold ThreeDViewNeon.FLOOR_HEIGHT.
    destruct (ThreeDViewNeon.viewType i); eexists; (split; [reflexivity|]);
      cbn [target position vx vy vz];
      (split; [reflexivity|]); (split; [reflexivity|]); split;
      try (intros; discriminate); intros _.
    + repeat split; reflexivity.
    + split; [reflexivity|]. split; [reflexivity|]. split; [reflexivity|].
      split; [reflexivity|].
      intros Hpos.
      assert (Hq : (0 < inject_Z n)%Q).
      { change 0%Q with (inject_Z 0). rewrite <- Zlt_Qlt. exact Hpos. }
      set (q := inject_Z n) in *. clearbody q.
      setoid_replace (q * 3.2 / 3)%Q with (q * (16 # 15))%Q by field. lra.
Qed.

End Camera.

Section BasePolygon.

Import Js NeonBase.
Local Open Scope Q_scope.

Lemma stretched_within :
  forall a E L : Q,
    0 <= a -> a <= E -> 0 < E -> 0 <= L ->
    - (L / 2) <= a * (L / E) - L / 2 /\ a * (L / E) - L / 2 <= L / 2.
Proof.
  intros a E L Ha HaE HE HL.
  assert (HE0 : ~ E == 0) by (intros Hz; rewrite Hz in HE; discriminate).
  assert (H0 : 0 <= a * (L / E)).
  { apply Qmult_le_0_compat; [assumption|].
    apply Qle_shift_div_l; [assumption|]. rewrite Qmult_0_l. assumption. }
  assert (H1 : a * (L / E) <= L).
  { setoid_replace (a * (L / E)) with ((a * L) / E) by (field; assumption).
    apply Qle_shift_div_r; [assumption|].
    setoid_replace (L * E) with (E * L) by ring.
    apply Qmult_le_compat_r; assumption. }
  set (t := a * (L / E)) in *. clearbody t.
  setoid_replace (L / 2) with (L * (1 # 2)) by field.
  split; lra.
Qed.

(** X25.  The base of the scene is the plot rectangle when there is no
    polygon or one of fewer than three points.  A polygon of three points
    or more whose bounding box has a positive width and height becomes a
    shape with one vertex for each point, all of them within the plot
    rectangle (the polygon is stretched over the plot); when the bounding
    box has no width or no height there is no shape with finite
    vertices. *)
Theorem base_polygon_is_stretched_over_the_plot :
  forall i landW landD,
    (ThreeDViewNeon.customPolygon i = None ->
     baseGeo i landW landD = Some (PlaneGeometry landW landD))
    /\
    (forall polygon,
        ThreeDViewNeon.customPolygon i = Some polygon ->
        (List.length polygon < 3)%nat ->
        baseGeo i landW landD = Some (PlaneGeometry landW landD))
    /\
    (forall polygon,
        ThreeDViewNeon.customPolygon i = Some polygon ->
        (3 <= List.length polygon)%nat ->
        0 <= landW -> 0 <= landD ->
        0 < extent (map fst polygon) -> 0 < extent (map snd polygon) ->
        exists path,
          baseGeo i landW landD = Some (ShapeGeometry path) /\
          List.length path = List.length polygon /\
          forall op, In op path ->
            - (landW / 2) <= shape_x op <= landW / 2 /\
            - (landD / 2) <= shape_y op <= landD / 2)
    /\
    (forall polygon,
        ThreeDViewNeon.customPolygon i = Some polygon ->
        (3 <= List.length polygon)%nat ->
        extent (map fst polygon) == 0 \/ extent (map snd polygon) == 0 ->
        baseGeo i landW landD = None).
Proof.
  intros i landW landD. split; [|split; [|split]].
  - intros H. unfold baseGeo. rewrite H. reflexivity.
  - intros polygon H Hlen. unfold baseGeo. rewrite H.
    destruct (3 <=? List.length polygon)%nat eqn:E; [|reflexivity].
    apply Nat.leb_le in E. lia.
  - intros polygon H Hlen HW HD Hx Hy. unfold baseGeo. rewrite H.
    apply Nat.leb_le in Hlen. rewrite Hlen. cbv zeta.
    fold (extent (map fst polygon)). fold (extent (map snd polygon)).
    assert (Ex : Qeq_bool (extent (map fst polygon)) 0 = false).
    { destruct (Qeq_bool (extent (map fst polygon)) 0) eqn:E; [|reflexivity].
      apply Qeq_bool_eq in E. rewrite E in Hx. discriminate. }
    assert (Ey : Qeq_bool (extent (map snd polygon)) 0 = false).
    { destruct (Qeq_bool (extent (map snd polygon)) 0) eqn:E; [|reflexivity].
      apply Qeq_bool_eq in E. rewrite E in Hy. discriminate. }
    rewrite Ex, Ey. simpl orb. cbv iota.
    assert (Hvertex :
              forall p, In p polygon ->
                (- (landW / 2)
                 <= (fst p - Math_min (map fst polygon))
                    * (landW / extent (map fst polygon)) - landW / 2
                 <= landW / 2) /\
                (- (landD / 2)
                 <= - ((snd p - Math_min (map snd polygon))
                       * (landD / extent (map snd polygon)) - landD / 2)
                 <= landD / 2)).
    { intros p Hp.
      assert (Hfx : In (fst p) (map fst polygon)) by (apply in_map; assumption).
      assert (Hfy : In (snd p) (map snd polygon)) by (apply in_map; assumption).
      pose proof (Math_min_below _ _ Hfx) as X1.
      pose proof (Math_max_above _ _ Hfx) as X2.
      pose proof (Math_min_below _ _ Hfy) as Y1.
      pose proof (Math_max_above _ _ Hfy) as Y2.
      destruct (stretched_within (fst p - Math_min (map fst polygon))
                  (extent (map fst polygon)) landW) as [A1 A2];
        [lra | unfold extent; lra | assumption | assumption |].
      destruct (stretched_within (snd p - Math_min (map snd polygon))
                  (extent (map snd polygon)) landD) as [B1 B2];
        [lra | unfold extent; lra | assumption | assumption |].
      repeat split; try assumption; lra. }
    destruct polygon as [|p0 rest]; [simpl in Hlen; discriminate|].
    eexists. split; [reflexivity|]. split.
    + simpl. rewrite length_map. reflexivity.
    + intros op [<- | Hop].
      * apply (Hvertex p0). left. reflexivity.
      * apply in_map_iff in Hop. destruct Hop as (p & <- & Hp).
        apply (Hvertex p). right. assumption.
  - intros polygon H Hlen Hz. unfold baseGeo. rewrite H.
    apply Nat.leb_le in Hlen. rewrite Hlen. cbv zeta.
    fold (extent (map fst polygon)). fold (extent (map snd polygon)).
    destruct Hz as [Hz | Hz]; apply Qeq_eq_bool in Hz; rewrite Hz.
    + reflexivity.
    + rewrite orb_true_r. reflexivity.
Qed.

End BasePolygon.

(** X26.  The prompt of every request made by [analyzePlot] states, as
    width and depth, the very values [analyzePlot] leaves in [landWidth]
    and [landDepth], which are the dimensions the 3D view draws. *)
Theorem prompt_states_the_stored_dimensions :
  forall svc s s' w d nw ne,
    App.analyzePlot svc s = (s', [ (w, d, nw, ne) ]) ->
    Gemini.interpolated_after "- Width (along street): " (Gemini.prompt w d nw ne)
    = Some (App.landWidth s') /\
    Gemini.interpolated_after "- Depth: " (Gemini.prompt w d nw ne)
    = Some (App.landDepth s').
Proof.
  intros svc s s' w d nw ne Hrun.
  assert (P : forall w d nw ne,
             Gemini.interpolated_after "- Width (along street): "
               (Gemini.prompt w d nw ne) = Some w /\
             Gemini.interpolated_after "- Depth: "
               (Gemini.prompt w d nw ne) = Some d).
  { intros. split; vm_compute; reflexivity. }
  destruct (app_analyzePlot_calls svc s) as [Hnil | (fw & fd & Hreq)].
  - rewrite Hrun in Hnil. discriminate.
  - rewrite Hreq in Hrun.
    pose proof (app_request_calls svc fw fd s) as Hc.
    pose proof (app_request_dimensions svc fw fd s) as [Hw Hd].
    rewrite Hrun in Hc, Hw, Hd. simpl in Hc, Hw, Hd.
    inversion Hc; subst. destruct (P (App.landWidth s') (App.landDepth s')
                                     (App.neighborEastFloors s)
                                     (App.neighborWestFloors s)).
    split; assumption.
Qed.

(* ================================================================== *)
(** ** The further properties at the sample inputs *)
(* ================================================================== *)

Lemma analyzeLand_fulfils_exactly_on_validated_reply_witness :
  Gemini.analyzeLand (Sample.replies Sample.valid_reply_text) Sample.trim
    Sample.JSON_parse 10 20 2 2 = inr Sample.valid_reply.
Proof.
  apply (proj2 (analyzeLand_fulfils_exactly_on_validated_reply
                  (Sample.replies Sample.valid_reply_text) Sample.trim
                  Sample.JSON_parse 10 20 2 2 Sample.valid_reply)).
  do 5 eexists. vm_compute. repeat split.
Defined.

Lemma analyzeLand_returns_objects_only_witness :
  exists props,
    Sample.valid_reply = Gemini.JsObject props /\
    Gemini.ToBoolean (Gemini.own_property "buildingSummary" props) = true /\
    Gemini.ToBoolean (Gemini.own_property "floorPlans" props) = true.
Proof.
  apply (analyzeLand_returns_objects_only
           (Sample.replies Sample.valid_reply_text) Sample.trim
           Sample.JSON_parse 10 20 2 2 Sample.valid_reply).
  vm_compute. reflexivity.
Defined.

Lemma validate_is_shallow_witness :
  Gemini.validate (Gemini.JsObject SampleMore.odd_reply)
  = inr (Gemini.JsObject SampleMore.odd_reply).
Proof.
  apply (validate_is_shallow SampleMore.odd_reply (Gemini.JsBool true)).
  - reflexivity.
  - reflexivity.
  - left. reflexivity.
Defined.


Lemma click_inside_keeps_points_normalized_witness :
  AppCanvas.normalized
    (AppCanvas.normalized_point SampleMore.rect (SampleMore.click 110 120)).
Proof.
  apply (click_inside_keeps_points_normalized SampleMore.rect
           (SampleMore.click 110 120) (Sample.drawing_state [])
           (App.set_polygonPoints
              [ AppCanvas.normalized_point SampleMore.rect
                  (SampleMore.click 110 120) ]
              (Sample.drawing_state []))).
  - reflexivity.
  - reflexivity.
  - vm_compute. repeat split; discriminate.
  - intros p [].
  - reflexivity.
  - left. reflexivity.
Defined.


Lemma analyzePlot_success_shows_first_plan_witness :
  App.step
    (fst (App.analyzePlot SampleMore.fulfilling_service
            (Sample.result_state Sample.gap_levels 1))) = App.result /\
  App.currentFloorPlan
    (fst (App.analyzePlot SampleMore.fulfilling_service
            (Sample.result_state Sample.gap_levels 1)))
  = App.current_plan Sample.ground_floor.
Proof.
  destruct (proj1 (analyzePlot_success_shows_first_plan
                     SampleMore.fulfilling_service)
                  (Sample.result_state Sample.gap_levels 1)
                  (fst (App.analyzePlot SampleMore.fulfilling_service
                          (Sample.result_state Sample.gap_levels 1)))
                  10%Q 20%Q 2%Q 2%Q Sample.three_floors)
    as (Hs & _ & _ & _ & _ & _ & Hc).
  - vm_compute. reflexivity.
  - reflexivity.
  - split; [exact Hs | exact Hc].
Defined.

Lemma analyzePlot_valid_input_makes_one_request_witness :
  exists w d,
    snd (App.analyzePlot rejecting_service (Sample.drawing_state Sample.triangle))
    = [ (w, d,
         App.neighborEastFloors (Sample.drawing_state Sample.triangle),
         App.neighborWestFloors (Sample.drawing_state Sample.triangle)) ] /\
    (App.inputType (Sample.drawing_state Sample.triangle) = App.numeric ->
     w = App.landWidth (Sample.drawing_state Sample.triangle) /\
     d = App.landDepth (Sample.drawing_state Sample.triangle)).
Proof.
  apply (proj2 (analyzePlot_valid_input_makes_one_request rejecting_service
                  (Sample.drawing_state Sample.triangle))).
  right. split; [reflexivity | simpl; lia].
Defined.

Lemma analyzePlot_request_outcome_witness :
  App.landWidth
    (fst (App.analyzePlot rejecting_service (Sample.drawing_state Sample.triangle)))
  = 37.5%Q /\
  App.step
    (fst (App.analyzePlot rejecting_service (Sample.drawing_state Sample.triangle)))
  <> App.loading.
Proof.
  destruct (analyzePlot_request_outcome rejecting_service
              (Sample.drawing_state Sample.triangle)
              (fst (App.analyzePlot rejecting_service
                      (Sample.drawing_state Sample.triangle)))
              37.5%Q 37.5%Q 2%Q 2%Q)
    as (Hw & _ & _ & Hs & _).
  - vm_compute. reflexivity.
  - split; [exact Hw | exact Hs].
Defined.

Lemma drawn_dimensions_are_between_5_and_50_witness :
  (5 <= App.landWidth
          (fst (App.analyzePlot rejecting_service
                  (Sample.drawing_state Sample.triangle))))%Q /\
  (App.landWidth
     (fst (App.analyzePlot rejecting_service
             (Sample.drawing_state Sample.triangle))) <= 50)%Q.
Proof.
  destruct (drawn_dimensions_are_between_5_and_50 rejecting_service
              (Sample.drawing_state Sample.triangle))
    as (Hlo & _ & Hhi).
  - reflexivity.
  - simpl. lia.
  - split; [exact Hlo|]. apply Hhi.
    intros p Hp. simpl in Hp.
    destruct Hp as [<- | [<- | [<- | []]]]; vm_compute; repeat split; discriminate.
Defined.

Lemma drawn_dimensions_are_monotone_witness :
  (App.landWidth
     (fst (App.analyzePlot rejecting_service
             (App.set_polygonPoints Sample.triangle (Sample.drawing_state []))))
   <= App.landWidth
        (fst (App.analyzePlot rejecting_service
                (App.set_polygonPoints (scale 2 Sample.triangle)
                   (Sample.drawing_state [])))))%Q.
Proof.
  apply (proj2 (proj2 (drawn_dimensions_are_monotone rejecting_service
                         (Sample.drawing_state []) Sample.triangle
                         (scale 2 Sample.triangle) eq_refl
                         (le_n 3) (le_n 3)))
               2%Q).
  - vm_compute. discriminate.
  - reflexivity.
Defined.


Lemma redrawCanvas_paints_the_polygon_witness :
  AppCanvas.count_ops AppCanvas.is_closePath
    (AppCanvas.redrawCanvas (Some SampleMore.canvas)
       (Sample.drawing_state Sample.triangle)) = 1%nat /\
  AppCanvas.count_ops AppCanvas.is_arc
    (AppCanvas.redrawCanvas (Some SampleMore.canvas)
       (Sample.drawing_state Sample.triangle)) = 3%nat.
Proof.
  destruct (redrawCanvas_paints_the_polygon SampleMore.canvas
              (Sample.drawing_state Sample.triangle))
    as (Hc & Ha & _).
  - reflexivity.
  - simpl. lia.
  - simpl. lia.
  - split; [exact Hc | exact Ha].
Defined.


Lemma rooms_are_drawn_inside_the_plot_witness :
  BoxGeometryOf.inside_plot 10 20
    (Stacked.room_volume 0 10 20
       (Sample.room "lobby" Gemini.hallway 100 0 0 100 50)).
Proof.
  apply (proj1 (rooms_are_drawn_inside_the_plot 10 20 ltac:(discriminate)
                  ltac:(discriminate) Sample.ground_floor 0
                  ltac:(intros room [<- | [<- | []]]; vm_compute;
                        repeat split; discriminate))
               true
               (map (Stacked.room_volume 0 10 20)
                  (non_void_rooms Sample.ground_floor))).
  - apply renderFloor_building.
  - simpl. left. reflexivity.
Defined.

Lemma floors_and_slabs_do_not_overlap_witness :
  (BoxGeometryOf.bottom
     (Stacked.room_volume 0 10 20
        (Sample.room "lobby" Gemini.hallway 100 0 0 100 50)) == 0)%Q
  /\ (BoxGeometryOf.top
        (Stacked.room_volume 0 10 20
           (Sample.room "lobby" Gemini.hallway 100 0 0 100 50)) == 0 + 2.8)%Q.
Proof.
  apply (proj1 (floors_and_slabs_do_not_overlap 10 20 Sample.ground_floor
                  Sample.first_floor 0)
               (map (Stacked.room_volume 0 10 20)
                  (non_void_rooms Sample.ground_floor))).
  - apply renderFloor_building.
  - simpl. left. reflexivity.
Defined.

Lemma neighbours_stand_beside_the_plot_witness :
  exists west east,
    ThreeDView.renderNeighbors SampleMore.view_between_neighbours 10 20 []
    = [] ++ west ++ east /\
    (exists o, west = [o] /\ BoxGeometryOf.neighbour_box true 1 10 20 o) /\
    (exists o, east = [o] /\ BoxGeometryOf.neighbour_box false 4 10 20 o).
Proof.
  destruct (neighbours_stand_beside_the_plot 10 20
              SampleMore.view_between_neighbours [])
    as (west & east & E & _ & Hw & _ & He).
  exists west, east. split; [exact E|]. split.
  - apply Hw. reflexivity.
  - apply He. reflexivity.
Defined.

Lemma createBuildingScene_without_floors_draws_a_roof_witness :
  exists typical,
    is_typicalPlan (Gemini.floorPlans SampleMore.no_floors) typical /\
    (forall i roomGroup,
        ThreeDView.result i = Some SampleMore.no_floors ->
        ThreeDView.createBuildingScene i 10 20 roomGroup
        = Some (roomGroup
                ++ Stacked.slab typical
                     (inject_Z (Gemini.totalFloors
                                  (Gemini.buildingSummary SampleMore.no_floors))
                      * ThreeDView.FLOOR_HEIGHT)%Q 10 20
                ++ ThreeDView.renderNeighbors i 10 20 []))
    /\
    (forall i roomGroup,
        ThreeDViewNeon.result i = Some SampleMore.no_floors ->
        ThreeDViewNeon.createBuildingScene i 10 20 roomGroup
        = Some (roomGroup
                ++ StackedNeon.slab typical
                     (inject_Z (Gemini.totalFloors
                                  (Gemini.buildingSummary SampleMore.no_floors))
                      * ThreeDViewNeon.FLOOR_HEIGHT)%Q 10 20
                ++ ThreeDViewNeon.renderNeighbors i 10 20 [])).
Proof.
  apply (createBuildingScene_without_floors_draws_a_roof 10 20
           SampleMore.no_floors).
  - simpl. lia.
  - simpl. discriminate.
Defined.

Lemma createBuildingScene_draws_two_plans_only_witness :
  ThreeDView.createBuildingScene Sample.view 10 20 []
  = ThreeDView.createBuildingScene
      {| ThreeDView.plan := None;
         ThreeDView.result :=
           Some {| Gemini.buildingSummary :=
                     Gemini.buildingSummary Sample.three_floors;
                   Gemini.floorPlans :=
                     [ Sample.ground_floor; Sample.first_floor ] |};
         ThreeDView.viewType := ThreeDView.building;
         ThreeDView.landWidth := 10; ThreeDView.landDepth := 20;
         ThreeDView.neighborWestFloors := 2;
         ThreeDView.neighborEastFloors := 2 |}
      10 20 [].
Proof.
  apply (createBuildingScene_draws_two_plans_only 10 20
           (Gemini.buildingSummary Sample.three_floors)
           Sample.ground_floor Sample.first_floor
           [ Sample.second_floor ] []).
  - reflexivity.
  - reflexivity.
Defined.

Lemma camera_aims_at_the_building_witness :
  exists c,
    ViewCamera.updateCameraPosition Sample.view (Some SampleMore.camera) = Some c /\
    Three.vx (ViewCamera.target c) = 0%Q /\
    Three.vz (ViewCamera.target c) = 0%Q /\
    (Three.vy (ViewCamera.target c) == inject_Z 3 * 3 / 3)%Q /\
    (Three.vy (ViewCamera.position c) == inject_Z 3 * 3 * 0.8)%Q.
Proof.
  destruct (proj1 camera_aims_at_the_building Sample.view 3) as (_ & _ & H).
  - right. split; [discriminate | reflexivity].
  - destruct (H SampleMore.camera) as (c & Hc & Hx & Hz & Hy & _ & Hb).
    exists c. repeat split; try assumption.
    apply (Hb eq_refl).
Defined.

Lemma base_polygon_is_stretched_over_the_plot_witness :
  exists path,
    NeonBase.baseGeo SampleMore.view_with_polygon 10 20
    = Some (NeonBase.ShapeGeometry path) /\
    List.length path = 3%nat /\
    forall op, In op path ->
      (- (10 / 2) <= NeonBase.shape_x op <= 10 / 2)%Q /\
      (- (20 / 2) <= NeonBase.shape_y op <= 20 / 2)%Q.
Proof.
  apply (proj1 (proj2 (proj2 (base_polygon_is_stretched_over_the_plot
                                SampleMore.view_with_polygon 10 20)))
               [ (0, 0); (3 # 4, 0); (0, 3 # 4) ]%Q).
  - reflexivity.
  - simpl. lia.
  - discriminate.
  - discriminate.
  - reflexivity.
  - reflexivity.
Defined.

Lemma prompt_states_the_stored_dimensions_witness :
  Gemini.interpolated_after "- Width (along street): "
    (Gemini.prompt 37.5 37.5 2 2)
  = Some (App.landWidth
            (fst (App.analyzePlot rejecting_service
                    (Sample.drawing_state Sample.triangle)))) /\
  Gemini.interpolated_after "- Depth: " (Gemini.prompt 37.5 37.5 2 2)
  = Some (App.landDepth
            (fst (App.analyzePlot rejecting_service
                    (Sample.drawing_state Sample.triangle)))).
Proof.
  apply (prompt_states_the_stored_dimensions rejecting_service
           (Sample.drawing_state Sample.triangle)).
  vm_compute. reflexivity.
Defined.
